(** * pyradigm: the BaseDataset container (src/pyradigm/base.py)

    A shallow embedding of [BaseDataset]: its three ordered mappings
    (features, targets, classes), the derived metadata, and the public
    operations that mutate a dataset or derive a new one.

    Conventions of the embedding
    - Python exceptions are values of [exn]; a call that may raise returns a
      [result].  A method that mutates [self] returns the state of [self]
      after the call together with its outcome, so that the state left behind
      by a call that raises can be inspected.
    - [warnings.warn] is modelled by returning the list of warnings emitted;
      [print] is not modelled.
    - An [OrderedDict] (and a [dict], which keeps insertion order too) is an
      association list in insertion order.
    - The targets and the classes setter keep the dictionary object they
      are handed, so one object can be held under both attributes; the
      state of a dataset records whether that is so, and a store or a pop
      through one attribute is then seen through the other.  The types keep
      the dictionary of feature vectors apart from those two.  A dictionary
      that the caller changes after handing it over, or that two datasets
      hold, is not modelled: every statement is about one call, or one
      sequence of calls, on the datasets it names.
    - NumPy arrays carry their Python class, their element type and their
      elements; floating-point elements are IEEE binary64 ([PrimFloat]).
    - [copy.deepcopy] of a dataset is the identity on states (it keeps a
      dictionary held under two attributes as one object); the copy
      constructor deep-copies attribute by attribute, so its result holds
      two distinct label dictionaries.
    - Loading from a pickle or an ARFF file is left out. *)

From Stdlib Require Import String Ascii DecimalString.
From Stdlib Require Import ZArith Bool Lia Arith List Permutation.
From Stdlib Require Import Floats.
Import ListNotations.

Local Open Scope string_scope.
Local Open Scope list_scope.

(* ================================================================== *)
(** ** Python values *)

(** Exception classes raised by the code (or by the built-ins it calls). *)
Inductive exn : Type :=
| ValueError
| TypeError
| KeyError
| IndexError
| UnboundLocalError
| ArithmeticError.

Inductive result (A : Type) : Type :=
| Ok (a : A)
| Raise (e : exn).

Arguments Ok {A} a.
Arguments Raise {A} e.

Definition bind {A B : Type} (r : result A) (k : A -> result B) : result B :=
  match r with
  | Ok a => k a
  | Raise e => Raise e
  end.

Notation "x <- r ;; k" := (bind r (fun x => k))
  (at level 61, r at next level, right associativity).

Definition exn_eqb (a b : exn) : bool :=
  match a, b with
  | ValueError, ValueError | TypeError, TypeError | KeyError, KeyError
  | IndexError, IndexError | UnboundLocalError, UnboundLocalError
  | ArithmeticError, ArithmeticError => true
  | _, _ => false
  end.

(** [raises r e]: the call ended by raising [e]. *)
Definition raises {A : Type} (r : result A) (e : exn) : bool :=
  match r with
  | Raise e' => exn_eqb e e'
  | Ok _ => false
  end.

(** Samplet ids, targets and class ids are Python [str] or [int] objects. *)
Inductive pyatom : Type :=
| PStr (s : string)
| PInt (z : Z).

Definition pyatom_eqb (a b : pyatom) : bool :=
  match a, b with
  | PStr s, PStr t => String.eqb s t
  | PInt x, PInt y => Z.eqb x y
  | _, _ => false
  end.

(** [str(target)] *)
Definition str (a : pyatom) : pyatom :=
  match a with
  | PStr s => PStr s
  | PInt z => PStr (NilZero.string_of_int (Z.to_int z))
  end.

Definition str_of_nat (n : nat) : string :=
  NilZero.string_of_uint (Nat.to_uint n).

(** Warnings issued through [warnings.warn]. *)
Inductive warning : Type :=
| WarnDeleteNotFound      (* del_sample: id not in the dataset *)
| WarnSubsetNotFound      (* get_subset: none of the ids exist *)
| WarnEmptySubset         (* get_data_matrix_in_order: no id given *)
| WarnNothingToRemove     (* __sub__: no common id *)
| WarnRemovesAll.         (* __sub__: every id is removed *)

Definition newline : string := String (ascii_of_nat 10) EmptyString.

(* ================================================================== *)
(** ** Ordered dictionaries *)

Definition odict (V : Type) : Type := list (pyatom * V).

Section OrderedDict.
Context {V : Type}.

(** [list(d)] *)
Definition od_keys (d : odict V) : list pyatom := map fst d.

(** [d.values()] *)
Definition od_values (d : odict V) : list V := map snd d.

(** [len(d)] *)
Definition od_len (d : odict V) : nat := length d.

(** [key in seq] for a list of ids *)
Definition id_in (k : pyatom) (l : list pyatom) : bool :=
  existsb (pyatom_eqb k) l.

(** [k in d] *)
Definition od_contains (k : pyatom) (d : odict V) : bool :=
  id_in k (od_keys d).

Fixpoint od_find (k : pyatom) (d : odict V) : option V :=
  match d with
  | [] => None
  | (k', v) :: r => if pyatom_eqb k k' then Some v else od_find k r
  end.

(** [d[k]] *)
Definition od_getitem (k : pyatom) (d : odict V) : result V :=
  match od_find k d with
  | Some v => Ok v
  | None => Raise KeyError
  end.

(** [d[k] = v]: an existing key keeps its position, a new key goes last. *)
Fixpoint od_setitem (k : pyatom) (v : V) (d : odict V) : odict V :=
  match d with
  | [] => [(k, v)]
  | (k', v') :: r =>
      if pyatom_eqb k k' then (k', v) :: r
      else (k', v') :: od_setitem k v r
  end.

Fixpoint od_remove (k : pyatom) (d : odict V) : odict V :=
  match d with
  | [] => []
  | (k', v') :: r =>
      if pyatom_eqb k k' then r else (k', v') :: od_remove k r
  end.

(** [d.pop(k)], the popped value dropped *)
Definition od_pop (k : pyatom) (d : odict V) : result (odict V) :=
  if od_contains k d then Ok (od_remove k d) else Raise KeyError.

(** [OrderedDict((sid, value) for sid, value in input_dict.items()
                 if sid in subset)] *)
Definition __get_subset_from_dict (input_dict : odict V)
           (subset : list pyatom) : odict V :=
  filter (fun kv => id_in (fst kv) subset) input_dict.

End OrderedDict.

(** [set(a) == set(b)] on lists of ids *)
Definition set_eqb (a b : list pyatom) : bool :=
  forallb (fun k => id_in k b) a && forallb (fun k => id_in k a) b.

(** The distinct elements of a list: [set(l)], in some order. *)
Fixpoint distinct (l : list pyatom) : list pyatom :=
  match l with
  | [] => []
  | x :: r => if id_in x r then distinct r else x :: distinct r
  end.

(** [len(set(a).intersection(b))] *)
Definition inter_count (a b : list pyatom) : nat :=
  length (filter (fun k => id_in k b) (distinct a)).

(** [list(set(a) - set(b))]; the order of the result is unspecified in
    Python, the model lists it in the order of [a]. *)
Definition set_diff (a b : list pyatom) : list pyatom :=
  filter (fun k => negb (id_in k b)) (distinct a).

(* ================================================================== *)
(** ** NumPy arrays *)

(** The Python class of an array object: [np.ndarray] itself, or a plain
    subclass of it (one that keeps the default [__array_priority__]). *)
Inductive arrclass : Type :=
| NdArray
| SubArray (name : string).

Definition arrclass_eqb (c d : arrclass) : bool :=
  match c, d with
  | NdArray, NdArray => true
  | SubArray n, SubArray m => String.eqb n m
  | _, _ => false
  end.

(** [issubclass(c, d)] *)
Definition issubclass (c d : arrclass) : bool :=
  arrclass_eqb c d || arrclass_eqb d NdArray.

(** The integers that [int64] holds. *)
Definition fits_int64 (z : Z) : bool :=
  ((-9223372036854775808 <=? z) && (z <=? 9223372036854775807))%Z.

(** A Python number.  An [int] comes with the fact that it fits in
    [int64]: [np.asarray] gives a list with a larger [int] another element
    type ([uint64] or [object]), which is outside this model. *)
Inductive scalar : Type :=
| PyInt (z : Z) (fits : fits_int64 z = true)
| SFloat (f : float).

(** An integer literal within the range. *)
Abbreviation SInt z := (PyInt z eq_refl).

(** The elements of an array together with their element type
    ([arr.dtype]): [int64] or [float64].  The elements of an [int64] array
    are those of an array that exists, so they are within the range of
    [int64]; no operation of the dataset computes with them. *)
Inductive npdata : Type :=
| I64 (l : list Z)
| F64 (l : list float).

Inductive eltype : Type := Int64 | Float64.

(** Conversion of an integer to binary64, rounding to nearest even. *)
Definition Z_to_float (z : Z) : float :=
  SF2Prim (binary_normalize 53 1024 z 0 false).

Definition as_floats (d : npdata) : list float :=
  match d with
  | I64 l => map Z_to_float l
  | F64 l => l
  end.

Definition np_len (d : npdata) : nat :=
  match d with
  | I64 l => length l
  | F64 l => length l
  end.

(** A one-dimensional array, the form in which [check_features] hands a
    feature vector on. *)
Record ndarray : Type := mk_ndarray {
  a_class : arrclass;
  a_data : npdata
}.

(** [arr.size] *)
Definition size (a : ndarray) : nat := np_len (a_data a).

(** [arr.dtype] *)
Definition elem_type (a : ndarray) : eltype :=
  match a_data a with
  | I64 _ => Int64
  | F64 _ => Float64
  end.

(** [type(arr)] *)
Definition type (a : ndarray) : arrclass := a_class a.

(** [isinstance(arr, cls)], where [cls] is the stored [__dtype]; with
    [None] in the place of a class the built-in raises [TypeError]. *)
Definition isinstance (a : ndarray) (cls : option arrclass) : result bool :=
  match cls with
  | Some c => Ok (issubclass (type a) c)
  | None => Raise TypeError
  end.

(** What [add_sample] and [__setitem__] accept as features: a flat Python
    list of numbers, or an array of rank [1 + extra_dims] whose elements are
    given in C order. *)
Inductive pyfeat : Type :=
| PyList (l : list scalar)
| PyArray (a : ndarray) (extra_dims : nat).

Definition all_ints (l : list scalar) : option (list Z) :=
  fold_right (fun s acc =>
                match s, acc with
                | PyInt z _, Some r => Some (z :: r)
                | _, _ => None
                end) (Some []) l.

Definition scalar_to_float (s : scalar) : float :=
  match s with
  | PyInt z _ => Z_to_float z
  | SFloat f => f
  end.

(** [np.asarray(l)] for a flat list of numbers: [int64] when every item is
    an [int] (and there is one; each fits in [int64], see [scalar]),
    [float64] otherwise. *)
Definition asarray (l : list scalar) : ndarray :=
  match l, all_ints l with
  | _ :: _, Some zs => mk_ndarray NdArray (I64 zs)
  | _, _ => mk_ndarray NdArray (F64 (map scalar_to_float l))
  end.

(** [np.array(['f{}'.format(x) for x in range(num)])] *)
Definition __str_names (num : nat) : list string :=
  map (fun x => String.append "f" (str_of_nat x)) (seq 0 num).

(** One position of an integer-array index into a sequence of length
    [length l]: negative positions count from the end. *)
Definition np_index {A : Type} (l : list A) (i : Z) : result A :=
  let n := Z.of_nat (length l) in
  let j := if (i <? 0)%Z then (i + n)%Z else i in
  if ((0 <=? j)%Z && (j <? n)%Z)%bool then
    match nth_error l (Z.to_nat j) with
    | Some x => Ok x
    | None => Raise IndexError
    end
  else Raise IndexError.

(** [l[idx]] for an integer index array [idx] *)
Fixpoint np_take {A : Type} (l : list A) (idx : list Z) : result (list A) :=
  match idx with
  | [] => Ok []
  | i :: r =>
      x <- np_index l i ;;
      xs <- np_take l r ;;
      Ok (x :: xs)
  end.

(** [arr[idx]]; indexing keeps the class and the element type. *)
Definition arr_take (a : ndarray) (idx : list Z) : result ndarray :=
  match a_data a with
  | I64 l => r <- np_take l idx ;; Ok (mk_ndarray (a_class a) (I64 r))
  | F64 l => r <- np_take l idx ;; Ok (mk_ndarray (a_class a) (F64 r))
  end.

(** [np.concatenate([a, b])]: the result is a base-class array; mixed
    element types are promoted to [float64]. *)
Definition concatenate (a b : ndarray) : ndarray :=
  match a_data a, a_data b with
  | I64 x, I64 y => mk_ndarray NdArray (I64 (x ++ y))
  | _, _ => mk_ndarray NdArray (F64 (as_floats (a_data a) ++ as_floats (a_data b)))
  end.

Fixpoint all2 {A B : Type} (p : A -> B -> bool) (x : list A) (y : list B) : bool :=
  match x, y with
  | [], [] => true
  | a :: x', b :: y' => p a b && all2 p x' y'
  | _, _ => false
  end.

(** [np.all(x == y)] on element lists of one type, with NumPy's
    broadcasting of a length-one operand.  Operands whose lengths cannot be
    broadcast compare unequal as a whole (the result of [==] is then the
    scalar [False]). *)
Definition all_equal {A : Type} (eqb : A -> A -> bool) (x y : list A) : bool :=
  if Nat.eqb (length x) (length y) then all2 eqb x y
  else
    match x, y with
    | [a], _ => forallb (eqb a) y
    | _, [b] => forallb (fun a => eqb a b) x
    | _, _ => false
    end.

(** [np.all(a == b)] *)
Definition np_all_eq (a b : ndarray) : bool :=
  match a_data a, a_data b with
  | I64 x, I64 y => all_equal Z.eqb x y
  | _, _ => all_equal PrimFloat.eqb (as_floats (a_data a)) (as_floats (a_data b))
  end.

(** [np.array_equal] on two arrays of names *)
Definition names_equal (x y : list string) : bool := all2 String.eqb x y.

(** A two-dimensional [float64] array. *)
Record matrix : Type := mk_matrix {
  m_rows : nat;
  m_cols : nat;
  m_data : list (list float)
}.

(** [np.empty((0, 0))] *)
Definition empty_matrix : matrix := mk_matrix 0 0 [].

(** The value stored by [matrix[idx, :] = arr] in a row of [ncols]
    columns: the array itself, or its only element repeated. *)
Definition row_of (ncols : nat) (a : ndarray) : result (list float) :=
  let xs := as_floats (a_data a) in
  if Nat.eqb (length xs) ncols then Ok xs
  else
    match xs with
    | [x] => Ok (repeat x ncols)
    | _ => Raise ValueError
    end.

(** [np.min(arr)]: raises on an empty array. *)
Definition np_min (l : list float) : result float :=
  match l with
  | [] => Raise ValueError
  | x :: r => Ok (fold_left (fun m y => if PrimFloat.ltb y m then y else m) r x)
  end.

(** [len(np.unique(sizes))] *)
Definition count_unique (l : list nat) : nat := length (nodup Nat.eq_dec l).

(* ================================================================== *)
(** ** The dataset *)

(** The two label mappings [self.__targets] and [self.__classes]: two
    dictionary objects, or one object held under both attributes (the
    setters store the object they are handed, so [ds.classes = ds.targets]
    leaves one dictionary under both names). *)
Inductive label_maps : Type :=
| TwoDicts (t c : odict pyatom)
| OneDict (tc : odict pyatom).

(** The private attributes of a [BaseDataset] instance.  [names_in_list]
    tells whether [self.__feature_names] is a Python list (the bulk
    constructor keeps the object it is given) rather than an array. *)
Record BaseDataset : Type := dataset_of {
  data : odict ndarray;                 (* self.__data *)
  labels : label_maps;                  (* self.__targets, self.__classes *)
  num_features : nat;                   (* self.__num_features *)
  dtype : option arrclass;              (* self.__dtype *)
  description : string;                 (* self.__description *)
  feature_names : option (list string); (* self.__feature_names *)
  names_in_list : bool
}.

(** A dataset that holds its targets and its classes in two dictionary
    objects and its feature names, if any, in an array. *)
Abbreviation mk_dataset d t c n ty descr names :=
  (dataset_of d (TwoDicts t c) n ty descr names false).

(** [self.__targets] *)
Definition targets (ds : BaseDataset) : odict pyatom :=
  match labels ds with
  | TwoDicts t _ => t
  | OneDict tc => tc
  end.

(** [self.__classes] *)
Definition classes (ds : BaseDataset) : odict pyatom :=
  match labels ds with
  | TwoDicts _ c => c
  | OneDict tc => tc
  end.

(** [self.__targets is self.__classes] *)
Definition one_dict (ds : BaseDataset) : bool :=
  match labels ds with
  | TwoDicts _ _ => false
  | OneDict _ => true
  end.

Arguments targets !ds /.
Arguments classes !ds /.
Arguments one_dict !ds /.

Definition with_data (ds : BaseDataset) (d : odict ndarray) : BaseDataset :=
  dataset_of d (labels ds) (num_features ds) (dtype ds)
             (description ds) (feature_names ds) (names_in_list ds).

Definition with_labels (ds : BaseDataset) (l : label_maps) : BaseDataset :=
  dataset_of (data ds) l (num_features ds) (dtype ds)
             (description ds) (feature_names ds) (names_in_list ds).

(** [self.__targets = t] and [self.__classes = c] for a dictionary object
    that the dataset does not hold yet: the attribute is bound to it, the
    other attribute keeps its object. *)
Definition with_targets (ds : BaseDataset) (t : odict pyatom) : BaseDataset :=
  with_labels ds (TwoDicts t (classes ds)).

Definition with_classes (ds : BaseDataset) (c : odict pyatom) : BaseDataset :=
  with_labels ds (TwoDicts (targets ds) c).

(** A change made in place to the dictionary object held as
    [self.__targets], and to the one held as [self.__classes]. *)
Definition update_targets (ds : BaseDataset) (f : odict pyatom -> odict pyatom)
  : BaseDataset :=
  with_labels ds (match labels ds with
                  | TwoDicts t c => TwoDicts (f t) c
                  | OneDict tc => OneDict (f tc)
                  end).

Definition update_classes (ds : BaseDataset) (f : odict pyatom -> odict pyatom)
  : BaseDataset :=
  with_labels ds (match labels ds with
                  | TwoDicts t c => TwoDicts t (f c)
                  | OneDict tc => OneDict (f tc)
                  end).

Definition with_num_features (ds : BaseDataset) (n : nat) : BaseDataset :=
  dataset_of (data ds) (labels ds) n (dtype ds)
             (description ds) (feature_names ds) (names_in_list ds).

Definition with_dtype (ds : BaseDataset) (t : option arrclass) : BaseDataset :=
  dataset_of (data ds) (labels ds) (num_features ds) t
             (description ds) (feature_names ds) (names_in_list ds).

Definition with_description (ds : BaseDataset) (s : string) : BaseDataset :=
  dataset_of (data ds) (labels ds) (num_features ds) (dtype ds)
             s (feature_names ds) (names_in_list ds).

(** [self.__feature_names = n] for an array [n] of names ([np.array(...)]
    or [__str_names(...)]). *)
Definition with_feature_names (ds : BaseDataset) (n : option (list string))
  : BaseDataset :=
  dataset_of (data ds) (labels ds) (num_features ds) (dtype ds)
             (description ds) n false.

(** [self.keys] / [self.sample_ids] *)
Definition keys (self : BaseDataset) : list pyatom := od_keys (data self).

(** [self.num_samples] *)
Definition num_samples (self : BaseDataset) : nat := od_len (data self).

(** The state set up by the constructor when no argument is given. *)
Definition empty_dataset : BaseDataset :=
  mk_dataset [] [] [] 0 None EmptyString None.

(** [__validate(data, classes, targets)], with the parameters in the order
    and under the names of its definition.  The three [isinstance] tests
    are settled by the types. *)
Definition __validate (data : odict ndarray) (classes targets : odict pyatom)
  : result bool :=
  if negb (Nat.eqb (od_len data) (od_len targets)
           && Nat.eqb (od_len targets) (od_len classes)) then
    Raise ValueError
  else if negb (set_eqb (od_keys data) (od_keys targets)
                && set_eqb (od_keys targets) (od_keys classes)) then
    Raise ValueError
  else if Nat.ltb 1 (count_unique (map size (od_values data))) then
    Raise ValueError
  else Ok true.

(** [__copy]: every attribute is deep-copied, each by a call of its own,
    so the copy holds two label dictionaries even where [other] holds
    one. *)
Definition __copy (other : BaseDataset) : BaseDataset :=
  dataset_of (data other) (TwoDicts (targets other) (classes other))
             (num_features other) (dtype other) (description other)
             (feature_names other) (names_in_list other).

(** The [feature_names] argument of the bulk constructor: a Python list of
    names or an array of names. *)
Inductive name_seq : Type :=
| NameList (l : list string)
| NameArray (l : list string).

Definition names_of (s : name_seq) : list string :=
  match s with
  | NameList l => l
  | NameArray l => l
  end.

Definition is_list (s : name_seq) : bool :=
  match s with
  | NameList _ => true
  | NameArray _ => false
  end.

(** The constructor, for the calls that do not read a file:
    [cls(in_dataset=...)], [cls()], and
    [cls(data=..., targets=..., classes=..., description=..., feature_names=...)].
    The bulk form calls [self.__validate(data, targets, classes)], so the
    targets arrive under the parameter [classes] of [__validate] and the
    classes under [targets].  It copies the three dictionaries into new
    [OrderedDict]s and keeps the [feature_names] object as it is given. *)
Definition __init__ (in_dataset : option BaseDataset)
           (d : option (odict ndarray)) (t c : option (odict pyatom))
           (descr : string) (names : option name_seq) : result BaseDataset :=
  match in_dataset with
  | Some other =>
      if Nat.leb (num_samples other) 0 then Raise ValueError
      else Ok (__copy other)
  | None =>
      match d, t, c with
      | None, None, None => Ok empty_dataset
      | Some d, Some t, Some c =>
          _ <- __validate d t c ;;
          match od_keys d with
          | [] => Raise IndexError                (* sample_ids[0] *)
          | k0 :: _ =>
              features0 <- od_getitem k0 d ;;
              let n := size features0 in
              Ok (match names with
                  | None =>
                      mk_dataset d t c n (Some (type features0)) descr
                                 (Some (__str_names n))
                  | Some given =>
                      dataset_of d (TwoDicts t c) n (Some (type features0)) descr
                                 (Some (names_of given)) (is_list given)
                  end)
          end
      | _, _, _ => Raise ValueError
      end
  end.

(** [check_features]: anything that is not an array goes through
    [np.asarray]; an empty array is refused; an array of rank above one
    is flattened by [np.ravel], which keeps its class. *)
Definition check_features (features : pyfeat) : result ndarray :=
  let '(arr, extra_dims) :=
    match features with
    | PyList l => (asarray l, 0)
    | PyArray a k => (a, k)
    end in
  if Nat.leb (size arr) 0 then Raise ValueError
  else if Nat.ltb 1 (1 + extra_dims) then Ok (mk_ndarray (a_class arr) (a_data arr))
  else Ok arr.

(** The three assignments
    [self.__data[sample_id] = features],
    [self.__targets[sample_id] = target],
    [self.__classes[sample_id] = class_id],
    in this order: where one dictionary is held under both attributes the
    class id is stored over the target. *)
Definition store_sample (self : BaseDataset) (sample_id : pyatom)
           (features : ndarray) (target class_id : pyatom) : BaseDataset :=
  update_classes
    (update_targets
       (with_data self (od_setitem sample_id features (data self)))
       (od_setitem sample_id target))
    (od_setitem sample_id class_id).

(** [add_sample]: the state of [self] after the call, and its outcome. *)
Definition add_sample (self : BaseDataset) (sample_id : pyatom)
           (features : pyfeat) (target : pyatom) (class_id : option pyatom)
           (overwrite : bool) (names : option (list string))
  : BaseDataset * result unit :=
  if od_contains sample_id (data self) && negb overwrite then
    (self, Raise ValueError)
  else
    let class_id := match class_id with
                    | None => str target
                    | Some c => c
                    end in
    match check_features features with
    | Raise e => (self, Raise e)
    | Ok features =>
        if Nat.leb (num_samples self) 0 then
          let s1 := store_sample self sample_id features target class_id in
          let s2 := with_dtype s1 (Some (type features)) in
          let s3 := with_num_features s2 (size features) in
          match names with
          | None =>
              (with_feature_names s3 (Some (__str_names (num_features s3))), Ok tt)
          | Some _ => (s3, Ok tt)
          end
        else if negb (Nat.eqb (num_features self) (size features)) then
          (self, Raise ValueError)
        else
          match isinstance features (dtype self) with
          | Raise e => (self, Raise e)
          | Ok false => (self, Raise TypeError)
          | Ok true =>
              let s1 := store_sample self sample_id features target class_id in
              match names with
              | None => (s1, Ok tt)
              | Some given =>
                  match feature_names s1 with
                  | None => (with_feature_names s1 (Some given), Ok tt)
                  | Some current =>
                      if negb (names_equal current given) then
                        (s1, Raise ValueError)
                      else (s1, Ok tt)
                  end
              end
          end
    end.

(** [del_sample]: the state of [self] after the call, the warnings it
    gave, and its outcome.  The three [pop] calls run in the order
    data, classes, targets; where one dictionary is held under both label
    attributes the third [pop] looks for the id that the second one took
    out. *)
Definition del_sample (self : BaseDataset) (sample_id : pyatom)
  : BaseDataset * list warning * result unit :=
  if negb (od_contains sample_id (data self)) then
    (self, [WarnDeleteNotFound], Ok tt)
  else
    match od_pop sample_id (data self) with
    | Raise e => (self, [], Raise e)
    | Ok d =>
        let s1 := with_data self d in
        match od_pop sample_id (classes s1) with
        | Raise e => (s1, [], Raise e)
        | Ok c =>
            let s2 := update_classes s1 (fun _ => c) in
            match od_pop sample_id (targets s2) with
            | Raise e => (s2, [], Raise e)
            | Ok t => (update_targets s2 (fun _ => t), [], Ok tt)
            end
        end
    end.

(** The [data] setter.  A property setter receives the value only, so
    [feature_names] is always [None] and, when the value is accepted, the
    default names are installed. *)
Definition set_data (self : BaseDataset) (values : odict ndarray)
  : BaseDataset * result unit :=
  if negb (Nat.eqb (od_len (targets self)) (od_len values)) then
    (self, Raise ValueError)
  else if Nat.ltb (od_len values) 1 then
    (self, Raise ValueError)
  else
    let s1 := with_data self values in
    match keys s1 with
    | [] => (s1, Raise IndexError)
    | k0 :: _ =>
        match od_getitem k0 values with
        | Raise e => (s1, Raise e)
        | Ok v =>
            let s2 := with_num_features s1 (size v) in
            (with_feature_names s2 (Some (__str_names (num_features s2))), Ok tt)
        end
    end.

(** The dictionary object handed to the targets or the classes setter:
    the object the dataset holds as its targets, the one it holds as its
    classes, or a dictionary it does not hold. *)
Inductive dict_object : Type :=
| HeldTargets
| HeldClasses
| OtherDict (items : odict pyatom).

(** The items of the object as the setter finds them. *)
Definition items_of (self : BaseDataset) (values : dict_object) : odict pyatom :=
  match values with
  | HeldTargets => targets self
  | HeldClasses => classes self
  | OtherDict items => items
  end.

(** The [targets] setter: [self.__targets = values] binds the attribute to
    the object handed in. *)
Definition set_targets (self : BaseDataset) (values : dict_object)
  : BaseDataset * result unit :=
  if negb (Nat.eqb (od_len (data self)) (od_len (items_of self values))) then
    (self, Raise ValueError)
  else if negb (set_eqb (keys self) (od_keys (items_of self values))) then
    (self, Raise ValueError)
  else
    match values with
    | HeldTargets => (self, Ok tt)
    | HeldClasses => (with_labels self (OneDict (classes self)), Ok tt)
    | OtherDict items => (with_targets self items, Ok tt)
    end.

(** The [classes] setter: [self.__classes = values]. *)
Definition set_classes (self : BaseDataset) (values : dict_object)
  : BaseDataset * result unit :=
  if negb (Nat.eqb (od_len (data self)) (od_len (items_of self values))) then
    (self, Raise ValueError)
  else if negb (set_eqb (keys self) (od_keys (items_of self values))) then
    (self, Raise ValueError)
  else
    match values with
    | HeldClasses => (self, Ok tt)
    | HeldTargets => (with_labels self (OneDict (targets self)), Ok tt)
    | OtherDict items => (with_classes self items, Ok tt)
    end.

(** The [feature_names] setter; [len(None)] raises [TypeError]. *)
Definition set_feature_names (self : BaseDataset) (names : option (list string))
  : BaseDataset * result unit :=
  match names with
  | None => (self, Raise TypeError)
  | Some l =>
      if negb (Nat.eqb (List.length l) (num_features self)) then
        (self, Raise ValueError)
      else (with_feature_names self (Some l), Ok tt)
  end.

(** The [description] setter. *)
Definition set_description (self : BaseDataset) (str_val : string)
  : BaseDataset * result unit :=
  if String.eqb str_val EmptyString then (self, Raise ValueError)
  else (with_description self str_val, Ok tt).

(** [__setitem__]: replaces the features of an existing samplet. *)
Definition __setitem__ (self : BaseDataset) (item : pyatom) (features : pyfeat)
  : BaseDataset * result unit :=
  if od_contains item (data self) then
    match check_features features with
    | Raise e => (self, Raise e)
    | Ok features =>
        if negb (Nat.eqb (num_features self) (size features)) then
          (self, Raise ValueError)
        else (with_data self (od_setitem item features (data self)), Ok tt)
    end
  else (self, Raise KeyError).

(** [max(subset_idx)] and [min(subset_idx)]: the built-ins raise
    [ValueError] on an empty sequence. *)
Definition py_max (l : list Z) : result Z :=
  match l with
  | [] => Raise ValueError
  | x :: r => Ok (fold_left Z.max r x)
  end.

Definition py_min (l : list Z) : result Z :=
  match l with
  | [] => Raise ValueError
  | x :: r => Ok (fold_left Z.min r x)
  end.

(** A dict comprehension [{k: f(v) for k, v in d.items()}] whose body may
    raise. *)
Fixpoint od_map_result {A B : Type} (f : A -> result B) (d : odict A)
  : result (odict B) :=
  match d with
  | [] => Ok []
  | (k, v) :: r =>
      w <- f v ;;
      r' <- od_map_result f r ;;
      Ok ((k, w) :: r')
  end.

(** The guard of [get_feature_subset], as Python parses it:
    [(not (max(subset_idx) < n)) and (min(subset_idx) >= 0)];
    [and] evaluates its right operand only when the left one holds. *)
Definition out_of_range_guard (subset_idx : list Z) (n : nat) : result bool :=
  mx <- py_max subset_idx ;;
  if negb (mx <? Z.of_nat n)%Z then
    mn <- py_min subset_idx ;;
    Ok (mn >=? 0)%Z
  else Ok false.

(** [get_feature_subset]; [subset_idx] has gone through [np.asarray], and
    a Python list of names indexed by an array raises [TypeError]. *)
Definition get_feature_subset (self : BaseDataset) (subset_idx : list Z)
  : result BaseDataset :=
  out_of_range <- out_of_range_guard subset_idx (num_features self) ;;
  if out_of_range then Raise UnboundLocalError
  else
    sub_data <- od_map_result (fun features => arr_take features subset_idx)
                              (data self) ;;
    let new_descr :=
      String.append "Subset features derived from: "
        (String.append newline (String.append " " (description self))) in
    names <- match feature_names self with
             | None => Raise TypeError
             | Some l =>
                 if names_in_list self then Raise TypeError
                 else np_take l subset_idx
             end ;;
    __init__ None (Some sub_data) (Some (targets self)) (Some (classes self))
             new_descr (Some (NameArray names)).

(** The loop of [transform] over [self.__data.items()]. *)
Fixpoint transform_loop (self : BaseDataset) (func : ndarray -> result pyfeat)
         (items : odict ndarray) (xfm_ds : BaseDataset) : result BaseDataset :=
  match items with
  | [] => Ok xfm_ds
  | (samplet, dat) :: rest =>
      xfm_data <- func dat ;;
      target <- od_getitem samplet (targets self) ;;
      class_id <- od_getitem samplet (classes self) ;;
      match add_sample xfm_ds samplet xfm_data target (Some class_id) false None with
      | (_, Raise e) => Raise e
      | (xfm_ds', Ok _) => transform_loop self func rest xfm_ds'
      end
  end.

(** ["{}".format(func_description)] *)
Definition format_opt (s : option string) : string :=
  match s with
  | None => "None"
  | Some s => s
  end.

(** [transform]; [func] is a callable that may raise. *)
Definition transform (self : BaseDataset) (func : ndarray -> result pyfeat)
           (func_description : option string) : result BaseDataset :=
  xfm_ds <- transform_loop self func (data self) empty_dataset ;;
  match set_description xfm_ds
          (String.append (format_opt func_description)
             (String.append newline (description self))) with
  | (_, Raise e) => Raise e
  | (xfm_ds', Ok _) => Ok xfm_ds'
  end.

(** [sum([1 for key in subset_ids if key in self.__data])] *)
Definition num_existing_keys (self : BaseDataset) (subset_ids : list pyatom) : nat :=
  List.length (filter (fun key => od_contains key (data self)) subset_ids).

(** [get_subset]: the warnings given and the dataset returned. *)
Definition get_subset (self : BaseDataset) (subset_ids : list pyatom)
  : list warning * result BaseDataset :=
  if Nat.ltb 0 (num_existing_keys self subset_ids) then
    let d := __get_subset_from_dict (data self) subset_ids in
    let t := __get_subset_from_dict (targets self) subset_ids in
    let c := __get_subset_from_dict (classes self) subset_ids in
    ([],
     subdataset <- __init__ None (Some d) (Some t) (Some c) EmptyString None ;;
     match set_description subdataset
             (String.append (description subdataset)
                (String.append newline
                   (String.append " Subset derived from: " (description self)))) with
     | (_, Raise e) => Raise e
     | (s1, Ok _) =>
         match set_feature_names s1 (feature_names self) with
         | (_, Raise e) => Raise e
         | (s2, Ok _) => Ok (with_dtype s2 (dtype self))
         end
     end)
  else ([WarnSubsetNotFound], Ok empty_dataset).

(** What [get_data_matrix_in_order] may be handed as [subset_ids]. *)
Inductive id_collection : Type :=
| IdList (l : list pyatom)      (* a list or a tuple *)
| IdSet (l : list pyatom)       (* a set, its elements in some order *)
| IdStr (s : string).           (* a single id given as a string *)

(** [len(subset_ids)] *)
Definition ids_len (c : id_collection) : nat :=
  match c with
  | IdList l => List.length l
  | IdSet l => List.length l
  | IdStr s => String.length s
  end.

(** The loop [matrix[idx, :] = self.__data[sid]] over [subset_ids]. *)
Fixpoint fill_rows (self : BaseDataset) (ids : list pyatom)
  : result (list (list float)) :=
  match ids with
  | [] => Ok []
  | sid :: rest =>
      features <- od_getitem sid (data self) ;;
      row <- row_of (num_features self) features ;;
      rows <- fill_rows self rest ;;
      Ok (row :: rows)
  end.

(** [get_data_matrix_in_order]: the warnings given and the matrix returned. *)
Definition get_data_matrix_in_order (self : BaseDataset) (subset_ids : id_collection)
  : list warning * result matrix :=
  if Nat.ltb (ids_len subset_ids) 1 then ([WarnEmptySubset], Ok empty_matrix)
  else
    match subset_ids with
    | IdSet _ => ([], Raise TypeError)
    | _ =>
        let ids := match subset_ids with
                   | IdStr s => [PStr s]
                   | IdList l => l
                   | IdSet l => l
                   end in
        let n := num_existing_keys self ids in
        if Nat.ltb n (List.length ids) then ([], Raise ValueError)
        else
          ([], rows <- fill_rows self ids ;;
               Ok (mk_matrix n (num_features self) rows))
    end.

(** The loop of [extend] over [other.keys]; it stops at the first call of
    [add_sample] that raises, leaving [self] as that call left it. *)
Fixpoint extend_loop (self other : BaseDataset) (ids : list pyatom)
  : BaseDataset * result unit :=
  match ids with
  | [] => (self, Ok tt)
  | samplet :: rest =>
      match od_getitem samplet (data other) with
      | Raise e => (self, Raise e)
      | Ok features =>
          match od_getitem samplet (targets other) with
          | Raise e => (self, Raise e)
          | Ok target =>
              match od_getitem samplet (classes other) with
              | Raise e => (self, Raise e)
              | Ok class_id =>
                  match add_sample self samplet (PyArray features 0) target
                                   (Some class_id) false None with
                  | (s1, Raise e) => (s1, Raise e)
                  | (s1, Ok _) => extend_loop s1 other rest
                  end
              end
          end
      end
  end.

(** [extend] *)
Definition extend (self other : BaseDataset) : BaseDataset * result unit :=
  extend_loop self other (keys other).

(** [==] on two [OrderedDict]s of ids to atoms: same items in the same
    order. *)
Definition odict_eqb (x y : odict pyatom) : bool :=
  all2 (fun a b => pyatom_eqb (fst a) (fst b) && pyatom_eqb (snd a) (snd b)) x y.

(** [dict(x) == dict(y)]: same keys, same value under every key, the order
    left aside. *)
Definition dict_eqb (x y : odict pyatom) : bool :=
  Nat.eqb (od_len x) (od_len y)
  && forallb (fun kv => match od_find (fst kv) y with
                        | Some v => pyatom_eqb (snd kv) v
                        | None => false
                        end) x.

(** The loop of [__add__] that fills [combined] with the concatenated
    features. *)
Fixpoint concat_loop (self other : BaseDataset) (ids : list pyatom)
         (combined : BaseDataset) : result BaseDataset :=
  match ids with
  | [] => Ok combined
  | samplet :: rest =>
      a <- od_getitem samplet (data self) ;;
      b <- od_getitem samplet (data other) ;;
      let comb_data := concatenate a b in
      target <- od_getitem samplet (targets self) ;;
      class_id <- od_getitem samplet (classes self) ;;
      match add_sample combined samplet (PyArray comb_data 0) target
                       (Some class_id) false None with
      | (_, Raise e) => Raise e
      | (combined', Ok _) => concat_loop self other rest combined'
      end
  end.

(** [x == y] on two class mappings.  Between two [OrderedDict]s (what the
    constructors and the copy build) the order of the items counts; as soon
    as one of them is a plain [dict] (the classes setter keeps what it is
    given) it does not. *)
Definition mapping_eqb (both_ordered : bool) (x y : odict pyatom) : bool :=
  if both_ordered then odict_eqb x y else dict_eqb x y.

(** [__add__]; [both_ordered] tells whether [self.__classes] and
    [other.classes] are both [OrderedDict]s. *)
Definition __add__ (self other : BaseDataset) (both_ordered : bool)
  : result BaseDataset :=
  if set_eqb (keys self) (keys other) then
    if negb (mapping_eqb both_ordered (classes self) (classes other)) then
      Raise ValueError
    else if Nat.ltb (num_features other) 1 then Raise ValueError
    else
      combined <- concat_loop self other (keys self) empty_dataset ;;
      comb_names <- match feature_names self, feature_names other with
                    | Some x, Some y => Ok (x ++ y)
                    | _, _ => Raise ValueError
                    end ;;
      match set_feature_names combined (Some comb_names) with
      | (_, Raise e) => Raise e
      | (combined', Ok _) => Ok combined'
      end
  else if Nat.ltb (inter_count (keys self) (keys other)) 1
          && Nat.eqb (num_features self) (num_features other) then
    combined <- __init__ (Some self) None None None EmptyString None ;;
    match extend combined other with
    | (_, Raise e) => Raise e
    | (combined', Ok _) => Ok combined'
    end
  else Raise ArithmeticError.

(** The loop of [__sub__] over [other.keys]. *)
Fixpoint remove_loop (removed : BaseDataset) (ids : list pyatom)
  : list warning * result BaseDataset :=
  match ids with
  | [] => ([], Ok removed)
  | samplet :: rest =>
      match del_sample removed samplet with
      | (_, w, Raise e) => (w, Raise e)
      | (removed', w, Ok _) =>
          let '(w', r) := remove_loop removed' rest in
          (w ++ w', r)
      end
  end.

(** [__sub__]: the warnings given and the dataset returned.  [removed] is
    [copy.deepcopy(self)], which has the state of [self]. *)
Definition __sub__ (self other : BaseDataset) : list warning * result BaseDataset :=
  let n := inter_count (keys self) (keys other) in
  let w1 := if Nat.ltb n 1 then [WarnNothingToRemove] else [] in
  let w2 := if Nat.eqb (List.length (keys self)) n then [WarnRemovesAll] else [] in
  let '(w3, r) := remove_loop self (keys other) in
  (w1 ++ w2 ++ w3, r).

(** The loop of [__eq__] over [self.keys]:
    [np.all(self.data[key] == other.data[key])]. *)
Fixpoint eq_loop (self other : BaseDataset) (ids : list pyatom) : result bool :=
  match ids with
  | [] => Ok true
  | key :: rest =>
      a <- od_getitem key (data self) ;;
      b <- od_getitem key (data other) ;;
      if negb (np_all_eq a b) then Ok false
      else eq_loop self other rest
  end.

(** [__eq__]; [same_object] tells whether [self.__data] and [other.data]
    are one and the same dictionary object ([id(...) == id(...)]). *)
Definition __eq__ (self other : BaseDataset) (same_object : bool) : result bool :=
  if negb (set_eqb (keys self) (keys other)) then Ok false
  else if negb (dict_eqb (classes self) (classes other)) then Ok false
  else if negb same_object then eq_loop self other (keys self)
  else Ok true.

(** [self.class_sizes]: [Counter(self.classes.values())], looked up at one
    class (a [Counter] answers 0 for a class it has not seen). *)
Definition class_sizes (self : BaseDataset) (cls : pyatom) : nat :=
  List.length (filter (pyatom_eqb cls) (od_values (classes self))).

(** Modelled from the spec: [class_set] is a property of the concrete
    dataset variants and is not defined in base.py; it is the set of class
    labels of the samplets (section 6: a summary of "class set, label set,
    per-class sizes"), listed here without repetition. *)
Definition class_set (self : BaseDataset) : list pyatom :=
  distinct (od_values (classes self)).

(** [summarize_classes], its third component: the size of each class of
    [class_set] in a [float64] array. *)
Definition summarize_classes (self : BaseDataset) : list float :=
  map (fun cls => Z_to_float (Z.of_nat (class_sizes self cls))) (class_set self).

Section TrainTestSplit.
(** [random_subset_ids] and [random_subset_ids_by_count] are methods of
    the concrete dataset variants; base.py only calls them.  They draw ids
    at random, so each is taken as an arbitrary function that returns a
    list of ids or raises. *)
Variable random_subset_ids : BaseDataset -> float -> result (list pyatom).
Variable random_subset_ids_by_count : BaseDataset -> Z -> result (list pyatom).

(** The if/elif/else of [train_test_split_ids] that picks the training
    ids, case by case on which arguments are [None]:
    - neither given: [count_per_class is None] holds, so the chained
      comparison [0.0 < train_perc < 1.0] is evaluated with [None] and the
      comparison raises [TypeError];
    - fraction only: the first branch when [0.0 < train_perc < 1.0],
      otherwise the else branch ([train_perc is None] fails);
    - count only: the first test fails, the second branch runs when
      [count_per_class > 0], otherwise the else branch;
    - both given: both tests fail on their [is None] operand. *)
Definition select_train_set (self : BaseDataset) (smallest_class_size : float)
           (train_perc : option float) (count_per_class : option Z)
  : result (list pyatom) :=
  match count_per_class, train_perc with
  | None, None => Raise TypeError
  | None, Some p =>
      if PrimFloat.ltb 0 p && PrimFloat.ltb p 1 then
        if PrimFloat.ltb p (PrimFloat.div 1 smallest_class_size) then
          Raise ValueError
        else random_subset_ids self p
      else Raise ValueError
  | Some c, None =>
      if (c >? 0)%Z then
        if PrimFloat.leb smallest_class_size (Z_to_float c) then
          Raise ValueError
        else random_subset_ids_by_count self c
      else Raise ValueError
  | Some _, Some _ => Raise ValueError
  end.

(** [train_test_split_ids] *)
Definition train_test_split_ids (self : BaseDataset)
           (train_perc : option float) (count_per_class : option Z)
  : result (list pyatom * list pyatom) :=
  let sizes := summarize_classes self in
  smallest_class_size <- np_min sizes ;;
  train_set <- select_train_set self smallest_class_size
                                train_perc count_per_class ;;
  let test_set := set_diff (keys self) train_set in
  if Nat.ltb (List.length train_set) 1 || Nat.ltb (List.length test_set) 1 then
    Raise ValueError
  else Ok (train_set, test_set).
End TrainTestSplit.

(* ================================================================== *)
(** ** The consistency conditions on the three mappings *)

(** Two mappings have the same key set. *)
Definition same_key_set {A B : Type} (x : odict A) (y : odict B) : Prop :=
  forall k, In k (od_keys x) <-> In k (od_keys y).

(** Every key of a dictionary occurs once. *)
Definition is_dict {A : Type} (x : odict A) : Prop := NoDup (od_keys x).

(** The three mappings are dictionaries over one key set. *)
Definition keys_agree (ds : BaseDataset) : Prop :=
  is_dict (data ds) /\ is_dict (targets ds) /\ is_dict (classes ds) /\
  same_key_set (data ds) (targets ds) /\ same_key_set (data ds) (classes ds).

(** The three mappings list their keys in the same order. *)
Definition order_agrees (ds : BaseDataset) : Prop :=
  od_keys (data ds) = od_keys (targets ds) /\
  od_keys (data ds) = od_keys (classes ds).

(** The state of [self] left by a mutating call. *)
Definition state_after {A : Type} (r : BaseDataset * A) : BaseDataset := fst r.

(** The outcome of a mutating call. *)
Definition outcome {A : Type} (r : BaseDataset * A) : A := snd r.

(** The dataset returned by a deriving call that gives warnings. *)
Definition returned {A : Type} (r : list warning * A) : A := snd r.

Arguments __init__ : simpl never.
Arguments add_sample : simpl never.
Arguments del_sample : simpl never.
Arguments set_description : simpl never.
Arguments set_feature_names : simpl never.

(** The effect of [d[k] = v] and of [d.pop(k)] on the list of keys. *)
Definition key_insert (k : pyatom) (l : list pyatom) : list pyatom :=
  if id_in k l then l else l ++ [k].

Fixpoint key_remove (k : pyatom) (l : list pyatom) : list pyatom :=
  match l with
  | [] => []
  | x :: r => if pyatom_eqb k x then r else x :: key_remove k r
  end.

(** The key lists of the three mappings. *)
Definition key_lists (ds : BaseDataset) : list pyatom * list pyatom * list pyatom :=
  (od_keys (data ds), od_keys (targets ds), od_keys (classes ds)).

(** The same conditions, on the key lists alone. *)
Definition lists_agree (t : list pyatom * list pyatom * list pyatom) : Prop :=
  let '(d, tg, c) := t in
  NoDup d /\ NoDup tg /\ NoDup c /\
  (forall k, In k d <-> In k tg) /\ (forall k, In k d <-> In k c).

Definition lists_ordered (t : list pyatom * list pyatom * list pyatom) : Prop :=
  let '(d, tg, c) := t in d = tg /\ d = c.

(** Applying one function on key lists to all three of them. *)
Definition on_lists (f : list pyatom -> list pyatom)
           (t : list pyatom * list pyatom * list pyatom)
  : list pyatom * list pyatom * list pyatom :=
  let '(d, tg, c) := t in (f d, f tg, f c).

(** How a public operation may change the three key lists: it leaves
    them alone, stores under one key in all three mappings, pops one key
    from all three, keeps the keys that pass one test in all three, or does
    several of these in a row. *)
Inductive keys_step
  : list pyatom * list pyatom * list pyatom ->
    list pyatom * list pyatom * list pyatom -> Prop :=
| step_none t : keys_step t t
| step_store k t : keys_step t (on_lists (key_insert k) t)
| step_pop k t : keys_step t (on_lists (key_remove k) t)
| step_keep p t : keys_step t (on_lists (filter p) t)
| step_seq t u w : keys_step t u -> keys_step u w -> keys_step t w.

(** An id is in all three mappings or in none. *)
Definition in_all_or_none (k : pyatom) (ds : BaseDataset) : Prop :=
  od_contains k (classes ds) = od_contains k (data ds) /\
  od_contains k (targets ds) = od_contains k (data ds).




(** Every feature vector has [num_features] elements, and so has the
    array of feature names. *)
Definition uniform_length (ds : BaseDataset) : Prop :=
  Forall (fun v => size v = num_features ds) (od_values (data ds)) /\
  exists names, feature_names ds = Some names /\
                List.length names = num_features ds.

(** A condition on datasets is kept by the operations that mutate a
    dataset in place or derive a new one from it: the empty and the copy
    constructor, [add_sample], [del_sample], [__setitem__], [get_subset],
    [get_feature_subset], [transform], [__add__] and [__sub__].  For a
    mutating call the condition is on the state left behind, whether the
    call raised or not. *)
Definition kept_by_operations (I : BaseDataset -> Prop) : Prop :=
  I empty_dataset /\
  (forall other d t c descr names ds,
      I other -> __init__ (Some other) d t c descr names = Ok ds -> I ds) /\
  (forall self k f t c ow names,
      I self -> I (state_after (add_sample self k f t c ow names))) /\
  (forall self k, I self -> I (fst (fst (del_sample self k)))) /\
  (forall self k f, I self -> I (state_after (__setitem__ self k f))) /\
  (forall self ids ds, I self -> returned (get_subset self ids) = Ok ds -> I ds) /\
  (forall self idx ds, I self -> get_feature_subset self idx = Ok ds -> I ds) /\
  (forall self func descr ds, I self -> transform self func descr = Ok ds -> I ds) /\
  (forall self other both_ordered ds,
      I self -> I other -> __add__ self other both_ordered = Ok ds -> I ds) /\
  (forall self other ds,
      I self -> I other -> returned (__sub__ self other) = Ok ds -> I ds).

(* ================================================================== *)
(** ** Datasets used as examples *)

(** An [int64] vector and a [float64] vector of class [np.ndarray]. *)
Definition ints (l : list Z) : ndarray := mk_ndarray NdArray (I64 l).
Definition floats (l : list float) : ndarray := mk_ndarray NdArray (F64 l).

(** The table of the scenario in section 8 of the specification:
    samplets ["s1": [1, 2]] and ["s2": [3, 4]] with targets 0 and 1, built
    by two calls of [add_sample] on an empty dataset. *)
Definition scenario_table : BaseDataset :=
  let ds1 := state_after (add_sample empty_dataset (PStr "s1")
                            (PyList [SInt 1; SInt 2]) (PInt 0) None false None) in
  state_after (add_sample ds1 (PStr "s2")
                 (PyList [SInt 3; SInt 4]) (PInt 1) None false None).

(** Three dictionaries over the ids ["a"] and ["b"]; the targets list the
    ids in the other order. *)
Definition data_ab : odict ndarray := [(PStr "a", ints [1%Z]); (PStr "b", ints [2%Z])].
Definition targets_ba : odict pyatom := [(PStr "b", PInt 1); (PStr "a", PInt 0)].
Definition classes_ab : odict pyatom := [(PStr "a", PStr "0"); (PStr "b", PStr "1")].

(** A dataset whose first samplet is a [float64] vector given as a list:
    the recorded [__dtype] is [np.ndarray]. *)
Definition float_table : BaseDataset :=
  state_after (add_sample empty_dataset (PStr "s1")
                 (PyList [SFloat 1.5%float; SFloat 2.5%float]) (PInt 0) None false None).

(** A dataset whose first samplet is an [int64] vector held in an instance
    of a subclass of [np.ndarray]: the recorded [__dtype] is that subclass. *)
Definition tagged_table : BaseDataset :=
  state_after (add_sample empty_dataset (PStr "s1")
                 (PyArray (mk_ndarray (SubArray "Tagged") (I64 [1%Z; 2%Z])) 0)
                 (PInt 0) None false None).

(** Two datasets with the one samplet ["s1"] of target 0: its vector is
    [5, 5] in the first and [5] in the second. *)
Definition wide_table : BaseDataset :=
  state_after (add_sample empty_dataset (PStr "s1")
                 (PyList [SInt 5; SInt 5]) (PInt 0) None false None).

Definition narrow_table : BaseDataset :=
  state_after (add_sample empty_dataset (PStr "s1")
                 (PyList [SInt 5]) (PInt 0) None false None).

(** A dataset of two samplets ["a"] and ["b"] in one class. *)
Definition one_class_table : BaseDataset :=
  let ds1 := state_after (add_sample empty_dataset (PStr "a")
                            (PyList [SInt 1; SInt 2]) (PInt 0) None false None) in
  state_after (add_sample ds1 (PStr "b")
                 (PyList [SInt 3; SInt 4]) (PInt 0) None false None).

(** The scenario table built in bulk, with the feature names ["x"] and
    ["y"] given as a Python list. *)
Definition listed_names_table : BaseDataset :=
  dataset_of [(PStr "s1", ints [1%Z; 2%Z]); (PStr "s2", ints [3%Z; 4%Z])]
             (TwoDicts [(PStr "s1", PInt 0); (PStr "s2", PInt 1)]
                       [(PStr "s1", PStr "0"); (PStr "s2", PStr "1")])
             2 (Some NdArray) EmptyString (Some ["x"; "y"]) true.


(** A draw that takes the first id of the dataset, whatever is asked. *)
Definition draw_first {A : Type} (self : BaseDataset) (_ : A) : result (list pyatom) :=
  Ok (firstn 1 (keys self)).

(* ================================================================== *)
(** ** Further methods of the dataset *)

(** [__contains__] *)
Definition __contains__ (self : BaseDataset) (item : pyatom) : bool :=
  if id_in item (keys self) then true else false.

(** [__getitem__] *)
Definition __getitem__ (self : BaseDataset) (item : pyatom) : result ndarray :=
  if id_in item (keys self) then od_getitem item (data self)
  else Raise KeyError.

(** [get]: the features of [item], or the value given for an id that is
    not found. *)
Definition get {D : Type} (self : BaseDataset) (item : pyatom) (not_found_value : D)
  : result (ndarray + D) :=
  if id_in item (keys self) then
    v <- od_getitem item (data self) ;; Ok (inl v)
  else Ok (inr not_found_value).

(** [__len__] *)
Definition __len__ (self : BaseDataset) : nat := num_samples self.

(** [__take(nitems, iterable)]: [dict(islice(iterable, int(nitems)))];
    [islice] refuses a negative stop. *)
Definition __take {V : Type} (nitems : Z) (iterable : odict V) : result (odict V) :=
  if (nitems <? 0)%Z then Raise ValueError
  else Ok (firstn (Z.to_nat nitems) iterable).

(** [glance] *)
Definition glance (self : BaseDataset) (nitems : Z) : result (odict ndarray) :=
  let nitems := Z.max 1 (Z.min nitems (Z.of_nat (num_samples self) - 1)) in
  __take nitems (data self).

(** [keys_with_value(dictionary, value)]:
    [[key for key in dictionary if dictionary[key] == value]] *)
Definition keys_with_value (dictionary : odict pyatom) (value : pyatom)
  : list pyatom :=
  filter (fun key => match od_find key dictionary with
                     | Some v => pyatom_eqb v value
                     | None => false
                     end) (od_keys dictionary).

(** Every feature vector of the dataset has [num_features] elements. *)
Definition sizes_uniform (ds : BaseDataset) : Prop :=
  Forall (fun v => size v = num_features ds) (od_values (data ds)).

(** [[(k, d[k]) for k in ks]], raising at the first key that is missing. *)
Fixpoint lookup_all {V : Type} (d : odict V) (ks : list pyatom) : result (odict V) :=
  match ks with
  | [] => Ok []
  | k :: r =>
      v <- od_getitem k d ;;
      rest <- lookup_all d r ;;
      Ok ((k, v) :: rest)
  end.

(** The items of a dictionary whose key is not in the list [ks]. *)
Definition without_keys {V : Type} (d : odict V) (ks : list pyatom) : odict V :=
  filter (fun kv => negb (id_in (fst kv) ks)) d.

(** [[(k, np.concatenate([x[k], y[k]])) for k in ks]], raising at the first
    key that is missing in [x] or in [y]. *)
Fixpoint concat_all (x y : odict ndarray) (ks : list pyatom) : result (odict ndarray) :=
  match ks with
  | [] => Ok []
  | k :: r =>
      a <- od_getitem k x ;;
      b <- od_getitem k y ;;
      rest <- concat_all x y r ;;
      Ok ((k, concatenate a b) :: rest)
  end.

(* ================================================================== *)
(** ** Facts about ids and ordered dictionaries *)

Lemma pyatom_eqb_eq (a b : pyatom) : pyatom_eqb a b = true <-> a = b.
Proof.
  destruct a as [s|x], b as [t|y]; simpl.
  - rewrite String.eqb_eq. split; [intros ->; reflexivity | congruence].
  - split; discriminate.
  - split; discriminate.
  - rewrite Z.eqb_eq. split; [intros ->; reflexivity | congruence].
Qed.

Lemma pyatom_eqb_refl (a : pyatom) : pyatom_eqb a a = true.
Proof. apply pyatom_eqb_eq. reflexivity. Qed.

Lemma pyatom_eqb_neq (a b : pyatom) : pyatom_eqb a b = false <-> a <> b.
Proof.
  rewrite <- pyatom_eqb_eq. destruct (pyatom_eqb a b); split; congruence.
Qed.

Lemma id_in_In (k : pyatom) (l : list pyatom) : id_in k l = true <-> In k l.
Proof.
  unfold id_in. rewrite existsb_exists. split.
  - intros [x [Hx He]]. apply pyatom_eqb_eq in He. subst. assumption.
  - intros H. exists k. split; [assumption | apply pyatom_eqb_refl].
Qed.

Lemma id_in_not_In (k : pyatom) (l : list pyatom) : id_in k l = false <-> ~ In k l.
Proof.
  rewrite <- id_in_In. destruct (id_in k l); split; congruence.
Qed.

Lemma id_in_ext (k : pyatom) (l m : list pyatom) :
  (forall x, In x l <-> In x m) -> id_in k l = id_in k m.
Proof.
  intros H. destruct (id_in k m) eqn:E.
  - apply id_in_In, H, id_in_In, E.
  - apply id_in_not_In. intros Hin. apply H, id_in_In in Hin. congruence.
Qed.

Lemma set_eqb_spec (a b : list pyatom) :
  set_eqb a b = true <-> (forall k, In k a <-> In k b).
Proof.
  unfold set_eqb. rewrite andb_true_iff, !forallb_forall. split.
  - intros [Hab Hba] k. split; intros H.
    + apply id_in_In, Hab, H.
    + apply id_in_In, Hba, H.
  - intros H. split; intros k Hk; apply id_in_In, H, Hk.
Qed.

Section OrderedDictFacts.
Context {V : Type}.
Implicit Types (d : odict V) (k : pyatom) (v : V).

Lemma od_keys_setitem k v d :
  od_keys (od_setitem k v d) = key_insert k (od_keys d).
Proof.
  unfold key_insert, od_keys. induction d as [|[k' v'] r IH]; simpl.
  - reflexivity.
  - unfold id_in in *. simpl. destruct (pyatom_eqb k k') eqn:E; simpl.
    + reflexivity.
    + rewrite IH. destruct (existsb (pyatom_eqb k) (map fst r)); reflexivity.
Qed.

Lemma od_keys_remove k d :
  od_keys (od_remove k d) = key_remove k (od_keys d).
Proof.
  unfold od_keys. induction d as [|[k' v'] r IH]; simpl.
  - reflexivity.
  - destruct (pyatom_eqb k k'); simpl; [reflexivity | now rewrite IH].
Qed.

Lemma od_keys_subset d (s : list pyatom) :
  od_keys (__get_subset_from_dict d s) = filter (fun k => id_in k s) (od_keys d).
Proof.
  unfold od_keys, __get_subset_from_dict.
  induction d as [|[k' v'] r IH]; simpl.
  - reflexivity.
  - destruct (id_in k' s); simpl; now rewrite IH.
Qed.

Lemma od_contains_In k d : od_contains k d = true <-> In k (od_keys d).
Proof. apply id_in_In. Qed.

Lemma od_find_some_iff k d : (exists v, od_find k d = Some v) <-> In k (od_keys d).
Proof.
  unfold od_keys. induction d as [|[k' v'] r IH]; simpl.
  - split; [intros [v H]; discriminate | intros []].
  - destruct (pyatom_eqb k k') eqn:E.
    + apply pyatom_eqb_eq in E. subst. split; [now left | intros _; now exists v'].
    + apply pyatom_eqb_neq in E. rewrite IH. split; [now right | intros [H|H]; congruence].
Qed.


Lemma od_contains_setitem k v d : od_contains k (od_setitem k v d) = true.
Proof.
  apply od_contains_In. rewrite od_keys_setitem. unfold key_insert.
  destruct (id_in k (od_keys d)) eqn:E.
  - now apply id_in_In.
  - apply in_or_app. right. now left.
Qed.

Lemma od_find_setitem_same k v d : od_find k (od_setitem k v d) = Some v.
Proof.
  induction d as [|[k' v'] r IH]; simpl.
  - now rewrite pyatom_eqb_refl.
  - destruct (pyatom_eqb k k') eqn:E; simpl; rewrite E; [reflexivity | exact IH].
Qed.

Lemma od_find_setitem_other k k0 v d :
  k0 <> k -> od_find k0 (od_setitem k v d) = od_find k0 d.
Proof.
  intros Hne. induction d as [|[k' v'] r IH]; simpl.
  - apply pyatom_eqb_neq in Hne. now rewrite Hne.
  - destruct (pyatom_eqb k k') eqn:E; simpl.
    + apply pyatom_eqb_eq in E. subst k'.
      apply pyatom_eqb_neq in Hne. now rewrite Hne.
    + now rewrite IH.
Qed.

End OrderedDictFacts.

(* ================================================================== *)
(** ** Facts about key lists *)

Lemma In_key_insert (k x : pyatom) (l : list pyatom) :
  In x (key_insert k l) <-> x = k \/ In x l.
Proof.
  unfold key_insert. destruct (id_in k l) eqn:E.
  - apply id_in_In in E. split; [now right | intros [->|H]; assumption].
  - rewrite in_app_iff. simpl. intuition congruence.
Qed.

Lemma NoDup_key_insert (k : pyatom) (l : list pyatom) :
  NoDup l -> NoDup (key_insert k l).
Proof.
  intros H. unfold key_insert. destruct (id_in k l) eqn:E; [assumption|].
  apply id_in_not_In in E.
  apply NoDup_app; [assumption | repeat constructor; intros [] | ].
  intros x Hx [<-|[]]. contradiction.
Qed.

Lemma In_key_remove (k x : pyatom) (l : list pyatom) :
  NoDup l -> (In x (key_remove k l) <-> In x l /\ x <> k).
Proof.
  induction l as [|y r IH]; simpl; intros Hnd.
  - tauto.
  - inversion Hnd as [|? ? Hy Hr]; subst.
    destruct (pyatom_eqb k y) eqn:E.
    + apply pyatom_eqb_eq in E. subst y. split.
      * intros H. split; [now right | intros ->; contradiction].
      * intros [[H|H] Hne]; [congruence | assumption].
    + apply pyatom_eqb_neq in E. simpl. rewrite (IH Hr). intuition congruence.
Qed.

Lemma key_remove_incl (k x : pyatom) (l : list pyatom) :
  In x (key_remove k l) -> In x l.
Proof.
  induction l as [|y r IH]; simpl; [tauto|].
  destruct (pyatom_eqb k y); simpl; intuition.
Qed.

Lemma NoDup_key_remove (k : pyatom) (l : list pyatom) :
  NoDup l -> NoDup (key_remove k l).
Proof.
  induction l as [|y r IH]; simpl; intros Hnd; [constructor|].
  inversion Hnd as [|? ? Hy Hr]; subst.
  destruct (pyatom_eqb k y); [assumption|].
  constructor; [|now apply IH].
  intros H. apply Hy. eapply key_remove_incl; eassumption.
Qed.

(** Both consistency conditions are kept by every step. *)
Lemma keys_step_agree t u : keys_step t u -> lists_agree t -> lists_agree u.
Proof.
  induction 1 as [t|k [[d tg] c]|k [[d tg] c]|p [[d tg] c]|t u w _ IH1 _ IH2];
    simpl; auto.
  - intros (Hd & Ht & Hc & Hdt & Hdc). repeat split;
      try (apply NoDup_key_insert; assumption);
      rewrite !In_key_insert; (rewrite <- ?Hdt, <- ?Hdc || rewrite ?Hdt, ?Hdc); tauto.
  - intros (Hd & Ht & Hc & Hdt & Hdc). repeat split;
      try (apply NoDup_key_remove; assumption);
      rewrite !In_key_remove by assumption;
      (rewrite <- ?Hdt, <- ?Hdc || rewrite ?Hdt, ?Hdc); tauto.
  - intros (Hd & Ht & Hc & Hdt & Hdc). repeat split;
      try (apply NoDup_filter; assumption);
      rewrite !filter_In; (rewrite <- ?Hdt, <- ?Hdc || rewrite ?Hdt, ?Hdc); tauto.
Qed.

Lemma keys_step_ordered t u : keys_step t u -> lists_ordered t -> lists_ordered u.
Proof.
  induction 1 as [t|k [[d tg] c]|k [[d tg] c]|p [[d tg] c]|t u w _ IH1 _ IH2];
    simpl; auto; intros [<- <-]; split; reflexivity.
Qed.

Lemma keys_agree_lists (ds : BaseDataset) : keys_agree ds <-> lists_agree (key_lists ds).
Proof. reflexivity. Qed.

Lemma order_agrees_lists (ds : BaseDataset) :
  order_agrees ds <-> lists_ordered (key_lists ds).
Proof. reflexivity. Qed.

Lemma lists_agree_empty : lists_agree (key_lists empty_dataset).
Proof. simpl. repeat split; try constructor; tauto. Qed.

Lemma lists_ordered_empty : lists_ordered (key_lists empty_dataset).
Proof. simpl. split; reflexivity. Qed.

Lemma agree_in_all_or_none (k : pyatom) (ds : BaseDataset) :
  keys_agree ds -> in_all_or_none k ds.
Proof.
  intros (_ & _ & _ & Hdt & Hdc). unfold in_all_or_none, od_contains.
  split; symmetry; apply id_in_ext; assumption.
Qed.

Lemma ordered_in_all_or_none (k : pyatom) (ds : BaseDataset) :
  order_agrees ds -> in_all_or_none k ds.
Proof.
  intros [Hdt Hdc]. unfold in_all_or_none, od_contains.
  rewrite <- Hdt, <- Hdc. split; reflexivity.
Qed.

(* ================================================================== *)
(** ** Facts about the two label mappings *)

Lemma key_insert_twice (k : pyatom) (l : list pyatom) :
  key_insert k (key_insert k l) = key_insert k l.
Proof.
  unfold key_insert at 1.
  replace (id_in k (key_insert k l)) with true; [reflexivity|].
  symmetry. apply id_in_In, In_key_insert. now left.
Qed.

Lemma two_dicts_labels (ds : BaseDataset) :
  one_dict ds = false -> labels ds = TwoDicts (targets ds) (classes ds).
Proof. unfold one_dict, targets, classes. destruct (labels ds); [reflexivity|discriminate]. Qed.

Lemma one_dict_labels (ds : BaseDataset) :
  one_dict ds = true -> labels ds = OneDict (classes ds) /\ targets ds = classes ds.
Proof.
  unfold one_dict, targets, classes. destruct (labels ds); [discriminate|auto].
Qed.

(** The label mappings of two states with the same [labels]. *)
Lemma labels_fields (a b : BaseDataset) :
  labels a = labels b ->
  targets a = targets b /\ classes a = classes b /\ one_dict a = one_dict b.
Proof.
  destruct a as [? la ? ? ? ? ?], b as [? lb ? ? ? ? ?]. simpl.
  intros ->. auto.
Qed.

(** A dataset with two label dictionaries, written out. *)
Lemma two_dicts_eta (ds : BaseDataset) :
  one_dict ds = false ->
  ds = dataset_of (data ds) (TwoDicts (targets ds) (classes ds)) (num_features ds)
                  (dtype ds) (description ds) (feature_names ds) (names_in_list ds).
Proof.
  intros H. apply two_dicts_labels in H. destruct ds; simpl in *. now rewrite H.
Qed.

Lemma store_sample_data (self : BaseDataset) (k : pyatom) (f : ndarray) (t c : pyatom) :
  data (store_sample self k f t c) = od_setitem k f (data self).
Proof. reflexivity. Qed.

(** Where one dictionary is held under both attributes, the class id ends
    up under the id in it. *)
Lemma store_sample_targets (self : BaseDataset) (k : pyatom) (f : ndarray)
      (t c : pyatom) :
  targets (store_sample self k f t c)
  = if one_dict self then od_setitem k c (od_setitem k t (targets self))
    else od_setitem k t (targets self).
Proof.
  unfold store_sample, update_classes, update_targets, targets, one_dict. simpl.
  destruct (labels self); reflexivity.
Qed.

Lemma store_sample_classes (self : BaseDataset) (k : pyatom) (f : ndarray)
      (t c : pyatom) :
  classes (store_sample self k f t c)
  = if one_dict self then od_setitem k c (od_setitem k t (classes self))
    else od_setitem k c (classes self).
Proof.
  unfold store_sample, update_classes, update_targets, classes, one_dict. simpl.
  destruct (labels self); reflexivity.
Qed.

Lemma store_sample_one_dict (self : BaseDataset) (k : pyatom) (f : ndarray)
      (t c : pyatom) :
  one_dict (store_sample self k f t c) = one_dict self.
Proof.
  unfold store_sample, update_classes, update_targets, one_dict. simpl.
  destruct (labels self); reflexivity.
Qed.

Lemma store_sample_two_dicts (self : BaseDataset) (k : pyatom) (f : ndarray)
      (t c : pyatom) :
  one_dict self = false ->
  store_sample self k f t c
  = dataset_of (od_setitem k f (data self))
               (TwoDicts (od_setitem k t (targets self)) (od_setitem k c (classes self)))
               (num_features self) (dtype self) (description self)
               (feature_names self) (names_in_list self).
Proof.
  intros H. apply two_dicts_labels in H.
  unfold store_sample, update_classes, update_targets, with_labels, with_data. simpl.
  now rewrite H.
Qed.

(* ================================================================== *)
(** ** The key lists under each operation *)

Lemma key_lists_store (self : BaseDataset) (k : pyatom) (f : ndarray) (t c : pyatom) :
  key_lists (store_sample self k f t c) = on_lists (key_insert k) (key_lists self).
Proof.
  unfold key_lists.
  rewrite store_sample_data, store_sample_targets, store_sample_classes.
  destruct (one_dict self); simpl; now rewrite !od_keys_setitem, ?key_insert_twice.
Qed.

Lemma add_sample_cases (self : BaseDataset) (k : pyatom) (f : pyfeat) (t : pyatom)
      (c : option pyatom) (ow : bool) (names : option (list string)) :
  let post := state_after (add_sample self k f t c ow names) in
  key_lists post = key_lists self \/
  key_lists post = on_lists (key_insert k) (key_lists self).
Proof.
  unfold state_after, add_sample.
  destruct (od_contains k (data self) && negb ow); [now left|].
  destruct (check_features f) as [v|e]; [|now left].
  destruct (Nat.leb (num_samples self) 0).
  - right. destruct names; simpl; apply (key_lists_store self).
  - destruct (negb (Nat.eqb (num_features self) (size v))); [now left|].
    destruct (isinstance v (dtype self)) as [[|]|e]; try (now left).
    right. destruct names as [given|]; [|apply key_lists_store].
    destruct (feature_names _) as [current|]; [|apply (key_lists_store self)].
    destruct (negb (names_equal current given)); apply key_lists_store.
Qed.

Lemma add_sample_step (self : BaseDataset) (k : pyatom) (f : pyfeat) (t : pyatom)
      (c : option pyatom) (ow : bool) (names : option (list string)) :
  keys_step (key_lists self)
            (key_lists (state_after (add_sample self k f t c ow names))).
Proof.
  destruct (add_sample_cases self k f t c ow names) as [H|H]; rewrite H.
  - apply step_none.
  - apply step_store.
Qed.

Lemma del_sample_cases (self : BaseDataset) (k : pyatom) :
  in_all_or_none k self -> one_dict self = false ->
  let r := del_sample self k in
  snd r = Ok tt /\
  ((od_contains k (data self) = false /\ fst r = (self, [WarnDeleteNotFound])) \/
   (od_contains k (data self) = true /\
    fst r = (dataset_of (od_remove k (data self))
                        (TwoDicts (od_remove k (targets self))
                                  (od_remove k (classes self)))
                        (num_features self) (dtype self) (description self)
                        (feature_names self) (names_in_list self), []))).
Proof.
  intros [Hc Ht] H2.
  destruct self as [d [t c|tc] nf dt de na ki]; [|discriminate H2].
  unfold classes, targets in *. simpl in *.
  unfold del_sample, od_pop. simpl.
  destruct (od_contains k d) eqn:E; simpl.
  - unfold classes, targets, update_classes, update_targets, with_labels, with_data.
    simpl. rewrite Hc. simpl. rewrite Ht. simpl. split; [reflexivity|]. right.
    split; reflexivity.
  - split; [reflexivity|]. left. split; reflexivity.
Qed.

Lemma key_remove_absent (k : pyatom) (l : list pyatom) :
  NoDup l -> id_in k (key_remove k l) = false.
Proof.
  intros H. apply id_in_not_In. rewrite (In_key_remove k k l H). tauto.
Qed.

(** Where one dictionary is held under both label attributes, [del_sample]
    of a present id takes it out of the data and of that dictionary and
    then raises [KeyError] at the third [pop]. *)
Lemma del_sample_one_dict (self : BaseDataset) (k : pyatom) :
  one_dict self = true ->
  od_contains k (od_remove k (classes self)) = false ->
  od_contains k (data self) = true -> od_contains k (classes self) = true ->
  del_sample self k
  = (dataset_of (od_remove k (data self)) (OneDict (od_remove k (classes self)))
                (num_features self) (dtype self) (description self)
                (feature_names self) (names_in_list self), [], Raise KeyError).
Proof.
  intros H1 Hd Hk Hc.
  destruct self as [d [t c|tc] nf dt de na ki]; [discriminate H1|].
  unfold classes in *. simpl in *.
  unfold del_sample, od_pop. simpl. rewrite Hk. simpl.
  unfold classes, targets, update_classes, with_labels, with_data. simpl.
  rewrite Hc. simpl. rewrite Hd. reflexivity.
Qed.

Lemma od_remove_absent_key {V : Type} (k : pyatom) (d : odict V) :
  is_dict d -> od_contains k (od_remove k d) = false.
Proof.
  intros H. unfold od_contains. rewrite od_keys_remove. now apply key_remove_absent.
Qed.

Lemma del_sample_step (self : BaseDataset) (k : pyatom) :
  keys_agree self ->
  keys_step (key_lists self) (key_lists (fst (fst (del_sample self k)))).
Proof.
  intros H. destruct (one_dict self) eqn:E1.
  - destruct (od_contains k (data self)) eqn:Ek.
    + assert (Hc : od_contains k (classes self) = true).
      { rewrite (proj1 (agree_in_all_or_none k self H)). exact Ek. }
      rewrite (del_sample_one_dict self k E1
                 (od_remove_absent_key k _ (proj1 (proj2 (proj2 H)))) Ek Hc).
      apply one_dict_labels in E1. destruct E1 as [_ E1].
      unfold key_lists. rewrite E1. simpl.
      rewrite !od_keys_remove.
      apply (step_pop k (od_keys (data self), od_keys (classes self),
                         od_keys (classes self))).
    + unfold del_sample. rewrite Ek. simpl. apply step_none.
  - destruct (del_sample_cases self k (agree_in_all_or_none k self H) E1)
      as [_ [[_ E]|[_ E]]]; rewrite E; simpl.
    + apply step_none.
    + unfold key_lists. simpl. rewrite !od_keys_remove.
      apply (step_pop k (od_keys (data self), od_keys (targets self),
                         od_keys (classes self))).
Qed.

Lemma setitem_key_lists (self : BaseDataset) (k : pyatom) (f : pyfeat) :
  key_lists (state_after (__setitem__ self k f)) = key_lists self.
Proof.
  unfold state_after, __setitem__.
  destruct (od_contains k (data self)) eqn:E; [|reflexivity].
  destruct (check_features f) as [v|e]; [|reflexivity].
  destruct (negb (Nat.eqb (num_features self) (size v))); [reflexivity|].
  unfold key_lists. simpl. rewrite od_keys_setitem. unfold key_insert.
  unfold od_contains in E. now rewrite E.
Qed.

Lemma set_targets_agree (self : BaseDataset) (values : dict_object) :
  keys_agree self -> is_dict (items_of self values) ->
  keys_agree (state_after (set_targets self values)).
Proof.
  intros H Hv. unfold state_after, set_targets.
  destruct (negb (Nat.eqb (od_len (data self)) (od_len (items_of self values))));
    [exact H|].
  destruct (set_eqb (keys self) (od_keys (items_of self values))) eqn:E; simpl;
    [|exact H].
  rewrite set_eqb_spec in E. destruct H as (Hd & Ht & Hc & Hdt & Hdc).
  unfold keys_agree.
  destruct values as [| |items]; simpl in *;
    (split; [|split; [|split; [|split]]]); assumption.
Qed.

Lemma set_classes_agree (self : BaseDataset) (values : dict_object) :
  keys_agree self -> is_dict (items_of self values) ->
  keys_agree (state_after (set_classes self values)).
Proof.
  intros H Hv. unfold state_after, set_classes.
  destruct (negb (Nat.eqb (od_len (data self)) (od_len (items_of self values))));
    [exact H|].
  destruct (set_eqb (keys self) (od_keys (items_of self values))) eqn:E; simpl;
    [|exact H].
  rewrite set_eqb_spec in E. destruct H as (Hd & Ht & Hc & Hdt & Hdc).
  unfold keys_agree.
  destruct values as [| |items]; simpl in *;
    (split; [|split; [|split; [|split]]]); assumption.
Qed.

Lemma init_bulk_key_lists (d : odict ndarray) (t c : odict pyatom) (descr : string)
      (names : option name_seq) (ds : BaseDataset) :
  __init__ None (Some d) (Some t) (Some c) descr names = Ok ds ->
  key_lists ds = (od_keys d, od_keys t, od_keys c) /\
  set_eqb (od_keys d) (od_keys c) = true /\ set_eqb (od_keys c) (od_keys t) = true.
Proof.
  unfold __init__, __validate. simpl.
  destruct (Nat.eqb (od_len d) (od_len c) && Nat.eqb (od_len c) (od_len t)); simpl;
    [|discriminate].
  destruct (set_eqb (od_keys d) (od_keys c)) eqn:E1; simpl; [|discriminate].
  destruct (set_eqb (od_keys c) (od_keys t)) eqn:E2; simpl; [|discriminate].
  destruct (Nat.ltb 1 _); simpl; [discriminate|].
  destruct (od_keys d) as [|k0 ks] eqn:Ek; [discriminate|].
  destruct (od_getitem k0 d) as [f0|e]; simpl; [|discriminate].
  intros H. injection H as <-. unfold key_lists.
  destruct names; simpl; rewrite Ek; auto.
Qed.

Lemma init_bulk_agree (d : odict ndarray) (t c : odict pyatom) (descr : string)
      (names : option name_seq) (ds : BaseDataset) :
  is_dict d -> is_dict t -> is_dict c ->
  __init__ None (Some d) (Some t) (Some c) descr names = Ok ds ->
  keys_agree ds.
Proof.
  intros Hd Ht Hc H. apply init_bulk_key_lists in H. destruct H as (E & E1 & E2).
  apply keys_agree_lists. rewrite E. simpl.
  rewrite set_eqb_spec in E1, E2.
  split; [|split; [|split; [|split]]]; try assumption.
  intros k. rewrite E1. apply E2.
Qed.

(** The copy constructor gives a dataset with the attributes of [other],
    the targets and the classes in two dictionaries. *)
Lemma init_copy (other : BaseDataset) (d : option (odict ndarray))
      (t c : option (odict pyatom)) (descr : string) (names : option name_seq)
      (ds : BaseDataset) :
  __init__ (Some other) d t c descr names = Ok ds -> ds = __copy other.
Proof.
  unfold __init__. destruct (Nat.leb (num_samples other) 0); [discriminate|].
  intros H. injection H as <-. reflexivity.
Qed.

Lemma copy_key_lists (other : BaseDataset) : key_lists (__copy other) = key_lists other.
Proof. reflexivity. Qed.

Lemma copy_two_dicts (other : BaseDataset) : one_dict other = false -> __copy other = other.
Proof. intros H. unfold __copy. symmetry. now apply two_dicts_eta. Qed.

Lemma od_map_result_keys {A B : Type} (f : A -> result B) (d : odict A) (d' : odict B) :
  od_map_result f d = Ok d' -> od_keys d' = od_keys d.
Proof.
  revert d'. induction d as [|[k v] r IH]; simpl; intros d' H.
  - injection H as <-. reflexivity.
  - destruct (f v) as [w|e]; simpl in H; [|discriminate].
    destruct (od_map_result f r) as [r'|e]; simpl in H; [|discriminate].
    injection H as <-. simpl. f_equal. now apply IH.
Qed.

Lemma get_feature_subset_key_lists (self : BaseDataset) (idx : list Z) (ds : BaseDataset) :
  get_feature_subset self idx = Ok ds -> key_lists ds = key_lists self.
Proof.
  unfold get_feature_subset.
  destruct (out_of_range_guard idx (num_features self)) as [[|]|e]; simpl;
    try discriminate.
  destruct (od_map_result _ (data self)) as [sub|e] eqn:Es; simpl; [|discriminate].
  destruct (feature_names self) as [l|]; simpl; [|discriminate].
  destruct (names_in_list self); simpl; [discriminate|].
  destruct (np_take l idx) as [names|e]; simpl; [|discriminate].
  intros H. apply init_bulk_key_lists in H. destruct H as [-> _].
  apply od_map_result_keys in Es. unfold key_lists. now rewrite Es.
Qed.

Lemma set_description_key_lists (self : BaseDataset) (s : string) :
  key_lists (state_after (set_description self s)) = key_lists self.
Proof.
  unfold state_after, set_description. destruct (String.eqb s EmptyString); reflexivity.
Qed.

Lemma set_feature_names_key_lists (self : BaseDataset) (n : option (list string)) :
  key_lists (state_after (set_feature_names self n)) = key_lists self.
Proof.
  unfold state_after, set_feature_names. destruct n as [l|]; [|reflexivity].
  destruct (negb (Nat.eqb (List.length l) (num_features self))); reflexivity.
Qed.

Lemma filter_none {A : Type} (l : list A) : filter (fun _ => false) l = [].
Proof. induction l; simpl; auto. Qed.

Lemma get_subset_step (self : BaseDataset) (ids : list pyatom) (ds : BaseDataset) :
  returned (get_subset self ids) = Ok ds ->
  keys_step (key_lists self) (key_lists ds).
Proof.
  unfold returned, get_subset.
  destruct (Nat.ltb 0 (num_existing_keys self ids)); simpl.
  - destruct (__init__ _ _ _ _ _ _) as [sub|e] eqn:Ei; simpl; [|discriminate].
    apply init_bulk_key_lists in Ei. destruct Ei as [Ek _].
    pose proof (set_description_key_lists sub
                  (String.append (description sub)
                     (String.append newline
                        (String.append " Subset derived from: " (description self))))) as H1.
    unfold state_after in H1.
    destruct (set_description sub _) as [s1 [u|e]]; [|discriminate].
    pose proof (set_feature_names_key_lists s1 (feature_names self)) as H2.
    unfold state_after in H2.
    destruct (set_feature_names s1 _) as [s2 [u'|e]]; [|discriminate].
    intros H. injection H as <-. simpl in *.
    change (key_lists (with_dtype s2 (dtype self))) with (key_lists s2).
    rewrite H2, H1, Ek, !od_keys_subset.
    apply (step_keep (fun k => id_in k ids)
             (od_keys (data self), od_keys (targets self), od_keys (classes self))).
  - intros H. injection H as <-. simpl.
    pose proof (step_keep (fun _ => false) (key_lists self)) as S.
    unfold key_lists, on_lists in S. rewrite !filter_none in S. exact S.
Qed.

Lemma transform_loop_step (self : BaseDataset) (func : ndarray -> result pyfeat)
      (items : odict ndarray) (acc ds : BaseDataset) :
  transform_loop self func items acc = Ok ds ->
  keys_step (key_lists acc) (key_lists ds).
Proof.
  revert acc. induction items as [|[k v] r IH]; simpl; intros acc H.
  - injection H as <-. apply step_none.
  - destruct (func v) as [x|e]; simpl in H; [|discriminate].
    destruct (od_getitem k (targets self)) as [t|e]; simpl in H; [|discriminate].
    destruct (od_getitem k (classes self)) as [c|e]; simpl in H; [|discriminate].
    pose proof (add_sample_step acc k x t (Some c) false None) as S.
    unfold state_after in S.
    destruct (add_sample acc k x t (Some c) false None) as [acc' [u|e]];
      [|discriminate].
    eapply step_seq; [exact S | now apply IH].
Qed.

Lemma transform_step (self : BaseDataset) (func : ndarray -> result pyfeat)
      (descr : option string) (ds : BaseDataset) :
  transform self func descr = Ok ds ->
  keys_step (key_lists empty_dataset) (key_lists ds).
Proof.
  unfold transform.
  destruct (transform_loop self func (data self) empty_dataset) as [x|e] eqn:E;
    simpl; [|discriminate].
  apply transform_loop_step in E.
  pose proof (set_description_key_lists x
                (String.append (format_opt descr)
                   (String.append newline (description self)))) as H1.
  unfold state_after in H1.
  destruct (set_description x _) as [x' [u|e]]; [|discriminate].
  intros H. injection H as <-. simpl in H1. now rewrite H1.
Qed.

Lemma concat_loop_step (self other : BaseDataset) (ids : list pyatom)
      (acc ds : BaseDataset) :
  concat_loop self other ids acc = Ok ds ->
  keys_step (key_lists acc) (key_lists ds).
Proof.
  revert acc. induction ids as [|k r IH]; simpl; intros acc H.
  - injection H as <-. apply step_none.
  - destruct (od_getitem k (data self)) as [a|e]; simpl in H; [|discriminate].
    destruct (od_getitem k (data other)) as [b|e]; simpl in H; [|discriminate].
    destruct (od_getitem k (targets self)) as [t|e]; simpl in H; [|discriminate].
    destruct (od_getitem k (classes self)) as [c|e]; simpl in H; [|discriminate].
    pose proof (add_sample_step acc k (PyArray (concatenate a b) 0) t (Some c)
                                false None) as S.
    unfold state_after in S.
    destruct (add_sample acc k _ t (Some c) false None) as [acc' [u|e]];
      [|discriminate].
    eapply step_seq; [exact S | now apply IH].
Qed.

Lemma extend_loop_step (self other : BaseDataset) (ids : list pyatom) :
  keys_step (key_lists self) (key_lists (state_after (extend_loop self other ids))).
Proof.
  unfold state_after. revert self. induction ids as [|k r IH]; simpl; intros self.
  - apply step_none.
  - destruct (od_getitem k (data other)) as [a|e]; simpl; [|apply step_none].
    destruct (od_getitem k (targets other)) as [t|e]; simpl; [|apply step_none].
    destruct (od_getitem k (classes other)) as [c|e]; simpl; [|apply step_none].
    pose proof (add_sample_step self k (PyArray a 0) t (Some c) false None) as S.
    unfold state_after in S.
    destruct (add_sample self k _ t (Some c) false None) as [s1 [u|e]]; simpl in *.
    + eapply step_seq; [exact S | apply IH].
    + exact S.
Qed.

Lemma add_step (self other : BaseDataset) (both_ordered : bool) (ds : BaseDataset) :
  __add__ self other both_ordered = Ok ds ->
  keys_step (key_lists empty_dataset) (key_lists ds) \/
  keys_step (key_lists self) (key_lists ds).
Proof.
  unfold __add__. destruct (set_eqb (keys self) (keys other)).
  - destruct (negb (mapping_eqb both_ordered (classes self) (classes other)));
      [discriminate|].
    destruct (Nat.ltb (num_features other) 1); [discriminate|].
    destruct (concat_loop self other (keys self) empty_dataset) as [x|e] eqn:E;
      simpl; [|discriminate].
    apply concat_loop_step in E.
    destruct (feature_names self) as [n1|]; simpl; [|discriminate].
    destruct (feature_names other) as [n2|]; simpl; [|discriminate].
    pose proof (set_feature_names_key_lists x (Some (n1 ++ n2))) as H1.
    unfold state_after in H1.
    destruct (set_feature_names x _) as [x' [u|e]]; [|discriminate].
    intros H. injection H as <-. left. simpl in H1. now rewrite H1.
  - destruct (_ && _); [|discriminate].
    destruct (__init__ (Some self) None None None EmptyString None) as [cp|e] eqn:Ei;
      simpl; [|discriminate].
    apply init_copy in Ei. subst cp.
    pose proof (extend_loop_step (__copy self) other (keys other)) as S.
    unfold state_after in S. unfold extend.
    destruct (extend_loop (__copy self) other (keys other)) as [x [u|e]];
      [|discriminate].
    intros H. injection H as <-. right. rewrite <- (copy_key_lists self). exact S.
Qed.

(** Conditions on a dataset that every step on the key lists keeps, and that
    make the three mappings dictionaries over one key set, are kept by the
    chain of [del_sample] calls made by [__sub__]. *)
Section RemoveLoop.
Variable I : BaseDataset -> Prop.
Hypothesis I_step :
  forall a b, keys_step (key_lists a) (key_lists b) -> I a -> I b.
Hypothesis I_dicts : forall a, I a -> keys_agree a.

Lemma remove_loop_keeps (ids : list pyatom) (removed ds : BaseDataset) :
  I removed -> returned (remove_loop removed ids) = Ok ds -> I ds.
Proof.
  unfold returned. revert removed.
  induction ids as [|k r IH]; simpl; intros removed Hi H.
  - injection H as <-. exact Hi.
  - pose proof (del_sample_step removed k (I_dicts removed Hi)) as S.
    destruct (del_sample removed k) as [[x w] [u|e]]; simpl in *; [|discriminate].
    specialize (IH x (I_step _ _ S Hi)).
    destruct (remove_loop x r) as [w' res]. simpl in *. now apply IH.
Qed.

Lemma sub_keeps (self other ds : BaseDataset) :
  I self -> returned (__sub__ self other) = Ok ds -> I ds.
Proof.
  unfold returned, __sub__. intros Hi.
  pose proof (remove_loop_keeps (keys other) self ds Hi) as H.
  unfold returned in H.
  destruct (remove_loop self (keys other)) as [w r]. simpl in *. exact H.
Qed.
End RemoveLoop.

(* ================================================================== *)
(** ** C1: the three mappings stay consistent *)

Lemma keys_agree_step (a b : BaseDataset) :
  keys_step (key_lists a) (key_lists b) -> keys_agree a -> keys_agree b.
Proof. intros S H. apply keys_agree_lists. eapply keys_step_agree; eassumption. Qed.

Lemma order_agrees_step (a b : BaseDataset) :
  keys_step (key_lists a) (key_lists b) -> order_agrees a -> order_agrees b.
Proof. intros S H. apply order_agrees_lists. eapply keys_step_ordered; eassumption. Qed.

(** Any condition kept by the steps on key lists, true of the empty dataset,
    and strong enough to make the three mappings dictionaries over one key
    set, is kept by the operations. *)
Lemma kept_by_operations_intro (I : BaseDataset -> Prop) :
  I empty_dataset ->
  (forall a b, keys_step (key_lists a) (key_lists b) -> I a -> I b) ->
  (forall a, I a -> keys_agree a) ->
  kept_by_operations I.
Proof.
  intros I0 Istep Idict. unfold kept_by_operations.
  split; [exact I0|]. split; [|split; [|split; [|split; [|split; [|split; [|split; [|split]]]]]]].
  - intros other d t c descr names ds Hi H. apply init_copy in H. subst.
    eapply Istep; [|exact Hi]. rewrite copy_key_lists. apply step_none.
  - intros self k f t c ow names Hi. eapply Istep; [apply add_sample_step | exact Hi].
  - intros self k Hi. eapply Istep; [apply del_sample_step, Idict, Hi | exact Hi].
  - intros self k f Hi. eapply Istep; [|exact Hi].
    rewrite setitem_key_lists. apply step_none.
  - intros self ids ds Hi H. eapply Istep; [eapply get_subset_step, H | exact Hi].
  - intros self idx ds Hi H. eapply Istep; [|exact Hi].
    rewrite (get_feature_subset_key_lists _ _ _ H). apply step_none.
  - intros self func descr ds _ H. eapply Istep; [eapply transform_step, H | exact I0].
  - intros self other both_ordered ds Hi _ H. destruct (add_step _ _ _ _ H) as [S|S].
    + eapply Istep; [exact S | exact I0].
    + eapply Istep; [exact S | exact Hi].
  - intros self other ds Hi _ H. eapply sub_keeps; eauto.
Qed.

(** C1 (as amended): identical key sets are established by bulk construction
    and kept by every listed operation other than the [data] setter, given
    that the dictionaries handed in are dictionaries; this holds whether the
    targets and the classes are two dictionary objects or one, and whichever
    way [__add__] compares the class mappings.  Identical insertion order
    (together with identical key sets) is kept by the operations that start
    from a dataset which has it, while bulk construction and the [targets]
    and [classes] setters compare key sets only. *)
Theorem three_mappings_consistent :
  kept_by_operations keys_agree /\
  kept_by_operations (fun ds => keys_agree ds /\ order_agrees ds) /\
  (forall d t c descr names ds,
      is_dict d -> is_dict t -> is_dict c ->
      __init__ None (Some d) (Some t) (Some c) descr names = Ok ds ->
      keys_agree ds) /\
  (forall self values,
      keys_agree self -> is_dict (items_of self values) ->
      keys_agree (state_after (set_targets self values))) /\
  (forall self values,
      keys_agree self -> is_dict (items_of self values) ->
      keys_agree (state_after (set_classes self values))).
Proof.
  split; [|split; [|split; [|split]]].
  - apply kept_by_operations_intro.
    + apply lists_agree_empty.
    + apply keys_agree_step.
    + intros a H. exact H.
  - apply kept_by_operations_intro.
    + split; [apply lists_agree_empty | apply lists_ordered_empty].
    + intros a b S [H1 H2].
      split; [eapply keys_agree_step | eapply order_agrees_step]; eassumption.
    + intros a [H _]. exact H.
  - apply init_bulk_agree.
  - apply set_targets_agree.
  - apply set_classes_agree.
Qed.

Lemma is_dict_data_ab : is_dict data_ab.
Proof. repeat constructor; simpl; intuition discriminate. Qed.

Lemma is_dict_targets_ba : is_dict targets_ba.
Proof. repeat constructor; simpl; intuition discriminate. Qed.

Lemma is_dict_classes_ab : is_dict classes_ab.
Proof. repeat constructor; simpl; intuition discriminate. Qed.

(** The theorem at work: the dataset built in bulk from [data_ab],
    [targets_ba] and [classes_ab] has identical key sets; so has that
    dataset after a samplet ["c"] is added to it; and so has it after its
    targets are handed to the classes setter and ["a"] is deleted, a call
    that raises [KeyError]. *)
Lemma three_mappings_consistent_witness :
  let ds := mk_dataset data_ab targets_ba classes_ab 1 (Some NdArray) EmptyString
                       (Some ["f0"]) in
  let shared := state_after (set_classes ds HeldTargets) in
  __init__ None (Some data_ab) (Some targets_ba) (Some classes_ab) EmptyString None
  = Ok ds /\
  keys_agree ds /\
  keys_agree (state_after (add_sample ds (PStr "c") (PyList [SInt 3]) (PInt 1)
                                      None false None)) /\
  one_dict shared = true /\
  snd (del_sample shared (PStr "a")) = Raise KeyError /\
  keys_agree (fst (fst (del_sample shared (PStr "a")))).
Proof.
  intros ds shared.
  assert (E : __init__ None (Some data_ab) (Some targets_ba) (Some classes_ab)
                       EmptyString None = Ok ds) by reflexivity.
  assert (K : keys_agree ds).
  { exact (proj1 (proj2 (proj2 three_mappings_consistent))
             data_ab targets_ba classes_ab EmptyString None ds
             is_dict_data_ab is_dict_targets_ba is_dict_classes_ab E). }
  assert (K' : keys_agree shared).
  { exact (proj2 (proj2 (proj2 (proj2 three_mappings_consistent)))
             ds HeldTargets K is_dict_targets_ba). }
  split; [exact E|]. split; [exact K|].
  split.
  { exact (proj1 (proj2 (proj2 (proj1 three_mappings_consistent)))
             ds (PStr "c") (PyList [SInt 3]) (PInt 1) None false None K). }
  split; [reflexivity|]. split; [reflexivity|].
  exact (proj1 (proj2 (proj2 (proj2 (proj1 three_mappings_consistent))))
           shared (PStr "a") K').
Defined.

(** One dictionary under both names.  After [ds.classes = ds.targets] on the
    scenario table the dataset holds one dictionary as targets and as
    classes: [add_sample] of ["s3"] with target 1 leaves the class id ["1"]
    under ["s3"] in the targets, and [del_sample] of ["s1"] takes the id out
    of the data and of that dictionary and raises [KeyError] at its third
    [pop]. *)
Remark one_dictionary_under_both_names :
  let ds := state_after (set_classes scenario_table HeldTargets) in
  let added := state_after (add_sample ds (PStr "s3") (PyList [SInt 5; SInt 6])
                              (PInt 1) None false None) in
  let deletion := del_sample ds (PStr "s1") in
  outcome (set_classes scenario_table HeldTargets) = Ok tt /\
  one_dict ds = true /\
  targets ds = [(PStr "s1", PInt 0); (PStr "s2", PInt 1)] /\
  classes ds = [(PStr "s1", PInt 0); (PStr "s2", PInt 1)] /\
  od_find (PStr "s3") (targets added) = Some (PStr "1") /\
  od_find (PStr "s3") (classes added) = Some (PStr "1") /\
  snd deletion = Raise KeyError /\
  keys (fst (fst deletion)) = [PStr "s2"] /\
  targets (fst (fst deletion)) = [(PStr "s2", PInt 1)] /\
  classes (fst (fst deletion)) = [(PStr "s2", PInt 1)].
Proof. vm_compute. repeat (split; [reflexivity|]). reflexivity. Qed.

(** [__add__] after the classes setter was handed a plain [dict] that
    lists the ids in the other order: the two class mappings are equal as
    dictionaries, not item by item, and the joined dataset is returned. *)
Remark add_with_classes_in_another_order :
  let other := state_after (set_classes scenario_table
                              (OtherDict [(PStr "s2", PStr "1"); (PStr "s1", PStr "0")])) in
  odict_eqb (classes scenario_table) (classes other) = false /\
  dict_eqb (classes scenario_table) (classes other) = true /\
  __add__ scenario_table other true = Raise ValueError /\
  exists ds, __add__ scenario_table other false = Ok ds /\
             num_features ds = 4 /\
             keys ds = [PStr "s1"; PStr "s2"].
Proof.
  vm_compute. repeat (split; [reflexivity|]).
  eexists. repeat (split; [reflexivity|]). reflexivity.
Qed.

(** The [data] setter compares the number of entries only: on the scenario
    table it accepts a dictionary over two other ids. *)
Remark set_data_compares_lengths_only :
  let call := set_data scenario_table [(PStr "x", ints [1%Z]); (PStr "y", ints [2%Z])] in
  outcome call = Ok tt /\
  keys (state_after call) = [PStr "x"; PStr "y"] /\
  od_keys (targets (state_after call)) = [PStr "s1"; PStr "s2"].
Proof. repeat split; reflexivity. Qed.

(** C1 (as stated) fails: bulk construction accepts three dictionaries with
    the same key set whose keys come in different orders, and keeps each
    order. *)
Lemma bulk_construction_order_differs :
  exists ds,
    __init__ None (Some data_ab) (Some targets_ba) (Some classes_ab) EmptyString None
    = Ok ds /\
    od_keys (data ds) = [PStr "a"; PStr "b"] /\
    od_keys (targets ds) = [PStr "b"; PStr "a"] /\
    ~ order_agrees ds.
Proof.
  eexists. split; [reflexivity|]. split; [reflexivity|]. split; [reflexivity|].
  intros [H _]. discriminate H.
Qed.

(* ================================================================== *)
(** ** add_sample: what a call stores, and when *)


(** A call of [add_sample] that raises leaves [self] as it was, except when
    the error is the mismatch of the given feature names with the existing
    ones: that check runs after the three assignments. *)
Lemma add_sample_raise_state (self : BaseDataset) (k : pyatom) (f : pyfeat)
      (t : pyatom) (c : option pyatom) (ow : bool) (names : option (list string))
      (e : exn) :
  outcome (add_sample self k f t c ow names) = Raise e ->
  state_after (add_sample self k f t c ow names) = self \/
  (exists v given current,
      check_features f = Ok v /\ names = Some given /\
      feature_names self = Some current /\ names_equal current given = false /\
      e = ValueError /\
      state_after (add_sample self k f t c ow names)
      = store_sample self k v t (match c with None => str t | Some x => x end)).
Proof.
  unfold state_after, outcome, add_sample.
  destruct (od_contains k (data self) && negb ow); [now left|].
  destruct (check_features f) as [v|e']; [|now left].
  destruct (Nat.leb (num_samples self) 0).
  - destruct names; simpl; discriminate.
  - destruct (negb (Nat.eqb (num_features self) (size v))); [now left|].
    destruct (isinstance v (dtype self)) as [[|]|e']; try (now left).
    destruct names as [given|]; simpl; [|discriminate].
    destruct (feature_names self) as [current|] eqn:En; simpl.
    + rewrite ?En. destruct (names_equal current given) eqn:Eq; simpl; [discriminate|].
      intros H. injection H as <-. right. exists v, given, current. auto 10.
    + rewrite ?En. simpl. discriminate.
Qed.

(** Without feature names in the call, a call that raises changes nothing. *)
Lemma add_sample_raise_unchanged (self : BaseDataset) (k : pyatom) (f : pyfeat)
      (t : pyatom) (c : option pyatom) (ow : bool) (e : exn) :
  outcome (add_sample self k f t c ow None) = Raise e ->
  state_after (add_sample self k f t c ow None) = self.
Proof.
  intros H. destruct (add_sample_raise_state _ _ _ _ _ _ _ _ H) as [E|E]; [exact E|].
  destruct E as (v & given & current & _ & Hn & _). discriminate Hn.
Qed.

(* ================================================================== *)
(** ** C2: a call of add_sample that raises *)

(** C2: [add_sample] on the scenario table with a new id ["s3"], features of
    the right length and feature names ["x", "y"] that differ from the
    existing ["f0", "f1"] raises [ValueError], and yet ["s3"] has been
    entered in all three mappings: the dataset is not left as it was. *)
Theorem add_sample_names_mismatch_mutates :
  let call := add_sample scenario_table (PStr "s3") (PyList [SInt 5; SInt 6])
                         (PInt 1) None false (Some ["x"; "y"]) in
  outcome call = Raise ValueError /\
  od_contains (PStr "s3") (data scenario_table) = false /\
  od_contains (PStr "s3") (data (state_after call)) = true /\
  od_contains (PStr "s3") (targets (state_after call)) = true /\
  od_contains (PStr "s3") (classes (state_after call)) = true /\
  state_after call <> scenario_table.
Proof.
  vm_compute. repeat (split; [reflexivity|]). discriminate.
Qed.

(* ================================================================== *)
(** ** C6: the type check of add_sample *)

(** What the check of [add_sample] compares: on a non-empty dataset whose
    [__dtype] records the class [cls], [add_sample] of a new id with
    non-empty features of the dataset's dimensionality raises [TypeError]
    exactly when the class of the feature array is not [cls] or a subclass
    of it. *)
Lemma add_sample_class_check (self : BaseDataset) (k : pyatom) (f : pyfeat)
      (t : pyatom) (c : option pyatom) (ow : bool) (names : option (list string))
      (v : ndarray) (cls : arrclass) :
  0 < num_samples self ->
  od_contains k (data self) = false ->
  dtype self = Some cls ->
  check_features f = Ok v ->
  size v = num_features self ->
  (outcome (add_sample self k f t c ow names) = Raise TypeError <->
   issubclass (type v) cls = false).
Proof.
  intros Hn Hk Hd Hf Hs. unfold outcome, add_sample.
  rewrite Hk, Hf. simpl.
  destruct (Nat.leb (num_samples self) 0) eqn:El;
    [apply Nat.leb_le in El; lia|].
  rewrite Hs, Nat.eqb_refl, Hd. simpl.
  destruct (issubclass (type v) cls).
  - split; [|discriminate].
    destruct names as [given|]; simpl; [|discriminate].
    destruct (feature_names _) as [current|]; simpl; [|discriminate].
    destruct (negb (names_equal current given)); simpl; discriminate.
  - split; reflexivity.
Qed.

(** Whatever goes through [check_features] as a list is an [np.ndarray], so
    on a dataset that recorded [np.ndarray] the check lets every vector
    through. *)
Lemma add_sample_class_check_passes (self : BaseDataset) (k : pyatom)
      (l : list scalar) (t : pyatom) (c : option pyatom) (ow : bool)
      (names : option (list string)) :
  dtype self = Some NdArray ->
  outcome (add_sample self k (PyList l) t c ow names) <> Raise TypeError.
Proof.
  intros Hd. unfold outcome, add_sample.
  destruct (od_contains k (data self) && negb ow); simpl; [discriminate|].
  unfold check_features.
  destruct (Nat.leb (size (asarray l)) 0); simpl; [discriminate|].
  destruct (Nat.leb (num_samples self) 0).
  - destruct names; simpl; discriminate.
  - destruct (negb (Nat.eqb (num_features self) (size (asarray l)))); simpl;
      [discriminate|].
    rewrite Hd. simpl.
    assert (E : issubclass (type (asarray l)) NdArray = true).
    { unfold asarray. destruct l; [reflexivity|].
      destruct (all_ints _); reflexivity. }
    rewrite E.
    destruct names as [given|]; simpl; [|discriminate].
    destruct (feature_names _) as [current|]; simpl; [|discriminate].
    destruct (negb (names_equal current given)); simpl; discriminate.
Qed.

(** C6: the check does not see the element type.  [float_table] holds one
    samplet, the [float64] vector [1.5, 2.5] given as a list; the call
    [add_sample("s2", [1, 2], 0)] hands in an [int64] vector of the same
    length.  The element types differ, and the call returns without raising
    and stores the [int64] vector next to the [float64] one. *)
Theorem add_sample_accepts_other_element_type :
  let call := add_sample float_table (PStr "s2") (PyList [SInt 1; SInt 2])
                         (PInt 0) None false None in
  num_samples float_table = 1 /\
  od_find (PStr "s1") (data float_table) = Some (floats [1.5%float; 2.5%float]) /\
  od_contains (PStr "s2") (data float_table) = false /\
  check_features (PyList [SInt 1; SInt 2]) = Ok (ints [1%Z; 2%Z]) /\
  elem_type (floats [1.5%float; 2.5%float]) = Float64 /\
  elem_type (ints [1%Z; 2%Z]) = Int64 /\
  outcome call = Ok tt /\
  od_find (PStr "s2") (data (state_after call)) = Some (ints [1%Z; 2%Z]) /\
  od_find (PStr "s1") (data (state_after call))
  = Some (floats [1.5%float; 2.5%float]).
Proof.
  vm_compute. repeat (split; [reflexivity|]). reflexivity.
Qed.

(** The check in the other direction: a dataset whose first vector is an
    [int64] array of a subclass of [np.ndarray] refuses an [int64] vector
    given as a list, although the element types agree. *)
Remark add_sample_refuses_same_element_type :
  let call := add_sample tagged_table (PStr "s2") (PyList [SInt 3; SInt 4])
                         (PInt 1) None false None in
  od_find (PStr "s1") (data tagged_table)
  = Some (mk_ndarray (SubArray "Tagged") (I64 [1%Z; 2%Z])) /\
  check_features (PyList [SInt 3; SInt 4]) = Ok (ints [3%Z; 4%Z]) /\
  elem_type (ints [3%Z; 4%Z])
  = elem_type (mk_ndarray (SubArray "Tagged") (I64 [1%Z; 2%Z])) /\
  outcome call = Raise TypeError.
Proof.
  vm_compute. repeat (split; [reflexivity|]). reflexivity.
Qed.

(* ================================================================== *)
(** ** C7: add_sample followed by del_sample *)

Lemma del_sample_absent (self : BaseDataset) (k : pyatom) :
  od_contains k (data self) = false ->
  del_sample self k = (self, [WarnDeleteNotFound], Ok tt).
Proof. intros H. unfold del_sample. now rewrite H. Qed.

Lemma del_sample_present (self : BaseDataset) (k : pyatom) :
  one_dict self = false ->
  od_contains k (data self) = true ->
  od_contains k (classes self) = true ->
  od_contains k (targets self) = true ->
  del_sample self k
  = (dataset_of (od_remove k (data self))
                (TwoDicts (od_remove k (targets self)) (od_remove k (classes self)))
                (num_features self) (dtype self) (description self)
                (feature_names self) (names_in_list self), [], Ok tt).
Proof.
  intros H2 Hd Hc Ht.
  destruct self as [d [t c|tc] nf dt de na ki]; [|discriminate H2].
  simpl in *. unfold del_sample, od_pop. simpl. rewrite Hd. simpl.
  rewrite Hc. simpl. rewrite Ht. reflexivity.
Qed.


Lemma scenario_table_agrees : keys_agree scenario_table.
Proof.
  unfold scenario_table.
  eapply keys_agree_step; [apply add_sample_step|].
  eapply keys_agree_step; [apply add_sample_step|].
  apply lists_agree_empty.
Qed.



(* ================================================================== *)
(** ** C10: item assignment *)

(** C10: for an id of the dataset and features that pass [check_features]
    with the dataset's dimensionality, [__setitem__] stores the checked
    vector under that id and changes nothing else: the ids and their order,
    the vectors of the other samplets, the targets, the classes, the feature
    count, the feature names (and the recorded type and the description)
    stay as they were.  For an id that is not in the dataset it raises
    [KeyError] and leaves the dataset as it was. *)
Theorem setitem_replaces_only_features (self : BaseDataset) (k : pyatom) (f : pyfeat) :
  (forall v,
      od_contains k (data self) = true ->
      check_features f = Ok v ->
      size v = num_features self ->
      let call := __setitem__ self k f in
      outcome call = Ok tt /\
      od_find k (data (state_after call)) = Some v /\
      (forall k', k' <> k ->
                  od_find k' (data (state_after call)) = od_find k' (data self)) /\
      keys (state_after call) = keys self /\
      targets (state_after call) = targets self /\
      classes (state_after call) = classes self /\
      num_features (state_after call) = num_features self /\
      feature_names (state_after call) = feature_names self /\
      dtype (state_after call) = dtype self /\
      description (state_after call) = description self) /\
  (od_contains k (data self) = false ->
   __setitem__ self k f = (self, Raise KeyError)).
Proof.
  split.
  - intros v Hk Hf Hs. unfold state_after, outcome, __setitem__.
    rewrite Hk, Hf, Hs, Nat.eqb_refl. simpl.
    split; [reflexivity|]. split; [apply od_find_setitem_same|].
    split; [intros k' Hne; now apply od_find_setitem_other|].
    split; [|auto 10].
    unfold keys. simpl. rewrite od_keys_setitem. unfold key_insert.
    unfold od_contains in Hk. now rewrite Hk.
  - intros Hk. unfold __setitem__. now rewrite Hk.
Qed.

(** The theorem at the scenario table: ["s1"] gets the vector [7, 8];
    ["zz"] is not an id of the table. *)
Lemma setitem_replaces_only_features_witness :
  (let call := __setitem__ scenario_table (PStr "s1") (PyList [SInt 7; SInt 8]) in
   outcome call = Ok tt /\
   od_find (PStr "s1") (data (state_after call)) = Some (ints [7%Z; 8%Z]) /\
   od_find (PStr "s2") (data (state_after call)) = Some (ints [3%Z; 4%Z]) /\
   targets (state_after call) = targets scenario_table /\
   classes (state_after call) = classes scenario_table) /\
  __setitem__ scenario_table (PStr "zz") (PyList [SInt 7; SInt 8])
  = (scenario_table, Raise KeyError).
Proof.
  split.
  - destruct (proj1 (setitem_replaces_only_features scenario_table (PStr "s1")
                       (PyList [SInt 7; SInt 8]))
                (ints [7%Z; 8%Z]) eq_refl eq_refl eq_refl)
      as (H1 & H2 & H3 & _ & H5 & H6 & _).
    split; [exact H1|]. split; [exact H2|].
    split; [rewrite H3 by discriminate; reflexivity|].
    split; assumption.
  - apply (proj2 (setitem_replaces_only_features scenario_table (PStr "zz")
                    (PyList [SInt 7; SInt 8]))).
    reflexivity.
Defined.

(* ================================================================== *)
(** ** C9: the matrix for an empty list of ids *)

Lemma filter_length_lt {A : Type} (p : A -> bool) (l : list A) (x : A) :
  In x l -> p x = false -> List.length (filter p l) < List.length l.
Proof.
  induction l as [|y r IH]; simpl; intros Hin Hp; [contradiction|].
  pose proof (filter_length_le p r) as Hle.
  destruct Hin as [->|Hin].
  - rewrite Hp. lia.
  - specialize (IH Hin Hp). destruct (p y); simpl; lia.
Qed.

(** C9: with an empty list of ids [get_data_matrix_in_order] does not
    raise; it gives one warning and returns the 0-by-0 matrix.  With a list
    that holds an id which is not in the dataset it raises ([ValueError]). *)
Theorem empty_id_list_gives_empty_matrix (self : BaseDataset) :
  get_data_matrix_in_order self (IdList []) = ([WarnEmptySubset], Ok empty_matrix) /\
  m_rows empty_matrix = 0 /\ m_cols empty_matrix = 0 /\ m_data empty_matrix = [] /\
  (forall ids k,
      In k ids -> od_contains k (data self) = false ->
      get_data_matrix_in_order self (IdList ids) = ([], Raise ValueError)).
Proof.
  split; [reflexivity|]. do 3 (split; [reflexivity|]).
  intros ids k Hin Hk. unfold get_data_matrix_in_order.
  destruct ids as [|i r]; [contradiction|].
  assert (E1 : Nat.ltb (ids_len (IdList (i :: r))) 1 = false) by reflexivity.
  rewrite E1. cbv beta iota zeta.
  assert (Hlt : num_existing_keys self (i :: r) < List.length (i :: r)).
  { unfold num_existing_keys. eapply filter_length_lt; eassumption. }
  apply Nat.ltb_lt in Hlt. now rewrite Hlt.
Qed.

(** The theorem at the scenario table: ["zz"] is not one of its ids. *)
Lemma empty_id_list_gives_empty_matrix_witness :
  get_data_matrix_in_order scenario_table (IdList [])
  = ([WarnEmptySubset], Ok empty_matrix) /\
  get_data_matrix_in_order scenario_table (IdList [PStr "s2"; PStr "zz"])
  = ([], Raise ValueError).
Proof.
  pose proof (empty_id_list_gives_empty_matrix scenario_table) as (H1 & _ & _ & _ & H2).
  split; [exact H1|].
  apply (H2 [PStr "s2"; PStr "zz"] (PStr "zz")).
  - simpl. right. left. reflexivity.
  - reflexivity.
Defined.

(* ================================================================== *)
(** ** C3: the range check of get_feature_subset *)

(** The guard raises exactly when the largest index is too large and the
    smallest index is not negative: a negative index switches the check
    off. *)
Lemma out_of_range_guard_spec (idx : list Z) (n : nat) (mx mn : Z) :
  py_max idx = Ok mx -> py_min idx = Ok mn ->
  out_of_range_guard idx n = Ok (negb (mx <? Z.of_nat n)%Z && (mn >=? 0)%Z).
Proof.
  intros Hx Hn. unfold out_of_range_guard. rewrite Hx. simpl.
  destruct (mx <? Z.of_nat n)%Z; simpl; [reflexivity|]. now rewrite Hn.
Qed.

(** The scenario of section 8: index 5 on the two-feature table.  The error
    raised by the guard is [UnboundLocalError]. *)
Lemma get_feature_subset_index_5 :
  get_feature_subset scenario_table [5%Z] = Raise UnboundLocalError.
Proof. reflexivity. Qed.

(* ================================================================== *)
(** ** get_feature_subset with indices in range *)








Lemma count_unique_constant (c : nat) (l : list nat) :
  Forall (fun x => x = c) l -> count_unique l <= 1.
Proof.
  unfold count_unique. induction 1 as [|x r Hx Hr IH]; simpl; [lia|].
  destruct (in_dec Nat.eq_dec x r) as [Hin|Hout]; [exact IH|].
  destruct r as [|y r']; [simpl; lia|].
  exfalso. apply Hout. inversion Hr; subst. now left.
Qed.

Lemma same_keys_same_len {A B : Type} (x : odict A) (y : odict B) :
  is_dict x -> is_dict y -> same_key_set x y -> od_len x = od_len y.
Proof.
  intros Hx Hy H. unfold od_len.
  rewrite <- (length_map fst x), <- (length_map fst y).
  apply Permutation_length, NoDup_Permutation; assumption.
Qed.


(** C3: on the two-feature scenario table the index list [-1] holds an
    index that fails [0 <= idx < feature_count], and yet
    [get_feature_subset] does not raise: it returns a dataset holding the
    last column. *)
Theorem get_feature_subset_accepts_negative_index :
  num_features scenario_table = 2 /\
  ((0 <=? -1)%Z && (-1 <? Z.of_nat (num_features scenario_table))%Z) = false /\
  exists ds,
    get_feature_subset scenario_table [(-1)%Z] = Ok ds /\
    data ds = [(PStr "s1", ints [2%Z]); (PStr "s2", ints [4%Z])] /\
    feature_names ds = Some ["f1"] /\
    num_features ds = 1.
Proof.
  split; [reflexivity|]. split; [reflexivity|].
  eexists. split; [vm_compute; reflexivity|].
  split; [reflexivity|]. split; reflexivity.
Qed.

(* ================================================================== *)
(** ** C4: the arguments of train_test_split_ids *)

(** With both arguments given the call raises [ValueError], on every
    dataset. *)
Lemma split_with_both_raises_value_error
      (rs : BaseDataset -> float -> result (list pyatom))
      (rc : BaseDataset -> Z -> result (list pyatom))
      (self : BaseDataset) (p : float) (c : Z) :
  train_test_split_ids rs rc self (Some p) (Some c) = Raise ValueError.
Proof.
  unfold train_test_split_ids.
  destruct (np_min (summarize_classes self)) as [m|e] eqn:E; simpl.
  - reflexivity.
  - unfold np_min in E. destruct (summarize_classes self); [|discriminate].
    now injection E as <-.
Qed.

Lemma distinct_cons (x : pyatom) (l : list pyatom) :
  exists y m, distinct (x :: l) = y :: m.
Proof.
  revert x. induction l as [|z r IH]; intros x.
  - simpl. eauto.
  - change (distinct (x :: z :: r))
      with (if id_in x (z :: r) then distinct (z :: r) else x :: distinct (z :: r)).
    destruct (id_in x (z :: r)); [apply IH | eauto].
Qed.

(** With neither argument given, a dataset that has a class gets
    [TypeError] from the comparison [0.0 < None]; on a dataset without any
    class [np.min] has raised [ValueError] before. *)
Lemma split_with_neither
      (rs : BaseDataset -> float -> result (list pyatom))
      (rc : BaseDataset -> Z -> result (list pyatom))
      (self : BaseDataset) :
  train_test_split_ids rs rc self None None
  = match classes self with
    | [] => Raise ValueError
    | _ :: _ => Raise TypeError
    end.
Proof.
  unfold train_test_split_ids, summarize_classes, class_set, od_values.
  destruct (classes self) as [|[k c] r]; [reflexivity|].
  destruct (distinct_cons (snd (k, c)) (map snd r)) as (x & l & E).
  change (map snd ((k, c) :: r)) with (snd (k, c) :: map snd r).
  rewrite E. reflexivity.
Qed.

(** C4: on the scenario table, [train_test_split_ids] called with neither
    the fraction nor the count raises [TypeError], which is no
    [ValueError]; whatever the two drawing methods are. *)
Theorem split_with_neither_raises_type_error
        (rs : BaseDataset -> float -> result (list pyatom))
        (rc : BaseDataset -> Z -> result (list pyatom)) :
  train_test_split_ids rs rc scenario_table None None = Raise TypeError /\
  raises (train_test_split_ids rs rc scenario_table None None) ValueError = false.
Proof. split; reflexivity. Qed.

(* ================================================================== *)
(** ** C5: the two lists returned by train_test_split_ids *)

Lemma In_distinct (x : pyatom) (l : list pyatom) : In x (distinct l) <-> In x l.
Proof.
  induction l as [|y r IH]; simpl; [tauto|].
  destruct (id_in y r) eqn:E.
  - rewrite IH. apply id_in_In in E. split; [now right | intros [<-|H]; assumption].
  - simpl. now rewrite IH.
Qed.






(* ================================================================== *)
(** ** C8: equality of two datasets *)

(** The targets play no part in [__eq__]. *)
Lemma eq_ignores_targets (a b : BaseDataset) (ta tb : odict pyatom) (same : bool) :
  __eq__ (with_targets a ta) (with_targets b tb) same = __eq__ a b same.
Proof.
  unfold __eq__. simpl. destruct same; simpl; [reflexivity|].
  unfold keys. simpl.
  assert (E : forall ids, eq_loop (with_targets a ta) (with_targets b tb) ids
                          = eq_loop a b ids).
  { induction ids as [|k r IH]; simpl; [reflexivity|]. now rewrite IH. }
  now rewrite E.
Qed.

Lemma all2_Z_eq (x y : list Z) : all2 Z.eqb x y = true <-> x = y.
Proof.
  revert y. induction x as [|a x IH]; intros [|b y]; simpl;
    try (split; (reflexivity || discriminate)).
  rewrite andb_true_iff, Z.eqb_eq, IH. split.
  - intros [-> ->]. reflexivity.
  - intros H. injection H as -> ->. auto.
Qed.

(** On [int64] vectors of one length [np.all(a == b)] says whether the two
    vectors hold the same elements. *)
Lemma np_all_eq_same_length (c d : arrclass) (x y : list Z) :
  List.length x = List.length y ->
  (np_all_eq (mk_ndarray c (I64 x)) (mk_ndarray d (I64 y)) = true <-> x = y).
Proof.
  intros H. unfold np_all_eq, all_equal. simpl.
  rewrite H, Nat.eqb_refl. apply all2_Z_eq.
Qed.

(** A vector holding a NaN is not equal to itself under [==]. *)
Remark np_all_eq_nan : np_all_eq (floats [nan]) (floats [nan]) = false.
Proof. reflexivity. Qed.

Lemma eq_loop_true (a b : BaseDataset) (ids : list pyatom) :
  (forall k, In k ids -> In k (keys a) /\ In k (keys b)) ->
  (eq_loop a b ids = Ok true <->
   forall k va vb, In k ids ->
                   od_find k (data a) = Some va -> od_find k (data b) = Some vb ->
                   np_all_eq va vb = true).
Proof.
  induction ids as [|k r IH]; intros Hin.
  - simpl. split; [intros _ k va vb [] | reflexivity].
  - destruct (Hin k (or_introl eq_refl)) as [Ha Hb].
    apply od_find_some_iff in Ha, Hb. destruct Ha as [va Ea], Hb as [vb Eb].
    simpl. unfold od_getitem. rewrite Ea, Eb. simpl.
    assert (Hr : forall k0, In k0 r -> In k0 (keys a) /\ In k0 (keys b))
      by (intros k0 H0; apply Hin; now right).
    specialize (IH Hr).
    destruct (np_all_eq va vb) eqn:E; simpl.
    + rewrite IH. split.
      * intros H k0 xa xb [<-|H0] Fa Fb.
        -- rewrite Ea in Fa. rewrite Eb in Fb.
           injection Fa as <-. injection Fb as <-. exact E.
        -- eapply H; eassumption.
      * intros H k0 xa xb H0. apply H. now right.
    + split; [discriminate|]. intros H.
      rewrite (H k va vb (or_introl eq_refl) Ea Eb) in E. discriminate.
Qed.

(** What [__eq__] decides when the two [data] dictionaries are different
    objects: the ids form the same set, the classes are the same dictionary
    up to order, and [np.all(a == b)] holds for the two vectors under every
    id. *)
Lemma eq_true_iff (a b : BaseDataset) :
  __eq__ a b false = Ok true <->
  set_eqb (keys a) (keys b) = true /\
  dict_eqb (classes a) (classes b) = true /\
  (forall k va vb,
      od_find k (data a) = Some va -> od_find k (data b) = Some vb ->
      np_all_eq va vb = true).
Proof.
  unfold __eq__.
  destruct (set_eqb (keys a) (keys b)) eqn:Es; simpl.
  2:{ split; [discriminate | intros [H _]; discriminate]. }
  destruct (dict_eqb (classes a) (classes b)); simpl.
  2:{ split; [discriminate | intros (_ & H & _); discriminate]. }
  rewrite set_eqb_spec in Es.
  rewrite eq_loop_true by (intros k Hk; split; [exact Hk | now apply Es]).
  split.
  - intros H. split; [reflexivity|]. split; [reflexivity|].
    intros k va vb Fa Fb. apply (H k va vb); try assumption.
    apply od_find_some_iff. now exists va.
  - intros (_ & _ & H) k va vb _. apply H.
Qed.

(** C8: [wide_table] and [narrow_table] have the same id and the same class
    label under it, but the feature vectors [5, 5] and [5] under that id are
    not the same; [__eq__] returns [True] all the same, since [==]
    broadcasts the vector of length one. *)
Theorem eq_accepts_vectors_of_different_length :
  keys wide_table = keys narrow_table /\
  classes wide_table = classes narrow_table /\
  od_find (PStr "s1") (data wide_table) = Some (ints [5%Z; 5%Z]) /\
  od_find (PStr "s1") (data narrow_table) = Some (ints [5%Z]) /\
  ints [5%Z; 5%Z] <> ints [5%Z] /\
  __eq__ wide_table narrow_table false = Ok true.
Proof.
  repeat (split; [reflexivity || discriminate|]). reflexivity.
Qed.

(* ================================================================== *)
(** ** The length of the feature vectors under each operation *)

Lemma values_setitem {V : Type} (P : V -> Prop) (k : pyatom) (v : V) (d : odict V) :
  Forall P (od_values d) -> P v -> Forall P (od_values (od_setitem k v d)).
Proof.
  unfold od_values. induction d as [|[k' v'] r IH]; simpl; intros H Hv.
  - constructor; [exact Hv | constructor].
  - inversion H as [|? ? Hv' Hr]; subst.
    destruct (pyatom_eqb k k'); simpl; constructor; auto.
Qed.

Lemma values_remove {V : Type} (P : V -> Prop) (k : pyatom) (d : odict V) :
  Forall P (od_values d) -> Forall P (od_values (od_remove k d)).
Proof.
  unfold od_values. induction d as [|[k' v'] r IH]; simpl; intros H; [constructor|].
  inversion H as [|? ? Hv' Hr]; subst.
  destruct (pyatom_eqb k k'); simpl; [assumption | constructor; auto].
Qed.

Lemma od_len_zero {V : Type} (d : odict V) : Nat.leb (od_len d) 0 = true -> d = [].
Proof. destruct d; simpl; [reflexivity | discriminate]. Qed.

Lemma add_sample_sizes (self : BaseDataset) (k : pyatom) (f : pyfeat) (t : pyatom)
      (c : option pyatom) (ow : bool) (names : option (list string)) :
  sizes_uniform self ->
  sizes_uniform (state_after (add_sample self k f t c ow names)).
Proof.
  intros H. unfold state_after, add_sample.
  destruct (od_contains k (data self) && negb ow); [exact H|].
  destruct (check_features f) as [v|e]; [|exact H].
  destruct (Nat.leb (num_samples self) 0) eqn:El.
  - apply od_len_zero in El.
    assert (G : Forall (fun x => size x = size v)
                       (od_values (od_setitem k v (data self)))).
    { rewrite El. repeat constructor. }
    destruct names; exact G.
  - destruct (Nat.eqb (num_features self) (size v)) eqn:En; simpl; [|exact H].
    apply Nat.eqb_eq in En.
    destruct (isinstance v (dtype self)) as [[|]|e]; try exact H.
    assert (G : Forall (fun x => size x = num_features self)
                       (od_values (od_setitem k v (data self)))).
    { apply values_setitem; [exact H | now symmetry]. }
    destruct names as [given|]; [|exact G].
    destruct (feature_names _) as [current|]; [|exact G].
    destruct (negb (names_equal current given)); exact G.
Qed.

(** Whatever its outcome, [del_sample] leaves the data as they were or
    without the id, and touches neither the feature count nor the names. *)
Lemma del_sample_data (self : BaseDataset) (k : pyatom) :
  let post := fst (fst (del_sample self k)) in
  (data post = data self \/ data post = od_remove k (data self)) /\
  num_features post = num_features self /\
  feature_names post = feature_names self /\
  names_in_list post = names_in_list self /\
  one_dict post = one_dict self.
Proof.
  destruct self as [d [t c|tc] nf dt de na ki]; unfold del_sample, od_pop; simpl;
    repeat match goal with
           | |- context [if ?b then _ else _] => destruct b; simpl
           end; auto 10.
Qed.

Lemma del_sample_sizes (self : BaseDataset) (k : pyatom) :
  sizes_uniform self -> sizes_uniform (fst (fst (del_sample self k))).
Proof.
  intros H. destruct (del_sample_data self k) as ([E|E] & En & _).
  - unfold sizes_uniform. rewrite E, En. exact H.
  - unfold sizes_uniform. rewrite E, En. apply values_remove. exact H.
Qed.

Lemma setitem_sizes (self : BaseDataset) (k : pyatom) (f : pyfeat) :
  sizes_uniform self -> sizes_uniform (state_after (__setitem__ self k f)).
Proof.
  intros H. unfold state_after, __setitem__.
  destruct (od_contains k (data self)); [|exact H].
  destruct (check_features f) as [v|e]; [|exact H].
  destruct (Nat.eqb (num_features self) (size v)) eqn:En; simpl; [|exact H].
  apply Nat.eqb_eq in En.
  apply (values_setitem (fun x => size x = num_features self)); [exact H | now symmetry].
Qed.

Lemma count_unique_all_equal (l : list nat) (x y : nat) :
  count_unique l <= 1 -> In x l -> In y l -> x = y.
Proof.
  unfold count_unique. intros H Hx Hy.
  apply (nodup_In Nat.eq_dec) in Hx, Hy.
  destruct (nodup Nat.eq_dec l) as [|a [|b r]]; simpl in *.
  - contradiction.
  - destruct Hx as [<-|[]], Hy as [<-|[]]. reflexivity.
  - lia.
Qed.

(** What the bulk constructor has checked and set when it returns. *)
Lemma init_bulk_fields (d : odict ndarray) (t c : odict pyatom) (descr : string)
      (names : option name_seq) (ds : BaseDataset) :
  __init__ None (Some d) (Some t) (Some c) descr names = Ok ds ->
  exists k0 v0 r,
    d = (k0, v0) :: r /\
    count_unique (map size (od_values d)) <= 1 /\
    ds = dataset_of d (TwoDicts t c) (size v0) (Some (type v0)) descr
                    (match names with
                     | None => Some (__str_names (size v0))
                     | Some given => Some (names_of given)
                     end)
                    (match names with
                     | None => false
                     | Some given => is_list given
                     end).
Proof.
  unfold __init__, __validate. simpl.
  destruct (negb (_ && _)); simpl; [discriminate|].
  destruct (negb (_ && _)); simpl; [discriminate|].
  destruct (Nat.ltb_spec 1 (count_unique (map size (od_values d)))) as [|Hu];
    simpl; [discriminate|].
  destruct d as [|[k0 v0] r]; simpl; [discriminate|].
  unfold od_getitem. simpl. rewrite pyatom_eqb_refl. simpl.
  intros H. injection H as <-. exists k0, v0, r. destruct names; auto.
Qed.

Lemma init_bulk_sizes (d : odict ndarray) (t c : odict pyatom) (descr : string)
      (names : option name_seq) (ds : BaseDataset) :
  __init__ None (Some d) (Some t) (Some c) descr names = Ok ds -> sizes_uniform ds.
Proof.
  intros H. apply init_bulk_fields in H.
  destruct H as (k0 & v0 & r & Ed & Hu & ->). unfold sizes_uniform. simpl.
  apply Forall_forall. intros v Hv.
  apply (count_unique_all_equal (map size (od_values d))); try assumption.
  - now apply in_map.
  - rewrite Ed. simpl. now left.
Qed.

(** Conditions on a dataset that hold of the empty dataset and of every
    dataset the bulk constructor returns, that [add_sample], [del_sample]
    and [__setitem__] keep, and that do not look at the description, the
    feature names or the recorded type, are kept by the operations. *)
Section FromParts.
Variable I : BaseDataset -> Prop.
Hypothesis I_empty : I empty_dataset.
Hypothesis I_bulk :
  forall d t c descr names ds,
    __init__ None (Some d) (Some t) (Some c) descr names = Ok ds -> I ds.
Hypothesis I_add :
  forall self k f t c ow names,
    I self -> I (state_after (add_sample self k f t c ow names)).
Hypothesis I_del : forall self k, I self -> I (fst (fst (del_sample self k))).
Hypothesis I_setitem : forall self k f, I self -> I (state_after (__setitem__ self k f)).
Hypothesis I_description : forall self s, I self -> I (with_description self s).
Hypothesis I_names : forall self n, I self -> I (with_feature_names self n).
Hypothesis I_dtype : forall self t, I self -> I (with_dtype self t).
Hypothesis I_copy : forall self, I self -> I (__copy self).

Lemma set_description_parts (self : BaseDataset) (s : string) :
  I self -> I (state_after (set_description self s)).
Proof.
  intros H. unfold state_after, set_description.
  destruct (String.eqb s EmptyString); simpl; auto.
Qed.

Lemma set_feature_names_parts (self : BaseDataset) (n : option (list string)) :
  I self -> I (state_after (set_feature_names self n)).
Proof.
  intros H. unfold state_after, set_feature_names. destruct n as [l|]; [|exact H].
  destruct (negb (Nat.eqb (List.length l) (num_features self))); simpl; auto.
Qed.

Lemma get_subset_parts (self : BaseDataset) (ids : list pyatom) (ds : BaseDataset) :
  returned (get_subset self ids) = Ok ds -> I ds.
Proof.
  unfold returned, get_subset.
  destruct (Nat.ltb 0 (num_existing_keys self ids)); simpl.
  - destruct (__init__ _ _ _ _ _ _) as [sub|e] eqn:Ei; simpl; [|discriminate].
    apply I_bulk in Ei.
    pose proof (set_description_parts sub
                  (String.append (description sub)
                     (String.append newline
                        (String.append " Subset derived from: " (description self))))
                  Ei) as H1.
    unfold state_after in H1.
    destruct (set_description sub _) as [s1 [u|e]]; [|discriminate].
    pose proof (set_feature_names_parts s1 (feature_names self) H1) as H2.
    unfold state_after in H2.
    destruct (set_feature_names s1 _) as [s2 [u'|e]]; [|discriminate].
    intros H. injection H as <-. apply I_dtype. exact H2.
  - intros H. injection H as <-. exact I_empty.
Qed.

Lemma get_feature_subset_parts (self : BaseDataset) (idx : list Z) (ds : BaseDataset) :
  get_feature_subset self idx = Ok ds -> I ds.
Proof.
  unfold get_feature_subset.
  destruct (out_of_range_guard idx (num_features self)) as [[|]|e]; simpl;
    try discriminate.
  destruct (od_map_result _ (data self)) as [sub|e]; simpl; [|discriminate].
  destruct (feature_names self) as [l|]; simpl; [|discriminate].
  destruct (names_in_list self); simpl; [discriminate|].
  destruct (np_take l idx) as [names|e]; simpl; [|discriminate].
  apply I_bulk.
Qed.

Lemma transform_loop_parts (self : BaseDataset) (func : ndarray -> result pyfeat)
      (items : odict ndarray) (acc ds : BaseDataset) :
  I acc -> transform_loop self func items acc = Ok ds -> I ds.
Proof.
  revert acc. induction items as [|[k v] r IH]; simpl; intros acc Ha H.
  - now injection H as <-.
  - destruct (func v) as [x|e]; simpl in H; [|discriminate].
    destruct (od_getitem k (targets self)) as [t|e]; simpl in H; [|discriminate].
    destruct (od_getitem k (classes self)) as [c|e]; simpl in H; [|discriminate].
    pose proof (I_add acc k x t (Some c) false None Ha) as S.
    unfold state_after in S.
    destruct (add_sample acc k x t (Some c) false None) as [acc' [u|e]];
      [|discriminate].
    eapply IH; eassumption.
Qed.

Lemma transform_parts (self : BaseDataset) (func : ndarray -> result pyfeat)
      (descr : option string) (ds : BaseDataset) :
  transform self func descr = Ok ds -> I ds.
Proof.
  unfold transform.
  destruct (transform_loop self func (data self) empty_dataset) as [x|e] eqn:E;
    simpl; [|discriminate].
  apply (transform_loop_parts _ _ _ _ _ I_empty) in E.
  pose proof (set_description_parts x
                (String.append (format_opt descr)
                   (String.append newline (description self))) E) as H1.
  unfold state_after in H1.
  destruct (set_description x _) as [x' [u|e]]; [|discriminate].
  intros H. now injection H as <-.
Qed.

Lemma concat_loop_parts (self other : BaseDataset) (ids : list pyatom)
      (acc ds : BaseDataset) :
  I acc -> concat_loop self other ids acc = Ok ds -> I ds.
Proof.
  revert acc. induction ids as [|k r IH]; simpl; intros acc Ha H.
  - now injection H as <-.
  - destruct (od_getitem k (data self)) as [a|e]; simpl in H; [|discriminate].
    destruct (od_getitem k (data other)) as [b|e]; simpl in H; [|discriminate].
    destruct (od_getitem k (targets self)) as [t|e]; simpl in H; [|discriminate].
    destruct (od_getitem k (classes self)) as [c|e]; simpl in H; [|discriminate].
    pose proof (I_add acc k (PyArray (concatenate a b) 0) t (Some c) false None Ha) as S.
    unfold state_after in S.
    destruct (add_sample acc k _ t (Some c) false None) as [acc' [u|e]];
      [|discriminate].
    eapply IH; eassumption.
Qed.

Lemma extend_loop_parts (self other : BaseDataset) (ids : list pyatom) :
  I self -> I (state_after (extend_loop self other ids)).
Proof.
  unfold state_after. revert self. induction ids as [|k r IH]; simpl; intros self Hs.
  - exact Hs.
  - destruct (od_getitem k (data other)) as [a|e]; simpl; [|exact Hs].
    destruct (od_getitem k (targets other)) as [t|e]; simpl; [|exact Hs].
    destruct (od_getitem k (classes other)) as [c|e]; simpl; [|exact Hs].
    pose proof (I_add self k (PyArray a 0) t (Some c) false None Hs) as S.
    unfold state_after in S.
    destruct (add_sample self k _ t (Some c) false None) as [s1 [u|e]]; simpl in *.
    + now apply IH.
    + exact S.
Qed.

Lemma add_parts (self other : BaseDataset) (both_ordered : bool) (ds : BaseDataset) :
  I self -> __add__ self other both_ordered = Ok ds -> I ds.
Proof.
  intros Hs. unfold __add__. destruct (set_eqb (keys self) (keys other)).
  - destruct (negb (mapping_eqb both_ordered (classes self) (classes other)));
      [discriminate|].
    destruct (Nat.ltb (num_features other) 1); [discriminate|].
    destruct (concat_loop self other (keys self) empty_dataset) as [x|e] eqn:E;
      simpl; [|discriminate].
    apply (concat_loop_parts _ _ _ _ _ I_empty) in E.
    destruct (feature_names self) as [n1|]; simpl; [|discriminate].
    destruct (feature_names other) as [n2|]; simpl; [|discriminate].
    pose proof (set_feature_names_parts x (Some (n1 ++ n2)) E) as H1.
    unfold state_after in H1.
    destruct (set_feature_names x _) as [x' [u|e]]; [|discriminate].
    intros H. now injection H as <-.
  - destruct (_ && _); [|discriminate].
    destruct (__init__ (Some self) None None None EmptyString None) as [cp|e] eqn:Ei;
      simpl; [|discriminate].
    apply init_copy in Ei. subst cp.
    pose proof (extend_loop_parts (__copy self) other (keys other) (I_copy self Hs)) as S.
    unfold state_after in S. unfold extend.
    destruct (extend_loop (__copy self) other (keys other)) as [x [u|e]];
      [|discriminate].
    intros H. now injection H as <-.
Qed.

Lemma remove_loop_parts (ids : list pyatom) (removed ds : BaseDataset) :
  I removed -> returned (remove_loop removed ids) = Ok ds -> I ds.
Proof.
  unfold returned. revert removed.
  induction ids as [|k r IH]; simpl; intros removed Hi H.
  - now injection H as <-.
  - pose proof (I_del removed k Hi) as S.
    destruct (del_sample removed k) as [[x w] [u|e]]; simpl in *; [|discriminate].
    specialize (IH x S). destruct (remove_loop x r) as [w' res]. simpl in *.
    now apply IH.
Qed.

Lemma kept_from_parts : kept_by_operations I.
Proof.
  unfold kept_by_operations.
  split; [exact I_empty|].
  split; [|split; [|split; [|split; [|split; [|split; [|split; [|split]]]]]]].
  - intros other d t c descr names ds Hi H. apply init_copy in H. subst.
    now apply I_copy.
  - intros. now apply I_add.
  - intros. now apply I_del.
  - intros. now apply I_setitem.
  - intros self ids ds _ H. eapply get_subset_parts, H.
  - intros self idx ds _ H. eapply get_feature_subset_parts, H.
  - intros self func descr ds _ H. eapply transform_parts, H.
  - intros self other both_ordered ds Hs _ H. eapply add_parts; eassumption.
  - intros self other ds Hs _ H. unfold returned, __sub__ in H.
    pose proof (remove_loop_parts (keys other) self ds Hs) as R.
    unfold returned in R. destruct (remove_loop self (keys other)) as [w r].
    simpl in *. now apply R.
Qed.
End FromParts.

(** X1: the feature vectors of a dataset all have [num_features] elements:
    this holds of every dataset the bulk constructor returns, whatever it
    was given, and it is kept by the empty and the copy constructor,
    [add_sample], [del_sample], [__setitem__], [get_subset],
    [get_feature_subset], [transform], [__add__] and [__sub__]. *)
Theorem feature_vectors_keep_one_length :
  kept_by_operations sizes_uniform /\
  (forall d t c descr names ds,
      __init__ None (Some d) (Some t) (Some c) descr names = Ok ds ->
      sizes_uniform ds).
Proof.
  split; [|exact init_bulk_sizes].
  apply kept_from_parts.
  - constructor.
  - exact init_bulk_sizes.
  - exact add_sample_sizes.
  - exact del_sample_sizes.
  - exact setitem_sizes.
  - intros self s H. exact H.
  - intros self n H. exact H.
  - intros self t H. exact H.
  - intros self H. exact H.
Qed.

Lemma scenario_table_sizes : sizes_uniform scenario_table.
Proof. repeat constructor. Qed.

(** The theorem at the scenario table: after ["s3"] is added, and for the
    dataset built in bulk from [data_ab], [targets_ba] and [classes_ab]. *)
Lemma feature_vectors_keep_one_length_witness :
  sizes_uniform (state_after (add_sample scenario_table (PStr "s3")
                                (PyList [SInt 5; SInt 6]) (PInt 1) None false None)) /\
  sizes_uniform (mk_dataset data_ab targets_ba classes_ab 1 (Some NdArray)
                            EmptyString (Some ["f0"])).
Proof.
  split.
  - exact (proj1 (proj2 (proj2 (proj1 feature_vectors_keep_one_length)))
             scenario_table (PStr "s3") (PyList [SInt 5; SInt 6]) (PInt 1)
             None false None scenario_table_sizes).
  - exact (proj2 feature_vectors_keep_one_length
             data_ab targets_ba classes_ab EmptyString None _ eq_refl).
Defined.

(* ================================================================== *)
(** ** Insertion, lookup and deletion *)

Lemma add_sample_ok_stores (self : BaseDataset) (k : pyatom) (f : pyfeat) (t : pyatom)
      (c : option pyatom) (ow : bool) (names : option (list string)) :
  outcome (add_sample self k f t c ow names) = Ok tt ->
  let post := state_after (add_sample self k f t c ow names) in
  let class_id := match c with None => str t | Some x => x end in
  (od_contains k (data self) = false \/ ow = true) /\
  exists v, check_features f = Ok v /\
    data post = od_setitem k v (data self) /\
    targets post = (if one_dict self
                    then od_setitem k class_id (od_setitem k t (targets self))
                    else od_setitem k t (targets self)) /\
    classes post = (if one_dict self
                    then od_setitem k class_id (od_setitem k t (classes self))
                    else od_setitem k class_id (classes self)) /\
    one_dict post = one_dict self.
Proof.
  intros H post class_id.
  assert (G : (od_contains k (data self) = false \/ ow = true) /\
              exists v, check_features f = Ok v /\
                data post = od_setitem k v (data self) /\
                labels post = labels (store_sample self k v t class_id)).
  { revert H. subst post class_id. unfold state_after, outcome, add_sample.
    destruct (od_contains k (data self)) eqn:Ek, ow; simpl; try discriminate.
    all: destruct (check_features f) as [v|e]; [|discriminate].
    all: destruct (Nat.leb (num_samples self) 0).
    all: try (intros _; split; [auto|]; exists v; destruct names; simpl; now auto).
    all: destruct (negb (Nat.eqb (num_features self) (size v))); [discriminate|].
    all: destruct (isinstance v (dtype self)) as [[|]|e]; try discriminate.
    all: destruct names as [given|]; simpl;
      [|intros _; split; [auto|]; exists v; now auto].
    all: destruct (feature_names self) as [current|]; simpl;
      [|intros _; split; [auto|]; exists v; now auto].
    all: destruct (negb (names_equal current given)); simpl; [discriminate|].
    all: intros _; split; [auto|]; exists v; now auto. }
  destruct G as (G1 & v & Hf & Ed & El). split; [exact G1|]. exists v.
  apply labels_fields in El. destruct El as (Et & Ec & Eo).
  rewrite store_sample_targets in Et. rewrite store_sample_classes in Ec.
  rewrite store_sample_one_dict in Eo. auto.
Qed.

(** X2: after a call of [add_sample] that returns, [__getitem__] gives the
    checked features under the id and the class id is stored under it in
    the classes ([str(target)] when none was given).  The targets hold the
    target under the id when they are a dictionary of their own; where one
    dictionary is held as both targets and classes, the class id, stored
    last, is what the targets hold.  The entries under every other id are as
    before. *)
Theorem add_sample_then_lookup (self : BaseDataset) (k : pyatom) (f : pyfeat)
        (t : pyatom) (c : option pyatom) (ow : bool) (names : option (list string)) :
  outcome (add_sample self k f t c ow names) = Ok tt ->
  let post := state_after (add_sample self k f t c ow names) in
  exists v,
    check_features f = Ok v /\
    __contains__ post k = true /\
    __getitem__ post k = Ok v /\
    od_find k (targets post)
    = Some (if one_dict self then match c with None => str t | Some x => x end
            else t) /\
    od_find k (classes post) = Some (match c with None => str t | Some x => x end) /\
    (forall k', k' <> k ->
                od_find k' (data post) = od_find k' (data self) /\
                od_find k' (targets post) = od_find k' (targets self) /\
                od_find k' (classes post) = od_find k' (classes self)).
Proof.
  intros H post.
  destruct (add_sample_ok_stores self k f t c ow names H)
    as (_ & v & Hf & Ed & Et & Ec & _).
  fold post in Ed, Et, Ec. exists v. split; [exact Hf|].
  assert (Hin : id_in k (keys post) = true).
  { unfold keys. rewrite Ed. apply od_contains_setitem. }
  unfold __contains__, __getitem__, od_getitem. rewrite Hin, Ed, Et, Ec.
  destruct (one_dict self); rewrite !od_find_setitem_same;
    repeat (split; [reflexivity|]);
    intros k' Hne; rewrite !od_find_setitem_other by assumption; auto.
Qed.

(** The theorem at the scenario table, with the insertion of ["s3"]. *)
Lemma add_sample_then_lookup_witness :
  let post := state_after (add_sample scenario_table (PStr "s3")
                             (PyList [SInt 5; SInt 6]) (PInt 1) None false None) in
  exists v,
    check_features (PyList [SInt 5; SInt 6]) = Ok v /\
    __contains__ post (PStr "s3") = true /\
    __getitem__ post (PStr "s3") = Ok v /\
    od_find (PStr "s3") (targets post)
    = Some (if one_dict scenario_table then PStr "1" else PInt 1) /\
    od_find (PStr "s3") (classes post) = Some (PStr "1") /\
    (forall k', k' <> PStr "s3" ->
                od_find k' (data post) = od_find k' (data scenario_table) /\
                od_find k' (targets post) = od_find k' (targets scenario_table) /\
                od_find k' (classes post) = od_find k' (classes scenario_table)).
Proof.
  exact (add_sample_then_lookup scenario_table (PStr "s3") (PyList [SInt 5; SInt 6])
           (PInt 1) None false None eq_refl).
Defined.

Lemma key_insert_fresh (k : pyatom) (l : list pyatom) :
  id_in k l = false -> key_insert k l = l ++ [k].
Proof. intros H. unfold key_insert. now rewrite H. Qed.


(** X3: a call of [add_sample] that returns for an id which is in none of
    the three mappings puts the id last in each of them and makes the
    dataset one samplet larger. *)
Theorem add_sample_new_id_goes_last (self : BaseDataset) (k : pyatom) (f : pyfeat)
        (t : pyatom) (c : option pyatom) (ow : bool) (names : option (list string)) :
  in_all_or_none k self ->
  od_contains k (data self) = false ->
  outcome (add_sample self k f t c ow names) = Ok tt ->
  let post := state_after (add_sample self k f t c ow names) in
  keys post = keys self ++ [k] /\
  od_keys (targets post) = od_keys (targets self) ++ [k] /\
  od_keys (classes post) = od_keys (classes self) ++ [k] /\
  num_samples post = S (num_samples self).
Proof.
  intros [Hc Ht] Hk H post. rewrite Hk in Hc, Ht.
  destruct (add_sample_ok_stores self k f t c ow names H)
    as (_ & v & _ & Ed & Et & Ec & _).
  fold post in Ed, Et, Ec.
  assert (Ek : keys post = keys self ++ [k]).
  { unfold keys. rewrite Ed, od_keys_setitem. now apply key_insert_fresh. }
  split; [exact Ek|].
  split; [rewrite Et; destruct (one_dict self);
          rewrite !od_keys_setitem, ?key_insert_twice; now apply key_insert_fresh|].
  split; [rewrite Ec; destruct (one_dict self);
          rewrite !od_keys_setitem, ?key_insert_twice; now apply key_insert_fresh|].
  unfold num_samples, od_len.
  rewrite <- (length_map fst (data post)), <- (length_map fst (data self)).
  change (map fst (data post)) with (keys post). rewrite Ek.
  rewrite length_app. unfold keys, od_keys. simpl. lia.
Qed.

Lemma add_sample_new_id_goes_last_witness :
  let post := state_after (add_sample scenario_table (PStr "s3")
                             (PyList [SInt 5; SInt 6]) (PInt 1) None false None) in
  keys post = keys scenario_table ++ [PStr "s3"] /\
  od_keys (targets post) = od_keys (targets scenario_table) ++ [PStr "s3"] /\
  od_keys (classes post) = od_keys (classes scenario_table) ++ [PStr "s3"] /\
  num_samples post = S (num_samples scenario_table).
Proof.
  apply (add_sample_new_id_goes_last scenario_table (PStr "s3")
           (PyList [SInt 5; SInt 6]) (PInt 1) None false None).
  - split; reflexivity.
  - reflexivity.
  - reflexivity.
Defined.



Lemma od_find_remove_other {V : Type} (k k' : pyatom) (d : odict V) :
  k' <> k -> od_find k' (od_remove k d) = od_find k' d.
Proof.
  intros Hne. induction d as [|[x v] r IH]; simpl; [reflexivity|].
  destruct (pyatom_eqb k x) eqn:E; simpl.
  - apply pyatom_eqb_eq in E. subst x.
    apply pyatom_eqb_neq in Hne. now rewrite Hne.
  - now rewrite IH.
Qed.

Lemma od_find_none_iff_keys {V : Type} (k : pyatom) (d : odict V) :
  od_find k d = None <-> ~ In k (od_keys d).
Proof.
  rewrite <- od_find_some_iff. destruct (od_find k d) as [v|].
  - split; [discriminate | intros H; exfalso; apply H; now exists v].
  - split; [intros _ [v H]; discriminate | reflexivity].
Qed.

Lemma od_find_remove_same {V : Type} (k : pyatom) (d : odict V) :
  is_dict d -> od_find k (od_remove k d) = None.
Proof.
  intros Hd. apply od_find_none_iff_keys. rewrite od_keys_remove.
  intros H. apply In_key_remove in H; [|exact Hd]. now destruct H.
Qed.

Lemma od_len_remove {V : Type} (k : pyatom) (d : odict V) :
  od_contains k d = true -> S (od_len (od_remove k d)) = od_len d.
Proof.
  unfold od_contains, id_in, od_keys, od_len.
  induction d as [|[x v] r IH]; simpl; intros H; [discriminate|].
  destruct (pyatom_eqb k x); simpl in *; [reflexivity|]. now rewrite IH.
Qed.

(** X5: on a dataset whose three mappings share their key set,
    [del_sample] of an id of the dataset gives no warning, takes the id out
    of all three mappings, makes the dataset one samplet smaller and leaves
    the entries under every other id as they were.  It returns when the
    targets and the classes are two dictionaries; where one dictionary is
    held as both, it raises [KeyError] at its third [pop], the id being out
    of the mappings by then.  For an id that is not in the dataset it gives
    one warning and changes nothing. *)
Theorem del_sample_removes_one_samplet (self : BaseDataset) (k : pyatom) :
  keys_agree self ->
  (od_contains k (data self) = true ->
   let post := fst (fst (del_sample self k)) in
   snd (del_sample self k) = (if one_dict self then Raise KeyError else Ok tt) /\
   snd (fst (del_sample self k)) = [] /\
   __contains__ post k = false /\
   __getitem__ post k = Raise KeyError /\
   od_find k (targets post) = None /\
   od_find k (classes post) = None /\
   S (num_samples post) = num_samples self /\
   (forall k', k' <> k ->
               od_find k' (data post) = od_find k' (data self) /\
               od_find k' (targets post) = od_find k' (targets self) /\
               od_find k' (classes post) = od_find k' (classes self))) /\
  (od_contains k (data self) = false ->
   del_sample self k = (self, [WarnDeleteNotFound], Ok tt)).
Proof.
  intros Hagree. split; [|apply del_sample_absent].
  intros Hk post.
  destruct (agree_in_all_or_none k self Hagree) as [Hc Ht]. rewrite Hk in Hc, Ht.
  destruct Hagree as (Hd & Hdt & Hdc & _).
  assert (Hout : id_in k (od_keys (od_remove k (data self))) = false).
  { apply id_in_not_In. rewrite od_keys_remove. intros H.
    apply In_key_remove in H; [|exact Hd]. now destruct H. }
  subst post. destruct (one_dict self) eqn:E1.
  - rewrite (del_sample_one_dict self k E1 (od_remove_absent_key k _ Hdc) Hk Hc).
    destruct (one_dict_labels self E1) as [_ Etc]. simpl.
    unfold __contains__, __getitem__, keys. simpl. rewrite Hout, Etc.
    repeat (split; [reflexivity|]).
    split; [now apply od_find_remove_same|].
    split; [now apply od_find_remove_same|].
    split; [now apply od_len_remove|].
    intros k' Hne. rewrite !od_find_remove_other by assumption. auto.
  - rewrite (del_sample_present self k E1 Hk Hc Ht). simpl.
    unfold __contains__, __getitem__, keys. simpl. rewrite Hout.
    repeat (split; [reflexivity|]).
    split; [now apply od_find_remove_same|].
    split; [now apply od_find_remove_same|].
    split; [now apply od_len_remove|].
    intros k' Hne. rewrite !od_find_remove_other by assumption. auto.
Qed.

Lemma del_sample_removes_one_samplet_witness :
  (let post := fst (fst (del_sample scenario_table (PStr "s1"))) in
   snd (del_sample scenario_table (PStr "s1"))
   = (if one_dict scenario_table then Raise KeyError else Ok tt) /\
   __contains__ post (PStr "s1") = false /\
   S (num_samples post) = num_samples scenario_table) /\
  del_sample scenario_table (PStr "zz") = (scenario_table, [WarnDeleteNotFound], Ok tt).
Proof.
  destruct (del_sample_removes_one_samplet scenario_table (PStr "s1")
              scenario_table_agrees) as [H1 _].
  destruct (del_sample_removes_one_samplet scenario_table (PStr "zz")
              scenario_table_agrees) as [_ H2].
  specialize (H1 eq_refl). specialize (H2 eq_refl).
  destruct H1 as (A & _ & B & _ & _ & _ & C & _).
  split; [|exact H2]. split; [exact A|]. split; [exact B | exact C].
Defined.

(* ================================================================== *)
(** ** Bulk construction *)

Lemma init_bulk_succeeds (d : odict ndarray) (t c : odict pyatom) (descr : string)
      (names : option name_seq) (k0 : pyatom) (v0 : ndarray)
      (r : odict ndarray) :
  d = (k0, v0) :: r ->
  is_dict d -> is_dict t -> is_dict c ->
  same_key_set d t -> same_key_set d c ->
  Forall (fun v => size v = size v0) (od_values d) ->
  __init__ None (Some d) (Some t) (Some c) descr names
  = Ok (dataset_of d (TwoDicts t c) (size v0) (Some (type v0)) descr
                   (match names with
                    | None => Some (__str_names (size v0))
                    | Some given => Some (names_of given)
                    end)
                   (match names with
                    | None => false
                    | Some given => is_list given
                    end)).
Proof.
  intros Ed Hd Ht Hc Hdt Hdc Hs. unfold __init__, __validate. simpl.
  assert (Hct : same_key_set c t) by (intros k; rewrite <- (Hdc k); apply Hdt).
  rewrite (same_keys_same_len d c Hd Hc Hdc), (same_keys_same_len c t Hc Ht Hct).
  rewrite !Nat.eqb_refl. simpl.
  rewrite (proj2 (set_eqb_spec _ _) Hdc), (proj2 (set_eqb_spec _ _) Hct). simpl.
  assert (Hu : count_unique (map size (od_values d)) <= 1).
  { apply (count_unique_constant (size v0)). now apply Forall_map. }
  destruct (Nat.ltb_spec 1 (count_unique (map size (od_values d)))); [lia|].
  simpl. subst d. simpl. unfold od_getitem. simpl. rewrite pyatom_eqb_refl.
  destruct names; reflexivity.
Qed.

(** X6: given three dictionaries, the bulk constructor returns a dataset
    exactly when the data are not empty, the three key sets are the same and
    all the feature vectors have one length; the dataset then holds the
    three dictionaries as given, with the length and the class of the first
    vector as [num_features] and [dtype].  Three empty dictionaries raise
    [IndexError]. *)
Theorem bulk_constructor_accepts_iff (d : odict ndarray) (t c : odict pyatom)
        (descr : string) (names : option name_seq) :
  is_dict d -> is_dict t -> is_dict c ->
  ((exists ds, __init__ None (Some d) (Some t) (Some c) descr names = Ok ds) <->
   d <> [] /\ same_key_set d t /\ same_key_set d c /\
   (forall u v, In u (od_values d) -> In v (od_values d) -> size u = size v)) /\
  (forall ds, __init__ None (Some d) (Some t) (Some c) descr names = Ok ds ->
              data ds = d /\ targets ds = t /\ classes ds = c /\
              description ds = descr /\
              exists k0 v0 r, d = (k0, v0) :: r /\
                              num_features ds = size v0 /\
                              dtype ds = Some (type v0)) /\
  (d = [] -> t = [] -> c = [] ->
   __init__ None (Some d) (Some t) (Some c) descr names = Raise IndexError).
Proof.
  intros Hd Ht Hc. split; [split|split].
  - intros [ds H].
    pose proof (init_bulk_agree d t c descr names ds Hd Ht Hc H) as Ha.
    destruct (init_bulk_fields _ _ _ _ _ _ H) as (k0 & v0 & r & Ed & Hu & Eds).
    subst ds. destruct Ha as (_ & _ & _ & Hdt & Hdc). simpl in *.
    split; [rewrite Ed; discriminate|]. split; [exact Hdt|]. split; [exact Hdc|].
    intros u v Hu' Hv'.
    apply (count_unique_all_equal (map size (od_values d))); try assumption;
      now apply in_map.
  - intros (Hne & Hdt & Hdc & Hs).
    destruct d as [|[k0 v0] r] eqn:Ed; [congruence|]. rewrite <- Ed in *.
    eexists. apply (init_bulk_succeeds d t c descr names k0 v0 r); try assumption.
    apply Forall_forall. intros v Hv. apply Hs; [exact Hv|].
    rewrite Ed. simpl. now left.
  - intros ds H.
    destruct (init_bulk_fields _ _ _ _ _ _ H) as (k0 & v0 & r & Ed & Hu & Eds).
    subst ds. simpl. repeat (split; [reflexivity|]).
    exists k0, v0, r. auto.
  - intros -> -> ->. reflexivity.
Qed.

Lemma bulk_constructor_accepts_iff_witness :
  (exists ds, __init__ None (Some data_ab) (Some targets_ba) (Some classes_ab)
                       EmptyString None = Ok ds) /\
  __init__ None (Some []) (Some []) (Some []) EmptyString None = Raise IndexError.
Proof.
  destruct (bulk_constructor_accepts_iff data_ab targets_ba classes_ab EmptyString None
              is_dict_data_ab is_dict_targets_ba is_dict_classes_ab) as [[_ H] _].
  destruct (bulk_constructor_accepts_iff [] [] [] EmptyString None
              (NoDup_nil _) (NoDup_nil _) (NoDup_nil _)) as (_ & _ & H0).
  split; [|exact (H0 eq_refl eq_refl eq_refl)].
  apply H. split; [discriminate|].
  split; [intros k; simpl; tauto|]. split; [intros k; simpl; tauto|].
  intros u v [<-|[<-|[]]] [<-|[<-|[]]]; reflexivity.
Defined.

(* ================================================================== *)
(** ** get_subset *)

Lemma values_subset {V : Type} (P : V -> Prop) (d : odict V) (s : list pyatom) :
  Forall P (od_values d) -> Forall P (od_values (__get_subset_from_dict d s)).
Proof.
  unfold od_values, __get_subset_from_dict.
  induction d as [|[k v] r IH]; simpl; intros H; [constructor|].
  inversion H; subst. destruct (id_in k s); simpl; [constructor|]; auto.
Qed.

Lemma num_existing_keys_pos (self : BaseDataset) (ids : list pyatom) :
  Nat.ltb 0 (num_existing_keys self ids) = true <->
  exists k, In k ids /\ od_contains k (data self) = true.
Proof.
  unfold num_existing_keys. rewrite Nat.ltb_lt. split.
  - intros H. destruct (filter _ ids) as [|k r] eqn:E; [simpl in H; lia|].
    assert (Hk : In k (filter (fun key => od_contains key (data self)) ids))
      by (rewrite E; now left).
    apply filter_In in Hk. now exists k.
  - intros (k & Hin & Hk).
    assert (H : In k (filter (fun key => od_contains key (data self)) ids))
      by (apply filter_In; auto).
    destruct (filter _ ids); [contradiction | simpl; lia].
Qed.

Lemma subset_nonempty (self : BaseDataset) (ids : list pyatom) :
  (exists k, In k ids /\ od_contains k (data self) = true) ->
  __get_subset_from_dict (data self) ids <> [].
Proof.
  intros (k & Hin & Hk) E.
  apply od_contains_In in Hk. unfold od_keys in Hk.
  apply in_map_iff in Hk. destruct Hk as ([k' v] & Ek & Hkv). simpl in Ek. subst k'.
  assert (H : In (k, v) (__get_subset_from_dict (data self) ids)).
  { apply filter_In. split; [exact Hkv|]. simpl. now apply id_in_In. }
  rewrite E in H. contradiction.
Qed.

Lemma append_newline_nonempty (s : string) :
  String.eqb (String.append EmptyString (String.append newline s)) EmptyString = false.
Proof. reflexivity. Qed.

(** The dataset [get_subset] returns when some requested id exists, on a
    dataset whose mappings share their key set and whose vectors and
    feature names have the length [num_features]. *)
Lemma get_subset_result (self : BaseDataset) (ids : list pyatom) :
  keys_agree self -> uniform_length self ->
  (exists k, In k ids /\ od_contains k (data self) = true) ->
  get_subset self ids
  = ([], Ok (mk_dataset (__get_subset_from_dict (data self) ids)
                        (__get_subset_from_dict (targets self) ids)
                        (__get_subset_from_dict (classes self) ids)
                        (num_features self) (dtype self)
                        (String.append newline
                           (String.append " Subset derived from: " (description self)))
                        (feature_names self))).
Proof.
  intros Hagree [Hsize (names & En & Ln)] Hex.
  unfold get_subset. rewrite (proj2 (num_existing_keys_pos self ids) Hex).
  pose proof (subset_nonempty self ids Hex) as Hne.
  destruct (__get_subset_from_dict (data self) ids) as [|[k0 v0] r] eqn:Ed;
    [congruence|].
  assert (Hall : Forall (fun v => size v = num_features self)
                        (od_values ((k0, v0) :: r))).
  { rewrite <- Ed. apply values_subset. exact Hsize. }
  assert (Hv0 : size v0 = num_features self) by (inversion Hall; assumption).
  assert (Hsub : lists_agree (on_lists (filter (fun k => id_in k ids)) (key_lists self))).
  { eapply keys_step_agree; [apply step_keep | exact Hagree]. }
  unfold key_lists, on_lists in Hsub. rewrite <- !od_keys_subset, Ed in Hsub.
  destruct Hsub as (N1 & N2 & N3 & S1 & S2).
  rewrite (init_bulk_succeeds _ _ _ EmptyString None k0 v0 r eq_refl N1 N2 N3 S1 S2).
  2:{ eapply Forall_impl; [|exact Hall]. simpl. intros v Hv. congruence. }
  simpl. unfold set_description. simpl.
  unfold set_feature_names. rewrite En. simpl.
  rewrite Ln, Hv0, Nat.eqb_refl. simpl. unfold with_dtype, with_feature_names. simpl.
  reflexivity.
Qed.

Lemma od_find_subset {V : Type} (k : pyatom) (d : odict V) (s : list pyatom) :
  od_find k (__get_subset_from_dict d s) = if id_in k s then od_find k d else None.
Proof.
  unfold __get_subset_from_dict. induction d as [|[x v] r IH]; simpl.
  - now destruct (id_in k s).
  - destruct (id_in x s) eqn:Ex; simpl.
    + destruct (pyatom_eqb k x) eqn:E; [|exact IH].
      apply pyatom_eqb_eq in E. subst x. now rewrite Ex.
    + rewrite IH. destruct (pyatom_eqb k x) eqn:E; [|reflexivity].
      apply pyatom_eqb_eq in E. subst x. now rewrite Ex.
Qed.

(** X7: on a dataset whose mappings share their key set and whose vectors
    and feature names have the length [num_features], [get_subset] with at
    least one id of the dataset returns, without a warning, a dataset that
    holds the requested ids of the dataset in the order of the dataset (not
    of the request), each with its features, target and class, and no other
    id; feature count, feature names and recorded type are taken over.
    When no requested id is in the dataset it gives a warning and returns
    the empty dataset. *)
Theorem get_subset_keeps_requested (self : BaseDataset) (ids : list pyatom) :
  keys_agree self -> uniform_length self ->
  ((exists k, In k ids /\ od_contains k (data self) = true) ->
   exists ds,
     get_subset self ids = ([], Ok ds) /\
     keys ds = filter (fun k => id_in k ids) (keys self) /\
     (forall k, In k ids ->
                od_find k (data ds) = od_find k (data self) /\
                od_find k (targets ds) = od_find k (targets self) /\
                od_find k (classes ds) = od_find k (classes self)) /\
     (forall k, ~ In k ids -> od_find k (data ds) = None) /\
     num_features ds = num_features self /\
     feature_names ds = feature_names self /\
     dtype ds = dtype self) /\
  ((forall k, In k ids -> od_contains k (data self) = false) ->
   get_subset self ids = ([WarnSubsetNotFound], Ok empty_dataset)).
Proof.
  intros Hagree Hlen. split.
  - intros Hex. eexists. split; [apply get_subset_result; assumption|]. simpl.
    split; [apply od_keys_subset|].
    split.
    + intros k Hk. apply id_in_In in Hk. rewrite !od_find_subset, Hk. auto.
    + split; [|auto]. intros k Hk. apply id_in_not_In in Hk.
      now rewrite od_find_subset, Hk.
  - intros Hnone. unfold get_subset.
    destruct (Nat.ltb 0 (num_existing_keys self ids)) eqn:E; [|reflexivity].
    apply num_existing_keys_pos in E. destruct E as (k & Hin & Hk).
    rewrite (Hnone k Hin) in Hk. discriminate.
Qed.

Lemma scenario_table_uniform : uniform_length scenario_table.
Proof.
  split; [apply scenario_table_sizes|]. exists ["f0"; "f1"]. split; reflexivity.
Qed.

Lemma get_subset_keeps_requested_witness :
  (exists ds,
      get_subset scenario_table [PStr "zz"; PStr "s2"] = ([], Ok ds) /\
      keys ds = [PStr "s2"] /\
      od_find (PStr "s2") (data ds) = Some (ints [3%Z; 4%Z])) /\
  get_subset scenario_table [PStr "zz"] = ([WarnSubsetNotFound], Ok empty_dataset).
Proof.
  destruct (get_subset_keeps_requested scenario_table [PStr "zz"; PStr "s2"]
              scenario_table_agrees scenario_table_uniform) as [H1 _].
  destruct (get_subset_keeps_requested scenario_table [PStr "zz"]
              scenario_table_agrees scenario_table_uniform) as [_ H2].
  split.
  - destruct H1 as (ds & E & Ek & Hin & _).
    { exists (PStr "s2"). split; [simpl; auto | reflexivity]. }
    exists ds. split; [exact E|]. split; [exact Ek|].
    destruct (Hin (PStr "s2")) as [Hd _]; [simpl; auto|]. exact Hd.
  - apply H2. intros k [<-|[]]. reflexivity.
Defined.

(** X8: the dataset [get_subset] returns depends on which ids are
    requested, not on their order nor on how often each is listed. *)
Theorem get_subset_ignores_request_order (self : BaseDataset) (ids ids' : list pyatom) :
  (forall k, In k ids <-> In k ids') ->
  get_subset self ids = get_subset self ids'.
Proof.
  intros H.
  assert (Hf : forall (V : Type) (d : odict V),
             __get_subset_from_dict d ids = __get_subset_from_dict d ids').
  { intros V d. unfold __get_subset_from_dict. apply filter_ext.
    intros kv. now apply id_in_ext. }
  assert (Hn : Nat.ltb 0 (num_existing_keys self ids)
               = Nat.ltb 0 (num_existing_keys self ids')).
  { destruct (Nat.ltb 0 (num_existing_keys self ids')) eqn:E.
    - apply num_existing_keys_pos. apply num_existing_keys_pos in E.
      destruct E as (k & Hin & Hk). exists k. split; [now apply H | exact Hk].
    - destruct (Nat.ltb 0 (num_existing_keys self ids)) eqn:E'; [|reflexivity].
      apply num_existing_keys_pos in E'. destruct E' as (k & Hin & Hk).
      assert (E2 : Nat.ltb 0 (num_existing_keys self ids') = true).
      { apply num_existing_keys_pos. exists k. split; [now apply H | exact Hk]. }
      congruence. }
  unfold get_subset. rewrite Hn, !Hf. reflexivity.
Qed.

Lemma get_subset_ignores_request_order_witness :
  get_subset scenario_table [PStr "s2"; PStr "s1"]
  = get_subset scenario_table [PStr "s1"; PStr "s2"; PStr "s1"].
Proof.
  apply (get_subset_ignores_request_order scenario_table).
  intros k. simpl. tauto.
Defined.

Lemma subset_of_all_keys {V : Type} (d : odict V) (ks : list pyatom) :
  (forall k, In k (od_keys d) -> In k ks) -> __get_subset_from_dict d ks = d.
Proof.
  unfold __get_subset_from_dict, od_keys.
  induction d as [|[k v] r IH]; simpl; intros H; [reflexivity|].
  rewrite (proj2 (id_in_In k ks)) by (apply H; now left).
  f_equal. apply IH. intros x Hx. apply H. now right.
Qed.

(** X9: [get_subset] with all the ids of a non-empty dataset (one whose
    mappings share their key set and whose vectors and names have the length
    [num_features]) returns a dataset with the same three mappings, feature
    count, feature names and recorded type; only the description differs.
    (The dataset returned holds its targets and classes in two dictionaries
    of its own and its names in an array.) *)
Theorem get_subset_of_all_ids (self : BaseDataset) :
  keys_agree self -> uniform_length self -> data self <> [] ->
  get_subset self (keys self)
  = ([], Ok (mk_dataset (data self) (targets self) (classes self)
                        (num_features self) (dtype self)
                        (String.append newline
                           (String.append " Subset derived from: " (description self)))
                        (feature_names self))).
Proof.
  intros Hagree Hlen Hne.
  rewrite get_subset_result; try assumption.
  - destruct Hagree as (_ & _ & _ & Hdt & Hdc).
    rewrite !subset_of_all_keys; [reflexivity | | | ]; unfold keys; intros k Hk.
    + now apply Hdc.
    + now apply Hdt.
    + exact Hk.
  - destruct (data self) as [|[k v] r] eqn:E; [congruence|].
    exists k. unfold keys, od_contains. rewrite E. simpl.
    rewrite pyatom_eqb_refl. auto.
Qed.

Lemma get_subset_of_all_ids_witness :
  get_subset scenario_table (keys scenario_table)
  = ([], Ok (mk_dataset (data scenario_table) (targets scenario_table)
                        (classes scenario_table) (num_features scenario_table)
                        (dtype scenario_table)
                        (String.append newline
                           (String.append " Subset derived from: "
                                          (description scenario_table)))
                        (feature_names scenario_table))).
Proof.
  apply (get_subset_of_all_ids scenario_table).
  - exact scenario_table_agrees.
  - exact scenario_table_uniform.
  - discriminate.
Defined.

(* ================================================================== *)
(** ** get_data_matrix_in_order *)

Lemma as_floats_length (d : npdata) : List.length (as_floats d) = np_len d.
Proof. destruct d; simpl; [apply length_map | reflexivity]. Qed.

Lemma filter_all {A : Type} (p : A -> bool) (l : list A) :
  (forall x, In x l -> p x = true) -> filter p l = l.
Proof.
  induction l as [|x r IH]; simpl; intros H; [reflexivity|].
  rewrite (H x (or_introl eq_refl)). f_equal. apply IH. intros y Hy. apply H. now right.
Qed.

Lemma fill_rows_present (self : BaseDataset) (ids : list pyatom) :
  sizes_uniform self ->
  (forall k, In k ids -> od_contains k (data self) = true) ->
  exists rows,
    fill_rows self ids = Ok rows /\
    Forall2 (fun k row => exists v, od_find k (data self) = Some v /\
                                    row = as_floats (a_data v)) ids rows.
Proof.
  intros Hs. induction ids as [|k r IH]; intros Hin.
  - exists []. split; [reflexivity | constructor].
  - destruct IH as (rows & E & F); [intros x Hx; apply Hin; now right|].
    assert (Hk : In k (od_keys (data self)))
      by (apply od_contains_In, Hin; now left).
    apply od_find_some_iff in Hk. destruct Hk as [v Ev].
    assert (Hv : size v = num_features self).
    { unfold sizes_uniform in Hs. rewrite Forall_forall in Hs. apply Hs.
      revert Ev. unfold od_values. clear.
      induction (data self) as [|[x w] d IH]; simpl; [discriminate|].
      destruct (pyatom_eqb k x); [intros H; injection H as <-; now left|].
      intros H. right. now apply IH. }
    exists (as_floats (a_data v) :: rows). split.
    + simpl. unfold od_getitem. rewrite Ev. simpl. unfold row_of.
      rewrite as_floats_length. fold (size v). rewrite Hv, Nat.eqb_refl. simpl.
      rewrite E. reflexivity.
    + constructor; [exists v; auto | exact F].
Qed.

(** X10: on a dataset whose vectors all have [num_features] elements,
    [get_data_matrix_in_order] with a non-empty list of ids of the dataset
    returns, without a warning, a matrix with one row per listed id, in the
    order of the list, each row holding the features found under its id.  A
    non-empty [set] is refused with [TypeError], and a non-empty string is
    taken as the list of that one id. *)
Theorem matrix_rows_follow_ids (self : BaseDataset) :
  (forall ids,
      sizes_uniform self -> ids <> [] ->
      (forall k, In k ids -> od_contains k (data self) = true) ->
      exists rows,
        get_data_matrix_in_order self (IdList ids)
        = ([], Ok (mk_matrix (List.length ids) (num_features self) rows)) /\
        Forall2 (fun k row => exists v, od_find k (data self) = Some v /\
                                        row = as_floats (a_data v)) ids rows) /\
  (forall ids, ids <> [] ->
               get_data_matrix_in_order self (IdSet ids) = ([], Raise TypeError)) /\
  (forall s, s <> EmptyString ->
             get_data_matrix_in_order self (IdStr s)
             = get_data_matrix_in_order self (IdList [PStr s])).
Proof.
  split; [|split].
  - intros ids Hs Hne Hin.
    destruct (fill_rows_present self ids Hs Hin) as (rows & E & F).
    exists rows. split; [|exact F].
    unfold get_data_matrix_in_order.
    destruct ids as [|i r]; [congruence|].
    assert (E1 : Nat.ltb (ids_len (IdList (i :: r))) 1 = false) by reflexivity.
    rewrite E1. cbv beta iota zeta.
    assert (En : num_existing_keys self (i :: r) = List.length (i :: r)).
    { unfold num_existing_keys. now rewrite filter_all. }
    rewrite En, Nat.ltb_irrefl, E. reflexivity.
  - intros [|i r] Hne; [congruence | reflexivity].
  - intros [|a s] Hne; [congruence | reflexivity].
Qed.

Lemma matrix_rows_follow_ids_witness :
  (exists rows,
      get_data_matrix_in_order scenario_table (IdList [PStr "s2"; PStr "s1"])
      = ([], Ok (mk_matrix 2 2 rows)) /\
      Forall2 (fun k row => exists v, od_find k (data scenario_table) = Some v /\
                                      row = as_floats (a_data v))
              [PStr "s2"; PStr "s1"] rows) /\
  get_data_matrix_in_order scenario_table (IdSet [PStr "s1"]) = ([], Raise TypeError) /\
  get_data_matrix_in_order scenario_table (IdStr "s1")
  = get_data_matrix_in_order scenario_table (IdList [PStr "s1"]).
Proof.
  destruct (matrix_rows_follow_ids scenario_table) as (H1 & H2 & H3).
  split; [|split].
  - apply (H1 [PStr "s2"; PStr "s1"] scenario_table_sizes).
    + discriminate.
    + intros k [<-|[<-|[]]]; reflexivity.
  - apply H2. discriminate.
  - apply H3. discriminate.
Defined.

(* ================================================================== *)
(** ** Removal of one dataset from another *)

Lemma od_remove_absent {V : Type} (k : pyatom) (d : odict V) :
  od_contains k d = false -> od_remove k d = d.
Proof.
  unfold od_contains, id_in, od_keys.
  induction d as [|[x v] r IH]; simpl; intros H; [reflexivity|].
  apply orb_false_iff in H. destruct H as [E H]. rewrite E. now rewrite IH.
Qed.

Lemma pyatom_eqb_sym (a b : pyatom) : pyatom_eqb a b = pyatom_eqb b a.
Proof.
  destruct (pyatom_eqb b a) eqn:E.
  - apply pyatom_eqb_eq in E. subst. apply pyatom_eqb_refl.
  - apply pyatom_eqb_neq. apply pyatom_eqb_neq in E. congruence.
Qed.

Lemma without_one_key {V : Type} (k : pyatom) (d : odict V) :
  without_keys d [k] = filter (fun kv => negb (pyatom_eqb k (fst kv))) d.
Proof.
  unfold without_keys. apply filter_ext. intros [x v]. unfold id_in. simpl.
  now rewrite orb_false_r, pyatom_eqb_sym.
Qed.

Lemma od_remove_without {V : Type} (k : pyatom) (d : odict V) :
  is_dict d -> od_remove k d = without_keys d [k].
Proof.
  rewrite without_one_key. unfold is_dict, od_keys.
  induction d as [|[x v] r IH]; simpl; intros Hd; [reflexivity|].
  inversion Hd as [|? ? Hx Hr]; subst.
  destruct (pyatom_eqb k x) eqn:E; simpl.
  - apply pyatom_eqb_eq in E. subst x.
    rewrite <- IH by assumption. symmetry. apply od_remove_absent.
    now apply id_in_not_In.
  - now rewrite IH.
Qed.

Lemma filter_twice {A : Type} (p q : A -> bool) (l : list A) :
  filter q (filter p l) = filter (fun x => p x && q x) l.
Proof.
  induction l as [|x r IH]; simpl; [reflexivity|].
  destruct (p x); simpl; [|exact IH]. destruct (q x); simpl; now rewrite IH.
Qed.

Lemma without_keys_cons {V : Type} (k : pyatom) (ks : list pyatom) (d : odict V) :
  without_keys (without_keys d [k]) ks = without_keys d (k :: ks).
Proof.
  unfold without_keys. rewrite filter_twice. apply filter_ext. intros [x v].
  unfold id_in. simpl. rewrite orb_false_r. now rewrite negb_orb.
Qed.

Lemma without_keys_nil {V : Type} (d : odict V) : without_keys d [] = d.
Proof. unfold without_keys. apply filter_all. reflexivity. Qed.

Lemma del_sample_without (self : BaseDataset) (k : pyatom) :
  keys_agree self -> one_dict self = false ->
  snd (del_sample self k) = Ok tt /\
  fst (fst (del_sample self k))
  = dataset_of (without_keys (data self) [k])
               (TwoDicts (without_keys (targets self) [k])
                         (without_keys (classes self) [k]))
               (num_features self) (dtype self) (description self)
               (feature_names self) (names_in_list self).
Proof.
  intros Hagree H2.
  destruct (agree_in_all_or_none k self Hagree) as [Hc Ht].
  destruct Hagree as (Hd & Hdt & Hdc & _).
  rewrite <- !od_remove_without by assumption.
  destruct (od_contains k (data self)) eqn:Hk.
  - rewrite (del_sample_present self k H2 Hk Hc Ht). auto.
  - rewrite (del_sample_absent self k Hk). simpl.
    rewrite !od_remove_absent by assumption. split; [reflexivity|].
    now apply two_dicts_eta.
Qed.

Lemma remove_loop_without (ids : list pyatom) (removed : BaseDataset) :
  keys_agree removed -> one_dict removed = false ->
  returned (remove_loop removed ids)
  = Ok (dataset_of (without_keys (data removed) ids)
                   (TwoDicts (without_keys (targets removed) ids)
                             (without_keys (classes removed) ids))
                   (num_features removed) (dtype removed) (description removed)
                   (feature_names removed) (names_in_list removed)).
Proof.
  unfold returned. revert removed.
  induction ids as [|k r IH]; intros removed Hagree H2.
  - simpl. rewrite !without_keys_nil. f_equal. now apply two_dicts_eta.
  - simpl.
    pose proof (del_sample_step removed k Hagree) as S.
    destruct (del_sample_without removed k Hagree H2) as [Eo Es].
    destruct (del_sample removed k) as [[x w] o]. simpl in *. subst o x.
    specialize (IH _ (keys_agree_step _ _ S Hagree) eq_refl).
    destruct (remove_loop _ r) as [w' res]. simpl in *. subst res.
    now rewrite !without_keys_cons.
Qed.

(** Where one dictionary is held as both targets and classes, the chain of
    [del_sample] calls stops with [KeyError] at the first id that is in the
    dataset. *)
Lemma remove_loop_one_dict (ids : list pyatom) (removed : BaseDataset) :
  keys_agree removed -> one_dict removed = true ->
  (exists k, In k ids /\ od_contains k (data removed) = true) ->
  returned (remove_loop removed ids) = Raise KeyError.
Proof.
  unfold returned. intros Hagree H1.
  induction ids as [|k r IH]; intros (x & Hin & Hx); [destruct Hin|].
  simpl. destruct (od_contains k (data removed)) eqn:Hk.
  - assert (Hc : od_contains k (classes removed) = true).
    { rewrite (proj1 (agree_in_all_or_none k removed Hagree)). exact Hk. }
    rewrite (del_sample_one_dict removed k H1
               (od_remove_absent_key k _ (proj1 (proj2 (proj2 Hagree)))) Hk Hc).
    reflexivity.
  - rewrite (del_sample_absent removed k Hk).
    destruct Hin as [->|Hin]; [congruence|].
    specialize (IH (ex_intro _ x (conj Hin Hx))).
    destruct (remove_loop removed r) as [w' res]. simpl in *. exact IH.
Qed.

(** X11: on a dataset whose mappings share their key set and whose targets
    and classes are two dictionaries, [__sub__] never raises: it returns the
    dataset without the samplets whose id is an id of the other dataset, the
    remaining samplets in their order, and with the same feature count,
    feature names, recorded type and description.  Where one dictionary is
    held as both targets and classes and the two datasets share an id,
    [__sub__] raises [KeyError]. *)
Theorem sub_removes_ids_of_other (self other : BaseDataset) :
  keys_agree self ->
  (one_dict self = false ->
   returned (__sub__ self other)
   = Ok (dataset_of (without_keys (data self) (keys other))
                    (TwoDicts (without_keys (targets self) (keys other))
                              (without_keys (classes self) (keys other)))
                    (num_features self) (dtype self) (description self)
                    (feature_names self) (names_in_list self))) /\
  (one_dict self = true ->
   (exists k, In k (keys other) /\ In k (keys self)) ->
   returned (__sub__ self other) = Raise KeyError).
Proof.
  intros Hagree. split.
  - intros H2. pose proof (remove_loop_without (keys other) self Hagree H2) as H.
    unfold returned, __sub__ in *.
    destruct (remove_loop self (keys other)) as [w r]. simpl in *. exact H.
  - intros H1 (k & Ho & Hs).
    assert (Hex : exists k, In k (keys other) /\ od_contains k (data self) = true).
    { exists k. split; [exact Ho | now apply od_contains_In]. }
    pose proof (remove_loop_one_dict (keys other) self Hagree H1 Hex) as H.
    unfold returned, __sub__ in *.
    destruct (remove_loop self (keys other)) as [w r]. simpl in *. exact H.
Qed.

(** The scenario table with its targets handed to the classes setter: one
    dictionary is then held as both. *)
Lemma shared_table_agrees :
  keys_agree (state_after (set_classes scenario_table HeldTargets)).
Proof.
  apply set_classes_agree; [exact scenario_table_agrees|].
  apply scenario_table_agrees.
Qed.

Lemma sub_removes_ids_of_other_witness :
  returned (__sub__ scenario_table wide_table)
  = Ok (mk_dataset [(PStr "s2", ints [3%Z; 4%Z])] [(PStr "s2", PInt 1)]
                   [(PStr "s2", PStr "1")] 2 (Some NdArray) EmptyString
                   (Some ["f0"; "f1"])) /\
  returned (__sub__ (state_after (set_classes scenario_table HeldTargets)) wide_table)
  = Raise KeyError.
Proof.
  split.
  - exact (proj1 (sub_removes_ids_of_other scenario_table wide_table
                    scenario_table_agrees) eq_refl).
  - apply (proj2 (sub_removes_ids_of_other
                    (state_after (set_classes scenario_table HeldTargets)) wide_table
                    shared_table_agrees) eq_refl).
    exists (PStr "s1"). split; simpl; auto.
Defined.

(* ================================================================== *)
(** ** Combination of two datasets *)

Lemma inter_count_pos (a b : list pyatom) :
  Nat.ltb (inter_count a b) 1 = false <-> exists k, In k a /\ In k b.
Proof.
  unfold inter_count. rewrite Nat.ltb_ge. split.
  - intros H. destruct (filter _ (distinct a)) as [|k r] eqn:E; [simpl in H; lia|].
    assert (Hk : In k (filter (fun k => id_in k b) (distinct a)))
      by (rewrite E; now left).
    apply filter_In in Hk. destruct Hk as [Ha Hb].
    exists k. split; [now apply In_distinct | now apply id_in_In].
  - intros (k & Ha & Hb).
    assert (Hk : In k (filter (fun k => id_in k b) (distinct a))).
    { apply filter_In. split; [now apply In_distinct | now apply id_in_In]. }
    destruct (filter _ (distinct a)); [contradiction | simpl; lia].
Qed.

(** X12: [__add__] raises [ArithmeticError] when the two datasets have
    different id sets and share an id, and also when they have different
    id sets and different feature counts. *)
Theorem add_refuses_partial_overlap (self other : BaseDataset) (both_ordered : bool) :
  ~ (forall k, In k (keys self) <-> In k (keys other)) ->
  (exists k, In k (keys self) /\ In k (keys other)) \/
  num_features self <> num_features other ->
  __add__ self other both_ordered = Raise ArithmeticError.
Proof.
  intros Hdiff Hcase. unfold __add__.
  destruct (set_eqb (keys self) (keys other)) eqn:Es.
  - exfalso. apply Hdiff. now apply set_eqb_spec.
  - destruct Hcase as [Hcommon|Hnf].
    + apply inter_count_pos in Hcommon. now rewrite Hcommon.
    + apply Nat.eqb_neq in Hnf. rewrite Hnf. now rewrite andb_false_r.
Qed.

Lemma add_refuses_partial_overlap_witness :
  __add__ scenario_table wide_table true = Raise ArithmeticError.
Proof.
  apply (add_refuses_partial_overlap scenario_table wide_table true).
  - intros H. destruct (H (PStr "s2")) as [H1 _].
    destruct H1 as [H1|[]]; [simpl; auto | discriminate H1].
  - left. exists (PStr "s1"). split; simpl; auto.
Defined.

Lemma od_setitem_fresh {V : Type} (k : pyatom) (v : V) (d : odict V) :
  od_contains k d = false -> od_setitem k v d = d ++ [(k, v)].
Proof.
  unfold od_contains, id_in, od_keys.
  induction d as [|[x w] r IH]; simpl; intros H; [reflexivity|].
  apply orb_false_iff in H. destruct H as [E H]. rewrite E. now rewrite IH.
Qed.

(** An insertion of an array under a new id into a non-empty dataset, with
    explicit class id and without feature names, when every check passes. *)
Lemma add_sample_appends (acc : BaseDataset) (k : pyatom) (v : ndarray) (t c : pyatom) :
  0 < num_samples acc ->
  od_contains k (data acc) = false ->
  od_contains k (targets acc) = false ->
  od_contains k (classes acc) = false ->
  0 < size v -> size v = num_features acc ->
  isinstance v (dtype acc) = Ok true ->
  one_dict acc = false ->
  add_sample acc k (PyArray v 0) t (Some c) false None
  = (dataset_of (data acc ++ [(k, v)])
                (TwoDicts (targets acc ++ [(k, t)]) (classes acc ++ [(k, c)]))
                (num_features acc) (dtype acc)
                (description acc) (feature_names acc) (names_in_list acc), Ok tt).
Proof.
  intros Hn Hd Ht Hc Hpos Hs Hi H2. unfold add_sample, check_features.
  rewrite Hd. simpl.
  destruct (Nat.leb_spec (size v) 0); [lia|].
  destruct (Nat.leb_spec (num_samples acc) 0); [lia|].
  rewrite Hs, Nat.eqb_refl. simpl.
  replace (isinstance {| a_class := a_class v; a_data := a_data v |} (dtype acc))
    with (isinstance v (dtype acc)) by (destruct v; reflexivity).
  destruct v as [cl dat]. simpl in *. rewrite Hi.
  rewrite store_sample_two_dicts by exact H2.
  now rewrite !od_setitem_fresh by assumption.
Qed.

Lemma lookup_all_keys {V : Type} (d r : odict V) (ks : list pyatom) :
  lookup_all d ks = Ok r -> od_keys r = ks.
Proof.
  revert r. induction ks as [|k ks IH]; simpl; intros r H.
  - now injection H as <-.
  - destruct (od_getitem k d) as [v|e]; simpl in H; [|discriminate].
    destruct (lookup_all d ks) as [r'|e]; simpl in H; [|discriminate].
    injection H as <-. simpl. f_equal. now apply IH.
Qed.

Lemma lookup_all_total {V : Type} (d : odict V) (ks : list pyatom) :
  (forall k, In k ks -> In k (od_keys d)) -> exists r, lookup_all d ks = Ok r.
Proof.
  induction ks as [|k ks IH]; simpl; intros H; [eauto|].
  destruct (proj2 (od_find_some_iff k d) (H k (or_introl eq_refl))) as [v Ev].
  destruct IH as [r Er]; [intros x Hx; apply H; now right|].
  unfold od_getitem. rewrite Ev. simpl. rewrite Er. simpl. eauto.
Qed.

Lemma lookup_all_ext {V : Type} (d d' : odict V) (ks : list pyatom) :
  (forall k, In k ks -> od_find k d = od_find k d') ->
  lookup_all d ks = lookup_all d' ks.
Proof.
  induction ks as [|k ks IH]; simpl; intros H; [reflexivity|].
  unfold od_getitem. rewrite (H k (or_introl eq_refl)).
  rewrite IH by (intros x Hx; apply H; now right). reflexivity.
Qed.

Lemma lookup_all_self {V : Type} (d : odict V) :
  is_dict d -> lookup_all d (od_keys d) = Ok d.
Proof.
  unfold is_dict, od_keys. induction d as [|[k v] r IH]; simpl; intros Hd;
    [reflexivity|].
  inversion Hd as [|? ? Hk Hr]; subst.
  unfold od_getitem. simpl. rewrite pyatom_eqb_refl. simpl.
  rewrite (lookup_all_ext ((k, v) :: r) r).
  - rewrite (IH Hr). reflexivity.
  - intros x Hx. simpl. destruct (pyatom_eqb x k) eqn:E; [|reflexivity].
    apply pyatom_eqb_eq in E. subst x. contradiction.
Qed.

Lemma lookup_all_In {V : Type} (d r : odict V) (ks : list pyatom) (k : pyatom) (v : V) :
  lookup_all d ks = Ok r -> In (k, v) r -> In k ks /\ od_find k d = Some v.
Proof.
  revert r. induction ks as [|x ks IH]; simpl; intros r H Hin.
  - injection H as <-. contradiction.
  - unfold od_getitem in H. destruct (od_find x d) as [w|] eqn:Ex; simpl in H;
      [|discriminate].
    destruct (lookup_all d ks) as [r'|e]; simpl in H; [|discriminate].
    injection H as <-. destruct Hin as [E|Hin].
    + injection E as -> ->. auto.
    + destruct (IH r' eq_refl Hin). auto.
Qed.

(** The loop of [extend] when every insertion passes its checks. *)
Lemma extend_loop_appends (other : BaseDataset) (ids : list pyatom) :
  forall (acc : BaseDataset) (D : odict ndarray) (T C : odict pyatom),
    lookup_all (data other) ids = Ok D ->
    lookup_all (targets other) ids = Ok T ->
    lookup_all (classes other) ids = Ok C ->
    NoDup ids ->
    (forall k, In k ids ->
               od_contains k (data acc) = false /\
               od_contains k (targets acc) = false /\
               od_contains k (classes acc) = false) ->
    0 < num_samples acc ->
    Forall (fun v => 0 < size v /\ size v = num_features acc /\
                     isinstance v (dtype acc) = Ok true) (od_values D) ->
    one_dict acc = false ->
    extend_loop acc other ids
    = (dataset_of (data acc ++ D) (TwoDicts (targets acc ++ T) (classes acc ++ C))
                  (num_features acc) (dtype acc) (description acc)
                  (feature_names acc) (names_in_list acc), Ok tt).
Proof.
  induction ids as [|k r IH]; intros acc D T C HD HT HC Hnd Hfresh Hn Hall H2.
  - simpl in *. injection HD as <-. injection HT as <-. injection HC as <-.
    rewrite !app_nil_r. f_equal. now apply two_dicts_eta.
  - simpl in HD, HT, HC. simpl.
    destruct (od_getitem k (data other)) as [v|e]; simpl in HD; [|discriminate].
    destruct (lookup_all (data other) r) as [D'|e]; simpl in HD; [|discriminate].
    destruct (od_getitem k (targets other)) as [t|e]; simpl in HT; [|discriminate].
    destruct (lookup_all (targets other) r) as [T'|e]; simpl in HT; [|discriminate].
    destruct (od_getitem k (classes other)) as [c|e]; simpl in HC; [|discriminate].
    destruct (lookup_all (classes other) r) as [C'|e]; simpl in HC; [|discriminate].
    injection HD as <-. injection HT as <-. injection HC as <-.
    inversion Hnd as [|? ? Hk Hr]; subst.
    unfold od_values in Hall. simpl in Hall.
    inversion Hall as [|? ? (Hpos & Hs & Hi) Hall']; subst.
    destruct (Hfresh k (or_introl eq_refl)) as (F1 & F2 & F3).
    rewrite (add_sample_appends acc k v t c Hn F1 F2 F3 Hpos Hs Hi H2).
    rewrite (IH _ D' T' C' eq_refl eq_refl eq_refl Hr); simpl.
    + now rewrite <- !app_assoc.
    + intros x Hx. destruct (Hfresh x (or_intror Hx)) as (G1 & G2 & G3).
      assert (Hne : pyatom_eqb x k = false)
        by (apply pyatom_eqb_neq; intros ->; contradiction).
      unfold od_contains, od_keys, id_in in *.
      rewrite !map_app, !existsb_app. simpl. rewrite Hne, G1, G2, G3. auto.
    + unfold num_samples, od_len. simpl. destruct (data acc); simpl; lia.
    + exact Hall'.
    + reflexivity.
Qed.

Lemma init_copy_ok (self : BaseDataset) :
  0 < num_samples self ->
  __init__ (Some self) None None None EmptyString None = Ok (__copy self).
Proof.
  intros H. unfold __init__. destruct (Nat.leb_spec (num_samples self) 0); [lia|].
  reflexivity.
Qed.

(** X13: take two datasets in each of which the three mappings are
    dictionaries over one key set, the first not empty, with no id in
    common, the same feature count, and the vectors of the second passing
    the checks of [add_sample] (non-empty, of that length, of the class the
    first has recorded).  Then [__add__] returns a copy of the first dataset
    with the samplets of the second appended in the order of its data: the
    number of samplets is the sum of the two, and every appended id keeps
    its features, target and class. *)
Theorem add_disjoint_appends (self other : BaseDataset) (both_ordered : bool)
        (cls : arrclass) :
  keys_agree self -> keys_agree other ->
  data self <> [] ->
  (forall k, In k (keys self) -> ~ In k (keys other)) ->
  num_features self = num_features other ->
  sizes_uniform other -> 0 < num_features other ->
  dtype self = Some cls ->
  Forall (fun v => issubclass (type v) cls = true) (od_values (data other)) ->
  exists T C,
    lookup_all (targets other) (keys other) = Ok T /\
    lookup_all (classes other) (keys other) = Ok C /\
    __add__ self other both_ordered
    = Ok (dataset_of (data self ++ data other)
                     (TwoDicts (targets self ++ T) (classes self ++ C))
                     (num_features self) (dtype self)
                     (description self) (feature_names self) (names_in_list self)) /\
    od_len (data self ++ data other) = num_samples self + num_samples other.
Proof.
  intros Hs Ho Hne Hdisj Hnf Hsz Hpos Hdt Hcls.
  destruct Ho as (Od & Ot & Oc & Odt & Odc).
  destruct (lookup_all_total (targets other) (keys other)) as [T HT];
    [intros k Hk; now apply Odt|].
  destruct (lookup_all_total (classes other) (keys other)) as [C HC];
    [intros k Hk; now apply Odc|].
  exists T, C. split; [exact HT|]. split; [exact HC|].
  split; [|unfold od_len, num_samples, od_len; apply length_app].
  assert (Hn : 0 < num_samples self).
  { unfold num_samples, od_len. destruct (data self); [congruence | simpl; lia]. }
  unfold __add__.
  assert (Es : set_eqb (keys self) (keys other) = false).
  { destruct (set_eqb (keys self) (keys other)) eqn:E; [|reflexivity].
    rewrite set_eqb_spec in E. exfalso.
    destruct (data self) as [|[k v] r] eqn:Ed; [congruence|].
    assert (Hk : In k (keys self)) by (unfold keys; rewrite Ed; now left).
    apply (Hdisj k Hk). now apply E. }
  rewrite Es.
  assert (Ei : Nat.ltb (inter_count (keys self) (keys other)) 1 = true).
  { destruct (Nat.ltb (inter_count (keys self) (keys other)) 1) eqn:E; [reflexivity|].
    apply inter_count_pos in E. destruct E as (k & H1 & H2).
    exfalso. now apply (Hdisj k). }
  rewrite Ei, (proj2 (Nat.eqb_eq _ _) Hnf). simpl.
  rewrite (init_copy_ok self Hn). simpl. unfold extend.
  assert (E : extend_loop (__copy self) other (keys other)
              = (dataset_of (data self ++ data other)
                            (TwoDicts (targets self ++ T) (classes self ++ C))
                            (num_features self) (dtype self)
                            (description self) (feature_names self)
                            (names_in_list self), Ok tt)).
  { apply (extend_loop_appends other (keys other) (__copy self)).
    - now apply lookup_all_self.
    - exact HT.
    - exact HC.
    - exact Od.
    - intros k Hk.
      assert (Hout : od_contains k (data self) = false).
      { apply id_in_not_In. intros H. now apply (Hdisj k). }
      destruct (agree_in_all_or_none k self Hs) as [E1 E2].
      rewrite Hout in E1, E2. auto.
    - exact Hn.
    - unfold sizes_uniform in Hsz. rewrite Forall_forall in *.
      intros v Hv. specialize (Hsz v Hv). specialize (Hcls v Hv).
      simpl. rewrite Hdt. simpl. rewrite Hcls. repeat split; lia || reflexivity.
    - reflexivity. }
  rewrite E. reflexivity.
Qed.

Lemma wide_table_agrees : keys_agree wide_table.
Proof.
  unfold wide_table. eapply keys_agree_step; [apply add_sample_step|].
  apply lists_agree_empty.
Qed.

(** The theorem at [one_class_table] and [wide_table]: ids ["a"], ["b"]
    and ["s1"], two features each. *)
Lemma add_disjoint_appends_witness :
  exists T C,
    lookup_all (targets wide_table) (keys wide_table) = Ok T /\
    lookup_all (classes wide_table) (keys wide_table) = Ok C /\
    __add__ one_class_table wide_table true
    = Ok (dataset_of (data one_class_table ++ data wide_table)
                     (TwoDicts (targets one_class_table ++ T)
                               (classes one_class_table ++ C))
                     (num_features one_class_table) (dtype one_class_table)
                     (description one_class_table) (feature_names one_class_table)
                     (names_in_list one_class_table)) /\
    od_len (data one_class_table ++ data wide_table)
    = num_samples one_class_table + num_samples wide_table.
Proof.
  apply (add_disjoint_appends one_class_table wide_table true NdArray).
  - unfold one_class_table.
    eapply keys_agree_step; [apply add_sample_step|].
    eapply keys_agree_step; [apply add_sample_step|].
    apply lists_agree_empty.
  - exact wide_table_agrees.
  - discriminate.
  - intros k [<-|[<-|[]]] [H|[]]; discriminate H.
  - reflexivity.
  - repeat constructor.
  - vm_compute. lia.
  - reflexivity.
  - repeat constructor.
Defined.

Lemma concatenate_size (a b : ndarray) : size (concatenate a b) = size a + size b.
Proof.
  unfold size, concatenate.
  destruct (a_data a) as [x|x], (a_data b) as [y|y]; simpl;
    rewrite ?length_app, ?length_map; reflexivity.
Qed.

Lemma concatenate_type (a b : ndarray) : type (concatenate a b) = NdArray.
Proof.
  unfold concatenate. destruct (a_data a), (a_data b); reflexivity.
Qed.

Lemma add_sample_first (k : pyatom) (v : ndarray) (t c : pyatom) :
  0 < size v ->
  add_sample empty_dataset k (PyArray v 0) t (Some c) false None
  = (mk_dataset [(k, v)] [(k, t)] [(k, c)] (size v) (Some (type v)) EmptyString
                (Some (__str_names (size v))), Ok tt).
Proof.
  intros Hpos. unfold add_sample, check_features. simpl.
  destruct (Nat.leb_spec (size v) 0); [lia|]. destruct v; reflexivity.
Qed.

(** The loop of [__add__] over a dataset that already holds a samplet, when
    every insertion passes its checks. *)
Lemma concat_loop_appends (self other : BaseDataset) (ids : list pyatom) :
  forall (acc : BaseDataset) (D : odict ndarray) (T C : odict pyatom),
    concat_all (data self) (data other) ids = Ok D ->
    lookup_all (targets self) ids = Ok T ->
    lookup_all (classes self) ids = Ok C ->
    NoDup ids ->
    (forall k, In k ids ->
               od_contains k (data acc) = false /\
               od_contains k (targets acc) = false /\
               od_contains k (classes acc) = false) ->
    0 < num_samples acc ->
    dtype acc = Some NdArray ->
    Forall (fun v => 0 < size v /\ size v = num_features acc) (od_values D) ->
    one_dict acc = false ->
    concat_loop self other ids acc
    = Ok (dataset_of (data acc ++ D) (TwoDicts (targets acc ++ T) (classes acc ++ C))
                     (num_features acc) (dtype acc) (description acc)
                     (feature_names acc) (names_in_list acc)).
Proof.
  induction ids as [|k r IH]; intros acc D T C HD HT HC Hnd Hfresh Hn Hdt Hall H2.
  - simpl in *. injection HD as <-. injection HT as <-. injection HC as <-.
    rewrite !app_nil_r. f_equal. now apply two_dicts_eta.
  - simpl in HD, HT, HC. simpl.
    destruct (od_getitem k (data self)) as [a|e]; simpl in HD; [|discriminate].
    destruct (od_getitem k (data other)) as [b|e]; simpl in HD; [|discriminate].
    destruct (concat_all (data self) (data other) r) as [D'|e]; simpl in HD;
      [|discriminate].
    destruct (od_getitem k (targets self)) as [t|e]; simpl in HT; [|discriminate].
    destruct (lookup_all (targets self) r) as [T'|e]; simpl in HT; [|discriminate].
    destruct (od_getitem k (classes self)) as [c|e]; simpl in HC; [|discriminate].
    destruct (lookup_all (classes self) r) as [C'|e]; simpl in HC; [|discriminate].
    injection HD as <-. injection HT as <-. injection HC as <-.
    inversion Hnd as [|? ? Hk Hr]; subst.
    unfold od_values in Hall. simpl in Hall.
    inversion Hall as [|? ? (Hpos & Hs) Hall']; subst.
    destruct (Hfresh k (or_introl eq_refl)) as (F1 & F2 & F3).
    assert (Hi : isinstance (concatenate a b) (dtype acc) = Ok true)
      by (rewrite Hdt; simpl; now rewrite concatenate_type).
    cbn [bind].
    rewrite (add_sample_appends acc k (concatenate a b) t c Hn F1 F2 F3 Hpos Hs Hi H2).
    rewrite (IH _ D' T' C' eq_refl eq_refl eq_refl Hr); simpl.
    + now rewrite <- !app_assoc.
    + intros x Hx. destruct (Hfresh x (or_intror Hx)) as (G1 & G2 & G3).
      assert (Hne : pyatom_eqb x k = false)
        by (apply pyatom_eqb_neq; intros ->; contradiction).
      unfold od_contains, od_keys, id_in in *.
      rewrite !map_app, !existsb_app. simpl. rewrite Hne, G1, G2, G3. auto.
    + unfold num_samples, od_len. simpl. destruct (data acc); simpl; lia.
    + exact Hdt.
    + exact Hall'.
    + reflexivity.
Qed.

Lemma concat_all_sizes (x y D : odict ndarray) (ks : list pyatom) (n m : nat) :
  concat_all x y ks = Ok D ->
  Forall (fun v => size v = n) (od_values x) ->
  Forall (fun v => size v = m) (od_values y) ->
  Forall (fun v => size v = n + m) (od_values D).
Proof.
  intros H Hx Hy. revert D H. induction ks as [|k r IH]; simpl; intros D H.
  - injection H as <-. constructor.
  - unfold od_getitem in H.
    destruct (od_find k x) as [a|] eqn:Ea; simpl in H; [|discriminate].
    destruct (od_find k y) as [b|] eqn:Eb; simpl in H; [|discriminate].
    destruct (concat_all x y r) as [D'|e]; simpl in H; [|discriminate].
    injection H as <-. unfold od_values. simpl. constructor; [|now apply IH].
    rewrite concatenate_size.
    assert (Hin : forall (d : odict ndarray) (w : ndarray),
               od_find k d = Some w -> In w (od_values d)).
    { clear. unfold od_values. induction d as [|[z u] d IHd]; simpl; [discriminate|].
      intros w. destruct (pyatom_eqb k z); [intros H; injection H as <-; now left|].
      intros H. right. now apply IHd. }
    rewrite Forall_forall in Hx, Hy.
    now rewrite (Hx a (Hin _ _ Ea)), (Hy b (Hin _ _ Eb)).
Qed.

Lemma concat_all_total (x y : odict ndarray) (ks : list pyatom) :
  (forall k, In k ks -> In k (od_keys x) /\ In k (od_keys y)) ->
  exists D, concat_all x y ks = Ok D.
Proof.
  induction ks as [|k ks IH]; simpl; intros H; [eauto|].
  destruct (H k (or_introl eq_refl)) as [Hx Hy].
  apply od_find_some_iff in Hx, Hy. destruct Hx as [a Ea], Hy as [b Eb].
  destruct IH as [D ED]; [intros z Hz; apply H; now right|].
  unfold od_getitem. rewrite Ea, Eb. simpl. rewrite ED. simpl. eauto.
Qed.

(** X14: take two datasets with the same id set, not empty, whose vectors
    and feature names have the length [num_features], the three mappings of
    the first being dictionaries over one key set, the second with at least
    one feature, and whose class mappings compare equal under [==] (item by
    item in their order when both are [OrderedDict]s, as plain dictionaries
    otherwise).  Then [__add__] joins the feature vectors under every id:
    the result has the ids, targets and classes of the first dataset in the
    order of its data, under every id the concatenation of the two vectors,
    as feature count the sum of the two feature counts, and as feature names
    the names of the first followed by the names of the second. *)
Theorem add_same_ids_joins_features (self other : BaseDataset) (both_ordered : bool) :
  keys_agree self -> uniform_length self -> uniform_length other ->
  data self <> [] ->
  (forall k, In k (keys self) <-> In k (keys other)) ->
  mapping_eqb both_ordered (classes self) (classes other) = true ->
  1 <= num_features other ->
  exists D T C n1 n2,
    concat_all (data self) (data other) (keys self) = Ok D /\
    lookup_all (targets self) (keys self) = Ok T /\
    lookup_all (classes self) (keys self) = Ok C /\
    feature_names self = Some n1 /\ feature_names other = Some n2 /\
    __add__ self other both_ordered
    = Ok (mk_dataset D T C (num_features self + num_features other) (Some NdArray)
                     EmptyString (Some (n1 ++ n2))).
Proof.
  intros Hs [Hs1 (n1 & En1 & Ln1)] [Hs2 (n2 & En2 & Ln2)] Hne Hsame Hcls Hnf.
  destruct Hs as (Sd & St & Sc & Sdt & Sdc).
  destruct (concat_all_total (data self) (data other) (keys self)) as [D HD].
  { intros k Hk. split; [exact Hk | now apply Hsame]. }
  destruct (lookup_all_total (targets self) (keys self)) as [T HT];
    [intros k Hk; now apply Sdt|].
  destruct (lookup_all_total (classes self) (keys self)) as [C HC];
    [intros k Hk; now apply Sdc|].
  exists D, T, C, n1, n2. repeat (split; [assumption|]).
  pose proof (concat_all_sizes _ _ _ _ _ _ HD Hs1 Hs2) as HDs.
  unfold __add__.
  rewrite (proj2 (set_eqb_spec _ _) Hsame), Hcls. simpl.
  destruct (Nat.ltb_spec (num_features other) 1); [lia|].
  destruct (data self) as [|[k0 a0] r0] eqn:Ed; [congruence|]. rewrite <- Ed in *.
  assert (Ek : keys self = k0 :: od_keys r0) by (unfold keys; now rewrite Ed).
  rewrite Ek in HD, HT, HC |- *.
  cbn [concat_all lookup_all] in HD, HT, HC. cbn [concat_loop].
  destruct (od_getitem k0 (data self)) as [a|e]; cbn [bind] in HD |- *; [|discriminate].
  destruct (od_getitem k0 (data other)) as [b|e]; cbn [bind] in HD |- *; [|discriminate].
  destruct (concat_all (data self) (data other) (od_keys r0)) as [D'|e] eqn:ED';
    cbn [bind] in HD; [|discriminate].
  destruct (od_getitem k0 (targets self)) as [t|e]; cbn [bind] in HT |- *;
    [|discriminate].
  destruct (lookup_all (targets self) (od_keys r0)) as [T'|e] eqn:ET';
    cbn [bind] in HT; [|discriminate].
  destruct (od_getitem k0 (classes self)) as [c|e]; cbn [bind] in HC |- *;
    [|discriminate].
  destruct (lookup_all (classes self) (od_keys r0)) as [C'|e] eqn:EC';
    cbn [bind] in HC; [|discriminate].
  injection HD as <-. injection HT as <-. injection HC as <-.
  unfold od_values in HDs. simpl in HDs. inversion HDs as [|? ? Hsz0 HDs']; subst.
  rewrite add_sample_first by lia.
  assert (Hnd : NoDup (k0 :: od_keys r0)).
  { unfold is_dict in Sd. rewrite Ed in Sd. exact Sd. }
  inversion Hnd as [|? ? Hk0 Hr0]; subst.
  rewrite (concat_loop_appends self other (od_keys r0) _ D' T' C' ED' ET' EC' Hr0);
    simpl.
  - rewrite En1, En2. simpl. unfold set_feature_names. simpl.
    rewrite length_app, Ln1, Ln2, Hsz0, Nat.eqb_refl. simpl.
    rewrite concatenate_type. reflexivity.
  - intros x Hx. unfold od_contains, id_in. simpl.
    assert (Hne' : pyatom_eqb x k0 = false)
      by (apply pyatom_eqb_neq; intros ->; contradiction).
    rewrite Hne'. auto.
  - unfold num_samples, od_len. simpl. lia.
  - now rewrite concatenate_type.
  - eapply Forall_impl; [|exact HDs']. simpl. intros v Hv. lia.
  - reflexivity.
Qed.

Lemma add_same_ids_joins_features_witness :
  exists D T C n1 n2,
    concat_all (data scenario_table) (data scenario_table) (keys scenario_table)
    = Ok D /\
    lookup_all (targets scenario_table) (keys scenario_table) = Ok T /\
    lookup_all (classes scenario_table) (keys scenario_table) = Ok C /\
    feature_names scenario_table = Some n1 /\
    feature_names scenario_table = Some n2 /\
    __add__ scenario_table scenario_table true
    = Ok (mk_dataset D T C (num_features scenario_table + num_features scenario_table)
                     (Some NdArray) EmptyString (Some (n1 ++ n2))).
Proof.
  apply (add_same_ids_joins_features scenario_table scenario_table true).
  - exact scenario_table_agrees.
  - exact scenario_table_uniform.
  - exact scenario_table_uniform.
  - discriminate.
  - tauto.
  - reflexivity.
  - vm_compute. lia.
Defined.

(* ================================================================== *)
(** ** transform *)

Lemma transform_loop_result (self : BaseDataset) (func : ndarray -> result pyfeat)
      (items : odict ndarray) :
  forall acc ds,
    order_agrees acc -> one_dict acc = false ->
    transform_loop self func items acc = Ok ds ->
    exists D T C,
      od_map_result (fun u => x <- func u ;; check_features x) items = Ok D /\
      lookup_all (targets self) (od_keys items) = Ok T /\
      lookup_all (classes self) (od_keys items) = Ok C /\
      data ds = data acc ++ D /\
      targets ds = targets acc ++ T /\
      classes ds = classes acc ++ C.
Proof.
  induction items as [|[k u] r IH]; intros acc ds Hord H2 H.
  - simpl in H. injection H as <-. exists [], [], []. simpl.
    now rewrite !app_nil_r.
  - simpl in H. simpl.
    destruct (func u) as [x|e]; cbn [bind] in H |- *; [|discriminate].
    destruct (od_getitem k (targets self)) as [t|e]; cbn [bind] in H |- *;
      [|discriminate].
    destruct (od_getitem k (classes self)) as [c|e]; cbn [bind] in H |- *;
      [|discriminate].
    pose proof (add_sample_ok_stores acc k x t (Some c) false None) as Hst.
    pose proof (add_sample_step acc k x t (Some c) false None) as Hstep.
    unfold outcome, state_after in Hst, Hstep.
    destruct (add_sample acc k x t (Some c) false None) as [acc' [[]|e]];
      [|discriminate].
    simpl in Hst, Hstep.
    destruct (Hst eq_refl) as ([Hk|Hk] & v & Hv & Ed & Et & Ec & Eo); [|discriminate].
    rewrite H2 in Et, Ec, Eo.
    destruct (ordered_in_all_or_none k acc Hord) as [Hc Ht]. rewrite Hk in Hc, Ht.
    rewrite od_setitem_fresh in Ed by assumption.
    rewrite od_setitem_fresh in Et by assumption.
    rewrite od_setitem_fresh in Ec by assumption.
    destruct (IH acc' ds (order_agrees_step _ _ Hstep Hord) Eo H)
      as (D & T & C & HD & HT & HC & E1 & E2 & E3).
    exists ((k, v) :: D), ((k, t) :: T), ((k, c) :: C).
    rewrite Hv, HD, HT, HC. simpl.
    rewrite E1, E2, E3, Ed, Et, Ec, <- !app_assoc. simpl. auto 10.
Qed.

(** X15: when [transform] returns, the new dataset has the ids of the
    dataset in the order of its data in all three mappings; under every id
    it holds the checked result of [func] on the features, and the target
    and the class found under that id in the dataset; its description is the
    description of the function, a line break, and the description of the
    dataset. *)
Theorem transform_keeps_ids_targets_classes (self : BaseDataset)
        (func : ndarray -> result pyfeat) (func_description : option string)
        (ds : BaseDataset) :
  transform self func func_description = Ok ds ->
  od_map_result (fun u => x <- func u ;; check_features x) (data self)
  = Ok (data ds) /\
  lookup_all (targets self) (keys self) = Ok (targets ds) /\
  lookup_all (classes self) (keys self) = Ok (classes ds) /\
  keys ds = keys self /\
  od_keys (targets ds) = keys self /\
  od_keys (classes ds) = keys self /\
  description ds = String.append (format_opt func_description)
                                 (String.append newline (description self)).
Proof.
  unfold transform.
  destruct (transform_loop self func (data self) empty_dataset) as [x|e] eqn:E;
    cbn [bind]; [|discriminate].
  destruct (transform_loop_result self func (data self) empty_dataset x
              lists_ordered_empty eq_refl E)
    as (D & T & C & HD & HT & HC & E1 & E2 & E3).
  simpl in E1, E2, E3. subst D T C.
  unfold set_description.
  destruct (String.eqb _ EmptyString); [discriminate|].
  intros H. injection H as <-. simpl.
  split; [exact HD|]. split; [exact HT|]. split; [exact HC|].
  split; [unfold keys; now apply (od_map_result_keys _ _ _ HD)|].
  split; [now apply (lookup_all_keys _ _ _ HT)|].
  split; [now apply (lookup_all_keys _ _ _ HC) | reflexivity].
Qed.

(** The theorem at the scenario table, with a function that keeps the two
    features in the other order. *)
Lemma transform_keeps_ids_targets_classes_witness :
  let swap := fun a : ndarray =>
                match arr_take a [1%Z; 0%Z] with
                | Ok b => Ok (PyArray b 0)
                | Raise e => Raise e
                end in
  exists ds,
    transform scenario_table swap (Some "swap") = Ok ds /\
    data ds = [(PStr "s1", ints [2%Z; 1%Z]); (PStr "s2", ints [4%Z; 3%Z])] /\
    lookup_all (targets scenario_table) (keys scenario_table) = Ok (targets ds) /\
    lookup_all (classes scenario_table) (keys scenario_table) = Ok (classes ds) /\
    keys ds = keys scenario_table.
Proof.
  intros swap. eexists. split; [reflexivity|]. split; [reflexivity|].
  pose proof (transform_keeps_ids_targets_classes scenario_table swap (Some "swap")
                _ eq_refl) as (_ & HT & HC & HK & _).
  split; [exact HT|]. split; [exact HC | exact HK].
Defined.

Lemma transform_loop_fails (self : BaseDataset) (func : ndarray -> result pyfeat)
      (items : odict ndarray) (u : ndarray) (e : exn) :
  In u (od_values items) -> func u = Raise e ->
  forall acc, exists e', transform_loop self func items acc = Raise e'.
Proof.
  unfold od_values. induction items as [|[k w] r IH]; simpl; intros Hin He acc;
    [contradiction|].
  destruct (func w) as [x|e0] eqn:Ew; cbn [bind]; [|eauto].
  destruct Hin as [->|Hin]; [congruence|].
  destruct (od_getitem k (targets self)) as [t|e1]; cbn [bind]; [|eauto].
  destruct (od_getitem k (classes self)) as [c|e1]; cbn [bind]; [|eauto].
  destruct (add_sample acc k x t (Some c) false None) as [acc' [[]|e1]]; [|eauto].
  now apply IH.
Qed.

(** X16: when [func] raises on the features of some samplet, [transform]
    raises too: no dataset is returned, not even one with the samplets that
    come before it. *)
Theorem transform_fails_as_a_whole (self : BaseDataset)
        (func : ndarray -> result pyfeat) (func_description : option string)
        (u : ndarray) (e : exn) :
  In u (od_values (data self)) -> func u = Raise e ->
  exists e', transform self func func_description = Raise e'.
Proof.
  intros Hin He. unfold transform.
  destruct (transform_loop_fails self func (data self) u e Hin He empty_dataset)
    as [e' E].
  rewrite E. simpl. eauto.
Qed.

Lemma transform_fails_as_a_whole_witness :
  let picky := fun a : ndarray =>
                 if np_all_eq a (ints [3%Z; 4%Z]) then Raise ArithmeticError
                 else Ok (PyArray a 0) in
  exists e', transform scenario_table picky None = Raise e'.
Proof.
  intros picky.
  apply (transform_fails_as_a_whole scenario_table picky None (ints [3%Z; 4%Z])
           ArithmeticError).
  - simpl. right. left. reflexivity.
  - reflexivity.
Defined.

(* ================================================================== *)
(** ** glance and keys_with_value *)

(** X17: [glance] never raises and shows a leading part of the data, in
    order.  On a dataset of two samplets or more it shows at least one
    samplet and never the last one, whatever number is asked for; on a
    dataset of at most one samplet it shows all there is. *)
Theorem glance_shows_leading_samplets (self : BaseDataset) (nitems : Z) :
  exists shown rest,
    glance self nitems = Ok shown /\
    data self = shown ++ rest /\
    (2 <= num_samples self ->
     1 <= List.length shown /\ rest <> [] /\
     Z.of_nat (List.length shown)
     = Z.max 1 (Z.min nitems (Z.of_nat (num_samples self) - 1))) /\
    (num_samples self <= 1 -> shown = data self).
Proof.
  unfold glance, __take, num_samples, od_len.
  set (n := Z.max 1 (Z.min nitems (Z.of_nat (List.length (data self)) - 1))).
  assert (Hn : (1 <= n)%Z) by (unfold n; lia).
  destruct (Z.ltb_spec n 0); [lia|].
  exists (firstn (Z.to_nat n) (data self)), (skipn (Z.to_nat n) (data self)).
  split; [reflexivity|]. split; [symmetry; apply firstn_skipn|]. split.
  - intros H2.
    assert (Hle : (n <= Z.of_nat (List.length (data self)) - 1)%Z) by (unfold n; lia).
    rewrite length_firstn.
    split; [lia|]. split; [|lia].
    intros E. apply (f_equal (@List.length _)) in E.
    rewrite length_skipn in E. simpl in E. lia.
  - intros H1. apply firstn_all2. lia.
Qed.

Lemma glance_shows_leading_samplets_witness :
  exists shown rest,
    glance scenario_table 5 = Ok shown /\
    data scenario_table = shown ++ rest /\
    1 <= List.length shown /\ rest <> [].
Proof.
  destruct (glance_shows_leading_samplets scenario_table 5)
    as (shown & rest & E & Ed & H2 & _).
  destruct H2 as (A & B & _); [vm_compute; lia|].
  exists shown, rest. auto.
Defined.

Lemma keys_with_value_cons (k : pyatom) (v value : pyatom) (r : odict pyatom) :
  ~ In k (od_keys r) ->
  keys_with_value ((k, v) :: r) value
  = (if pyatom_eqb v value then [k] else []) ++ keys_with_value r value.
Proof.
  intros Hk. unfold keys_with_value. simpl. rewrite pyatom_eqb_refl.
  assert (E : filter (fun key => match (if pyatom_eqb key k then Some v
                                          else od_find key r) with
                                   | Some v0 => pyatom_eqb v0 value
                                   | None => false
                                   end) (od_keys r)
              = filter (fun key => match od_find key r with
                                   | Some v0 => pyatom_eqb v0 value
                                   | None => false
                                   end) (od_keys r)).
  { apply filter_ext_in. intros x Hx.
    destruct (pyatom_eqb x k) eqn:Ex; [|reflexivity].
    apply pyatom_eqb_eq in Ex. subst x. contradiction. }
  rewrite E. destruct (pyatom_eqb v value); reflexivity.
Qed.

(** X18: [keys_with_value] lists, in the order of the dictionary, the keys
    under which the given value is stored; applied to the classes of a
    dataset it lists as many ids as [class_sizes] counts for that class. *)
Theorem keys_with_value_lists_the_class (self : BaseDataset) (cls : pyatom) :
  is_dict (classes self) ->
  (forall k, In k (keys_with_value (classes self) cls) <->
             od_find k (classes self) = Some cls) /\
  List.length (keys_with_value (classes self) cls) = class_sizes self cls.
Proof.
  intros Hd. split.
  - intros k. unfold keys_with_value. rewrite filter_In. split.
    + intros [_ H]. destruct (od_find k (classes self)) as [v|]; [|discriminate].
      apply pyatom_eqb_eq in H. now subst.
    + intros H. split; [apply od_find_some_iff; eauto|].
      rewrite H. apply pyatom_eqb_refl.
  - unfold class_sizes, od_values. unfold is_dict, od_keys in Hd.
    induction (classes self) as [|[k v] r IH]; [reflexivity|].
    inversion Hd as [|? ? Hk Hr]; subst.
    rewrite keys_with_value_cons by exact Hk.
    rewrite length_app, (IH Hr). simpl. rewrite (pyatom_eqb_sym cls v).
    destruct (pyatom_eqb v cls); reflexivity.
Qed.

Lemma keys_with_value_lists_the_class_witness :
  (forall k, In k (keys_with_value (classes one_class_table) (PStr "0")) <->
             od_find k (classes one_class_table) = Some (PStr "0")) /\
  List.length (keys_with_value (classes one_class_table) (PStr "0"))
  = class_sizes one_class_table (PStr "0").
Proof.
  apply (keys_with_value_lists_the_class one_class_table (PStr "0")).
  repeat constructor; simpl; intuition discriminate.
Defined.

(* ================================================================== *)
(** ** The targets and classes setters *)

(** X19: given a dictionary (one that the dataset does not hold), the
    [targets] setter of a dataset whose mappings share their key set accepts
    it exactly when its key set is the key set of the data; it then replaces
    the targets and nothing else.  Otherwise it raises [ValueError] and
    leaves the dataset as it was.  The [classes] setter does the same for
    the classes.  Handed the dictionary that the dataset holds as its other
    label mapping, either setter accepts it and the dataset then holds that
    one dictionary as both. *)
Theorem setters_accept_the_same_key_set (self : BaseDataset) (values : odict pyatom) :
  keys_agree self -> is_dict values ->
  (same_key_set (data self) values ->
   set_targets self (OtherDict values) = (with_targets self values, Ok tt) /\
   set_classes self (OtherDict values) = (with_classes self values, Ok tt)) /\
  (~ same_key_set (data self) values ->
   set_targets self (OtherDict values) = (self, Raise ValueError) /\
   set_classes self (OtherDict values) = (self, Raise ValueError)) /\
  set_targets self HeldClasses = (with_labels self (OneDict (classes self)), Ok tt) /\
  set_classes self HeldTargets = (with_labels self (OneDict (targets self)), Ok tt).
Proof.
  intros (Hd & Ht & Hc & Hdt & Hdc) Hv. unfold set_targets, set_classes.
  split; [|split; [|split]].
  - intros Hs. simpl. rewrite (same_keys_same_len _ _ Hd Hv Hs), Nat.eqb_refl. simpl.
    unfold keys. rewrite (proj2 (set_eqb_spec _ _) Hs). auto.
  - intros Hs. simpl.
    destruct (negb (Nat.eqb (od_len (data self)) (od_len values)));
      [auto|].
    destruct (set_eqb (keys self) (od_keys values)) eqn:E; [|auto].
    exfalso. apply Hs. rewrite set_eqb_spec in E. exact E.
  - simpl. rewrite (same_keys_same_len _ _ Hd Hc Hdc), Nat.eqb_refl. simpl.
    unfold keys. now rewrite (proj2 (set_eqb_spec _ _) Hdc).
  - simpl. rewrite (same_keys_same_len _ _ Hd Ht Hdt), Nat.eqb_refl. simpl.
    unfold keys. now rewrite (proj2 (set_eqb_spec _ _) Hdt).
Qed.

Lemma setters_accept_the_same_key_set_witness :
  set_targets scenario_table (OtherDict [(PStr "s2", PInt 7); (PStr "s1", PInt 8)])
  = (with_targets scenario_table [(PStr "s2", PInt 7); (PStr "s1", PInt 8)], Ok tt) /\
  set_targets scenario_table (OtherDict [(PStr "s2", PInt 7); (PStr "zz", PInt 8)])
  = (scenario_table, Raise ValueError).
Proof.
  assert (N1 : is_dict [(PStr "s2", PInt 7); (PStr "s1", PInt 8)])
    by (repeat constructor; simpl; intuition discriminate).
  assert (N2 : is_dict [(PStr "s2", PInt 7); (PStr "zz", PInt 8)])
    by (repeat constructor; simpl; intuition discriminate).
  destruct (setters_accept_the_same_key_set scenario_table _ scenario_table_agrees N1)
    as [H1 _].
  destruct (setters_accept_the_same_key_set scenario_table _ scenario_table_agrees N2)
    as [_ H2].
  split.
  - apply H1. intros k. simpl. tauto.
  - apply H2. intros H. destruct (H (PStr "zz")) as [_ H'].
    destruct H' as [E|[E|[]]]; [simpl; auto | discriminate E | discriminate E].
Defined.

(* ================================================================== *)
(** ** Selections that train_test_split_ids refuses *)

(** X20: [train_test_split_ids] raises [ValueError], whatever the drawing
    methods are, on a dataset without classes (for every choice of
    arguments), for a fraction that is not strictly between 0 and 1, and for
    a count that is not positive. *)
Theorem split_refuses_invalid_selection
        (rs : BaseDataset -> float -> result (list pyatom))
        (rc : BaseDataset -> Z -> result (list pyatom))
        (self : BaseDataset) :
  (classes self = [] ->
   forall p c, train_test_split_ids rs rc self p c = Raise ValueError) /\
  (forall p, PrimFloat.ltb 0 p && PrimFloat.ltb p 1 = false ->
             train_test_split_ids rs rc self (Some p) None = Raise ValueError) /\
  (forall c, (c <= 0)%Z ->
             train_test_split_ids rs rc self None (Some c) = Raise ValueError).
Proof.
  split; [|split].
  - intros E p c. unfold train_test_split_ids, summarize_classes, class_set, od_values.
    rewrite E. reflexivity.
  - intros p Hp. unfold train_test_split_ids.
    destruct (np_min (summarize_classes self)) as [m|e] eqn:E; simpl.
    + now rewrite Hp.
    + unfold np_min in E. destruct (summarize_classes self); [|discriminate].
      now injection E as <-.
  - intros c Hc. unfold train_test_split_ids.
    destruct (np_min (summarize_classes self)) as [m|e] eqn:E; simpl.
    + destruct (Z.gtb_spec c 0); [lia | reflexivity].
    + unfold np_min in E. destruct (summarize_classes self); [|discriminate].
      now injection E as <-.
Qed.

Lemma split_refuses_invalid_selection_witness :
  train_test_split_ids draw_first draw_first empty_dataset (Some 0.5%float) None
  = Raise ValueError /\
  train_test_split_ids draw_first draw_first one_class_table (Some 1.5%float) None
  = Raise ValueError /\
  train_test_split_ids draw_first draw_first one_class_table None (Some 0%Z)
  = Raise ValueError.
Proof.
  destruct (split_refuses_invalid_selection draw_first draw_first empty_dataset)
    as (H1 & _).
  destruct (split_refuses_invalid_selection draw_first draw_first one_class_table)
    as (_ & H2 & H3).
  split; [apply H1; reflexivity|]. split; [apply H2; reflexivity | apply H3; lia].
Defined.

(* ================================================================== *)
(** ** get_feature_subset with indices that are not negative *)





(** [listed_names_table] is what the bulk constructor returns when it is
    given the names as a list. *)
Remark listed_names_table_built :
  __init__ None (Some (data scenario_table)) (Some (targets scenario_table))
           (Some (classes scenario_table)) EmptyString (Some (NameList ["x"; "y"]))
  = Ok listed_names_table.
Proof. reflexivity. Qed.


(* ================================================================== *)
(** ** A dataset and its copy *)

Lemma od_find_first {V : Type} (k : pyatom) (v : V) (d : odict V) :
  is_dict d -> In (k, v) d -> od_find k d = Some v.
Proof.
  unfold is_dict, od_keys. induction d as [|[x w] r IH]; simpl; intros Hd Hin;
    [contradiction|].
  inversion Hd as [|? ? Hx Hr]; subst.
  destruct Hin as [E|Hin].
  - injection E as -> ->. now rewrite pyatom_eqb_refl.
  - destruct (pyatom_eqb k x) eqn:E; [|now apply IH].
    apply pyatom_eqb_eq in E. subst x. exfalso. apply Hx.
    apply in_map_iff. now exists (k, v).
Qed.

Lemma dict_eqb_refl (x : odict pyatom) : is_dict x -> dict_eqb x x = true.
Proof.
  intros Hd. unfold dict_eqb. rewrite Nat.eqb_refl. simpl.
  apply forallb_forall. intros [k v] Hin. simpl.
  rewrite (od_find_first k v x Hd Hin). apply pyatom_eqb_refl.
Qed.

Lemma set_eqb_refl (l : list pyatom) : set_eqb l l = true.
Proof. apply set_eqb_spec. tauto. Qed.

Lemma od_find_value {V : Type} (k : pyatom) (v : V) (d : odict V) :
  od_find k d = Some v -> In v (od_values d).
Proof.
  unfold od_values. induction d as [|[x w] r IH]; simpl; [discriminate|].
  destruct (pyatom_eqb k x); [intros H; injection H as <-; now left|].
  intros H. right. now apply IH.
Qed.

(** X22: a dataset whose feature vectors are [int64] arrays compares equal,
    by [__eq__], to the copy the copy constructor makes of it, in both
    directions. *)
Theorem copy_compares_equal (self copy : BaseDataset)
        (d : option (odict ndarray)) (t c : option (odict pyatom))
        (descr : string) (names : option name_seq) :
  is_dict (classes self) ->
  Forall (fun v => elem_type v = Int64) (od_values (data self)) ->
  __init__ (Some self) d t c descr names = Ok copy ->
  __eq__ self copy false = Ok true /\ __eq__ copy self false = Ok true.
Proof.
  intros Hd Hint H. apply init_copy in H. subst copy.
  assert (L : forall a b b' ids, data b = data b' -> eq_loop a b ids = eq_loop a b' ids).
  { intros a b b' ids E. induction ids as [|k r IH]; simpl; [reflexivity|].
    now rewrite E, IH. }
  assert (R : forall a a' b ids, data a = data a' -> eq_loop a b ids = eq_loop a' b ids).
  { intros a a' b ids E. induction ids as [|k r IH]; simpl; [reflexivity|].
    now rewrite E, IH. }
  assert (G : __eq__ self self false = Ok true).
  2:{ split; [rewrite <- G | rewrite <- G]; unfold __eq__, keys; simpl;
        [rewrite (L self (__copy self) self) by reflexivity
        |rewrite (R (__copy self) self self) by reflexivity]; reflexivity. }
  apply eq_true_iff. split; [apply set_eqb_refl|]. split; [now apply dict_eqb_refl|].
  intros k va vb Ea Eb. rewrite Ea in Eb. injection Eb as <-.
  rewrite Forall_forall in Hint. specialize (Hint va (od_find_value _ _ _ Ea)).
  destruct va as [cl [l|l]]; [|discriminate].
  apply np_all_eq_same_length; reflexivity.
Qed.

Lemma copy_compares_equal_witness :
  __eq__ scenario_table scenario_table false = Ok true.
Proof.
  apply (copy_compares_equal scenario_table scenario_table None None None
           EmptyString None).
  - repeat constructor; simpl; intuition discriminate.
  - repeat constructor.
  - reflexivity.
Defined.

(* ================================================================== *)
(** ** The data setter *)

(** X23: the [data] setter refuses every dictionary on a dataset without
    targets, so it cannot fill an empty dataset; on any dataset it refuses a
    dictionary whose number of entries differs from the number of targets,
    in both cases with [ValueError] and without a change.  When it accepts a
    dictionary, the data are replaced, [num_features] becomes the length of
    the first vector given, the feature names become the default names, and
    targets and classes stay as they were. *)
Theorem data_setter_behaviour (self : BaseDataset) (values : odict ndarray) :
  (targets self = [] -> set_data self values = (self, Raise ValueError)) /\
  (od_len values <> od_len (targets self) ->
   set_data self values = (self, Raise ValueError)) /\
  (outcome (set_data self values) = Ok tt ->
   exists k0 v0 r,
     values = (k0, v0) :: r /\
     state_after (set_data self values)
     = with_feature_names
         (with_num_features (with_data self values) (size v0))
         (Some (__str_names (size v0))) /\
     data (state_after (set_data self values)) = values /\
     num_features (state_after (set_data self values)) = size v0 /\
     feature_names (state_after (set_data self values))
     = Some (__str_names (size v0)) /\
     labels (state_after (set_data self values)) = labels self /\
     dtype (state_after (set_data self values)) = dtype self /\
     description (state_after (set_data self values)) = description self).
Proof.
  unfold set_data, outcome, state_after. split; [|split].
  - intros E. rewrite E. destruct values as [|kv r]; reflexivity.
  - intros Hne. destruct (Nat.eqb_spec (od_len (targets self)) (od_len values));
      [congruence | reflexivity].
  - destruct (negb (Nat.eqb (od_len (targets self)) (od_len values)));
      [discriminate|].
    destruct values as [|[k0 v0] r]; [discriminate|]. simpl.
    unfold od_getitem. simpl. rewrite pyatom_eqb_refl. simpl.
    intros _. exists k0, v0, r. auto 10.
Qed.

Lemma data_setter_behaviour_witness :
  set_data empty_dataset [(PStr "a", ints [1%Z])] = (empty_dataset, Raise ValueError) /\
  set_data scenario_table [(PStr "a", ints [1%Z])] = (scenario_table, Raise ValueError) /\
  exists k0 v0 r,
    [(PStr "x", ints [7%Z]); (PStr "y", ints [8%Z])] = (k0, v0) :: r /\
    state_after (set_data scenario_table [(PStr "x", ints [7%Z]); (PStr "y", ints [8%Z])])
    = mk_dataset [(PStr "x", ints [7%Z]); (PStr "y", ints [8%Z])]
                 (targets scenario_table) (classes scenario_table) (size v0)
                 (dtype scenario_table) (description scenario_table)
                 (Some (__str_names (size v0))).
Proof.
  destruct (data_setter_behaviour empty_dataset [(PStr "a", ints [1%Z])]) as (H1 & _).
  destruct (data_setter_behaviour scenario_table [(PStr "a", ints [1%Z])])
    as (_ & H2 & _).
  destruct (data_setter_behaviour scenario_table
              [(PStr "x", ints [7%Z]); (PStr "y", ints [8%Z])]) as (_ & _ & H3).
  split; [apply H1; reflexivity|].
  split; [apply H2; vm_compute; discriminate|].
  destruct (H3 eq_refl) as (k0 & v0 & r & E & Es & _).
  exists k0, v0, r. split; [exact E|]. rewrite Es. reflexivity.
Defined.

(* ================================================================== *)
(** ** Lookup by id *)

(** X24: for an id of the dataset [__getitem__] and [get] return the
    features stored under it; for any other id [__getitem__] raises
    [KeyError] and [get] returns the value it was given for that case. *)
Theorem lookup_by_id {D : Type} (self : BaseDataset) (item : pyatom) (default : D) :
  (__contains__ self item = true ->
   exists v, od_find item (data self) = Some v /\
             __getitem__ self item = Ok v /\
             get self item default = Ok (inl v)) /\
  (__contains__ self item = false ->
   od_find item (data self) = None /\
   __getitem__ self item = Raise KeyError /\
   get self item default = Ok (inr default)).
Proof.
  unfold __contains__, __getitem__, get, od_getitem.
  destruct (id_in item (keys self)) eqn:E; split; try discriminate; intros _.
  - apply id_in_In in E. apply od_find_some_iff in E. destruct E as [v Ev].
    exists v. rewrite Ev. auto.
  - apply id_in_not_In in E. apply od_find_none_iff_keys in E. auto.
Qed.

Lemma lookup_by_id_witness :
  (exists v, od_find (PStr "s2") (data scenario_table) = Some v /\
             __getitem__ scenario_table (PStr "s2") = Ok v /\
             get scenario_table (PStr "s2") 0 = Ok (inl v)) /\
  (od_find (PStr "zz") (data scenario_table) = None /\
   __getitem__ scenario_table (PStr "zz") = Raise KeyError /\
   get scenario_table (PStr "zz") 0 = Ok (inr 0)).
Proof.
  split.
  - apply (proj1 (lookup_by_id scenario_table (PStr "s2") 0)). reflexivity.
  - apply (proj2 (lookup_by_id scenario_table (PStr "zz") 0)). reflexivity.
Defined.
